(** * Aliyun-Signin: a shallow embedding of [app.py]

    The development follows the source file top to bottom: the Python
    values the program handles, the built-in operations it applies to
    them, the HTTP world it talks to, the [SignIn] class, the notification
    dispatcher [push], the redeemer [reward_code] and the aggregator
    [main]; the theorems come last.

    Modelling conventions.
    - A Python [str] is a Rocq [string]; one [ascii] stands for one
      character of the credential, and text outside ASCII is carried as
      its UTF-8 bytes.  The methods [str.lower] and [str.strip], which
      follow the Unicode character database, are parameters of the
      program.
    - A decoded JSON document is a [value]; numbers are integers.
    - A [dict] is an association list in insertion order, looked up from
      its head.
    - An exception is a value of [exn]; code that may raise returns a
      [result].  Methods that mutate [self] or talk to the network run in
      the state-and-exception monad [M].
    - Calls to [logging] have no effect on any value and are left out. *)

From Stdlib Require Import ZArith List String Ascii Bool Lia DecimalString.
Import ListNotations.
Set Warnings "-register-all".
Open Scope string_scope.

(** ** Python values *)

Inductive value : Type :=
| VNone
| VBool (b : bool)
| VInt (z : Z)
| VStr (s : string)
| VList (l : list value)
| VDict (d : list (string * value)).

Inductive exn : Type :=
| KeyError (key : string)
| TypeError
| IndexError
| RequestException (msg : string).

Inductive result (A : Type) : Type :=
| Ok (a : A)
| Raise (e : exn).
Arguments Ok {A} a.
Arguments Raise {A} e.

Definition rbind {A B} (r : result A) (k : A -> result B) : result B :=
  match r with
  | Ok a => k a
  | Raise e => Raise e
  end.

Declare Scope result_scope.
Delimit Scope result_scope with result.
Notation "x <- r ;; k" := (rbind r (fun x => k))
  (at level 61, r at next level, right associativity) : result_scope.

(** ** Built-in operations *)

(** [bool(v)]: the truth value Python gives to [v] in [if], [not] and [or]. *)
Definition truthy (v : value) : bool :=
  match v with
  | VNone => false
  | VBool b => b
  | VInt z => negb (Z.eqb z 0)
  | VStr s => negb (String.eqb s "")
  | VList l => match l with [] => false | _ => true end
  | VDict d => match d with [] => false | _ => true end
  end.

(** [a or b]. *)
Definition py_or (a b : value) : value := if truthy a then a else b.

(** [v == s] for a string literal [s]. *)
Definition eq_str (v : value) (s : string) : bool :=
  match v with
  | VStr t => String.eqb t s
  | _ => false
  end.

(** [v in [s1, s2, ...]] for a list of string literals. *)
Definition in_strs (v : value) (l : list string) : bool := existsb (eq_str v) l.

Fixpoint lookup {A} (k : string) (d : list (string * A)) : option A :=
  match d with
  | [] => None
  | (k', v) :: d' => if String.eqb k k' then Some v else lookup k d'
  end.

(** [v[k]] for a string key: only a dict can be subscripted by a string. *)
Definition getitem (v : value) (k : string) : result value :=
  match v with
  | VDict d => match lookup k d with Some x => Ok x | None => Raise (KeyError k) end
  | _ => Raise TypeError
  end.

Fixpoint is_prefix (p s : string) : bool :=
  match p, s with
  | EmptyString, _ => true
  | String a p', String b s' => Ascii.eqb a b && is_prefix p' s'
  | String _ _, EmptyString => false
  end.

Fixpoint is_substring (p s : string) : bool :=
  is_prefix p s || match s with EmptyString => false | String _ s' => is_substring p s' end.

(** [k in v] for a string [k]: key of a dict, element of a list, substring
    of a string; the other values are not containers. *)
Definition contains (v : value) (k : string) : result bool :=
  match v with
  | VDict d => Ok (match lookup k d with Some _ => true | None => false end)
  | VList l => Ok (existsb (fun x => eq_str x k) l)
  | VStr s => Ok (is_substring k s)
  | _ => Raise TypeError
  end.

Definition chars (s : string) : list value :=
  map (fun c => VStr (String c "")) (list_ascii_of_string s).

(** The elements a [for] loop visits. *)
Definition py_iter (v : value) : result (list value) :=
  match v with
  | VList l => Ok l
  | VDict d => Ok (map (fun kv => VStr (fst kv)) d)
  | VStr s => Ok (chars s)
  | _ => Raise TypeError
  end.

(** [l[i]] on a sequence of length [n]: a negative index counts from the end. *)
Definition index {A} (l : list A) (i : Z) : result A :=
  let n := Z.of_nat (List.length l) in
  let j := if (i <? 0)%Z then (i + n)%Z else i in
  if (j <? 0)%Z then Raise IndexError
  else match nth_error l (Z.to_nat j) with
       | Some x => Ok x
       | None => Raise IndexError
       end.

(** [str(z)] of an integer. *)
Definition str_of_Z (z : Z) : string := NilZero.string_of_int (Z.to_int z).

(** [v[i]] for an integer [i]. *)
Definition getitem_int (v : value) (i : Z) : result value :=
  match v with
  | VList l => index l i
  | VStr s => index (chars s) i
  | VDict _ => Raise (KeyError (str_of_Z i))
  | _ => Raise TypeError
  end.

(** Slices [l[lo:hi]]; an absent bound is [None].  Bounds are clamped, so a
    slice never raises. *)
Definition clamp (n i : Z) : Z :=
  if (i <? 0)%Z then Z.max (i + n) 0 else Z.min i n.

Definition slice {A} (lo hi : option Z) (l : list A) : list A :=
  let n := Z.of_nat (List.length l) in
  let a := match lo with Some i => clamp n i | None => 0%Z end in
  let b := match hi with Some i => clamp n i | None => n end in
  firstn (Z.to_nat (b - a)) (skipn (Z.to_nat a) l).

Definition str_slice (lo hi : option Z) (s : string) : string :=
  string_of_list_ascii (slice lo hi (list_ascii_of_string s)).

(** [c * n] for a one-character string [c]. *)
Definition str_repeat (c : ascii) (n : nat) : string :=
  string_of_list_ascii (repeat c n).

(** [sep.join(l)]. *)
Definition join (sep : string) (l : list string) : string := String.concat sep l.

(** *** Rendering *)

Definition quote : ascii := "034"%char.
Definition apostrophe : ascii := "039"%char.
Definition backslash : ascii := "092"%char.
Definition newline : ascii := "010"%char.

Definition hex_digit (n : N) : ascii :=
  nth (N.to_nat n) (list_ascii_of_string "0123456789abcdef") "0"%char.

Definition hex2 (c : ascii) : string :=
  let n := N_of_ascii c in
  String (hex_digit (n / 16)) (String (hex_digit (n mod 16)) "").

Definition has_char (c : ascii) (s : string) : bool :=
  existsb (Ascii.eqb c) (list_ascii_of_string s).

Definition flat_map_str (f : ascii -> string) (s : string) : string :=
  String.concat "" (map f (list_ascii_of_string s)).

(** *** Characters

    A [str] is carried as its UTF-8 bytes.  [code_points] reads the
    characters back, each with its code point and its bytes.  A byte
    that begins no sequence, which the encoding of a [str] never holds,
    counts as a character of its own. *)
Definition low6 (c : ascii) : N := N_of_ascii c mod 64.

Fixpoint code_points (l : list ascii) : list (N * string) :=
  match l with
  | [] => []
  | b0 :: l1 =>
      let n0 := N_of_ascii b0 in
      let single := (n0, String b0 "") :: code_points l1 in
      if N.ltb n0 0xc0 then single
      else
        match l1 with
        | [] => single
        | b1 :: l2 =>
            if N.ltb n0 0xe0
            then ((n0 - 0xc0) * 64 + low6 b1, String b0 (String b1 ""))%N :: code_points l2
            else
              match l2 with
              | [] => single
              | b2 :: l3 =>
                  if N.ltb n0 0xf0
                  then (((n0 - 0xe0) * 64 + low6 b1) * 64 + low6 b2,
                        String b0 (String b1 (String b2 "")))%N :: code_points l3
                  else
                    match l3 with
                    | [] => single
                    | b3 :: l4 =>
                        ((((n0 - 0xf0) * 64 + low6 b1) * 64 + low6 b2) * 64 + low6 b3,
                         String b0 (String b1 (String b2 (String b3 ""))))%N
                        :: code_points l4
                    end
              end
        end
  end.

(** The code points from 128 on for which [str.isprintable] is false
    (categories Cc, Cf, Cs, Co, Cn, Zl, Zp and Zs of the Unicode
    character database, version 14.0 of CPython 3.11), as closed
    ranges. *)
Definition non_printable_ranges : list (N * N) :=
  [(0x80, 0xa0); (0xad, 0xad); (0x378, 0x379); (0x380, 0x383); (0x38b, 0x38b);
   (0x38d, 0x38d); (0x3a2, 0x3a2); (0x530, 0x530); (0x557, 0x558); (0x58b, 0x58c);
   (0x590, 0x590); (0x5c8, 0x5cf); (0x5eb, 0x5ee); (0x5f5, 0x605); (0x61c, 0x61c);
   (0x6dd, 0x6dd); (0x70e, 0x70f); (0x74b, 0x74c); (0x7b2, 0x7bf); (0x7fb, 0x7fc);
   (0x82e, 0x82f); (0x83f, 0x83f); (0x85c, 0x85d); (0x85f, 0x85f); (0x86b, 0x86f);
   (0x88f, 0x897); (0x8e2, 0x8e2); (0x984, 0x984); (0x98d, 0x98e); (0x991, 0x992);
   (0x9a9, 0x9a9); (0x9b1, 0x9b1); (0x9b3, 0x9b5); (0x9ba, 0x9bb); (0x9c5, 0x9c6);
   (0x9c9, 0x9ca); (0x9cf, 0x9d6); (0x9d8, 0x9db); (0x9de, 0x9de); (0x9e4, 0x9e5);
   (0x9ff, 0xa00); (0xa04, 0xa04); (0xa0b, 0xa0e); (0xa11, 0xa12); (0xa29, 0xa29);
   (0xa31, 0xa31); (0xa34, 0xa34); (0xa37, 0xa37); (0xa3a, 0xa3b); (0xa3d, 0xa3d);
   (0xa43, 0xa46); (0xa49, 0xa4a); (0xa4e, 0xa50); (0xa52, 0xa58); (0xa5d, 0xa5d);
   (0xa5f, 0xa65); (0xa77, 0xa80); (0xa84, 0xa84); (0xa8e, 0xa8e); (0xa92, 0xa92);
   (0xaa9, 0xaa9); (0xab1, 0xab1); (0xab4, 0xab4); (0xaba, 0xabb); (0xac6, 0xac6);
   (0xaca, 0xaca); (0xace, 0xacf); (0xad1, 0xadf); (0xae4, 0xae5); (0xaf2, 0xaf8);
   (0xb00, 0xb00); (0xb04, 0xb04); (0xb0d, 0xb0e); (0xb11, 0xb12); (0xb29, 0xb29);
   (0xb31, 0xb31); (0xb34, 0xb34); (0xb3a, 0xb3b); (0xb45, 0xb46); (0xb49, 0xb4a);
   (0xb4e, 0xb54); (0xb58, 0xb5b); (0xb5e, 0xb5e); (0xb64, 0xb65); (0xb78, 0xb81);
   (0xb84, 0xb84); (0xb8b, 0xb8d); (0xb91, 0xb91); (0xb96, 0xb98); (0xb9b, 0xb9b);
   (0xb9d, 0xb9d); (0xba0, 0xba2); (0xba5, 0xba7); (0xbab, 0xbad); (0xbba, 0xbbd);
   (0xbc3, 0xbc5); (0xbc9, 0xbc9); (0xbce, 0xbcf); (0xbd1, 0xbd6); (0xbd8, 0xbe5);
   (0xbfb, 0xbff); (0xc0d, 0xc0d); (0xc11, 0xc11); (0xc29, 0xc29); (0xc3a, 0xc3b);
   (0xc45, 0xc45); (0xc49, 0xc49); (0xc4e, 0xc54); (0xc57, 0xc57); (0xc5b, 0xc5c);
   (0xc5e, 0xc5f); (0xc64, 0xc65); (0xc70, 0xc76); (0xc8d, 0xc8d); (0xc91, 0xc91);
   (0xca9, 0xca9); (0xcb4, 0xcb4); (0xcba, 0xcbb); (0xcc5, 0xcc5); (0xcc9, 0xcc9);
   (0xcce, 0xcd4); (0xcd7, 0xcdc); (0xcdf, 0xcdf); (0xce4, 0xce5); (0xcf0, 0xcf0);
   (0xcf3, 0xcff); (0xd0d, 0xd0d); (0xd11, 0xd11); (0xd45, 0xd45); (0xd49, 0xd49);
   (0xd50, 0xd53); (0xd64, 0xd65); (0xd80, 0xd80); (0xd84, 0xd84); (0xd97, 0xd99);
   (0xdb2, 0xdb2); (0xdbc, 0xdbc); (0xdbe, 0xdbf); (0xdc7, 0xdc9); (0xdcb, 0xdce);
   (0xdd5, 0xdd5); (0xdd7, 0xdd7); (0xde0, 0xde5); (0xdf0, 0xdf1); (0xdf5, 0xe00);
   (0xe3b, 0xe3e); (0xe5c, 0xe80); (0xe83, 0xe83); (0xe85, 0xe85); (0xe8b, 0xe8b);
   (0xea4, 0xea4); (0xea6, 0xea6); (0xebe, 0xebf); (0xec5, 0xec5); (0xec7, 0xec7);
   (0xece, 0xecf); (0xeda, 0xedb); (0xee0, 0xeff); (0xf48, 0xf48); (0xf6d, 0xf70);
   (0xf98, 0xf98); (0xfbd, 0xfbd); (0xfcd, 0xfcd); (0xfdb, 0xfff); (0x10c6, 0x10c6);
   (0x10c8, 0x10cc); (0x10ce, 0x10cf); (0x1249, 0x1249); (0x124e, 0x124f);
   (0x1257, 0x1257); (0x1259, 0x1259); (0x125e, 0x125f); (0x1289, 0x1289);
   (0x128e, 0x128f); (0x12b1, 0x12b1); (0x12b6, 0x12b7); (0x12bf, 0x12bf);
   (0x12c1, 0x12c1); (0x12c6, 0x12c7); (0x12d7, 0x12d7); (0x1311, 0x1311);
   (0x1316, 0x1317); (0x135b, 0x135c); (0x137d, 0x137f); (0x139a, 0x139f);
   (0x13f6, 0x13f7); (0x13fe, 0x13ff); (0x1680, 0x1680); (0x169d, 0x169f);
   (0x16f9, 0x16ff); (0x1716, 0x171e); (0x1737, 0x173f); (0x1754, 0x175f);
   (0x176d, 0x176d); (0x1771, 0x1771); (0x1774, 0x177f); (0x17de, 0x17df);
   (0x17ea, 0x17ef); (0x17fa, 0x17ff); (0x180e, 0x180e); (0x181a, 0x181f);
   (0x1879, 0x187f); (0x18ab, 0x18af); (0x18f6, 0x18ff); (0x191f, 0x191f);
   (0x192c, 0x192f); (0x193c, 0x193f); (0x1941, 0x1943); (0x196e, 0x196f);
   (0x1975, 0x197f); (0x19ac, 0x19af); (0x19ca, 0x19cf); (0x19db, 0x19dd);
   (0x1a1c, 0x1a1d); (0x1a5f, 0x1a5f); (0x1a7d, 0x1a7e); (0x1a8a, 0x1a8f);
   (0x1a9a, 0x1a9f); (0x1aae, 0x1aaf); (0x1acf, 0x1aff); (0x1b4d, 0x1b4f);
   (0x1b7f, 0x1b7f); (0x1bf4, 0x1bfb); (0x1c38, 0x1c3a); (0x1c4a, 0x1c4c);
   (0x1c89, 0x1c8f); (0x1cbb, 0x1cbc); (0x1cc8, 0x1ccf); (0x1cfb, 0x1cff);
   (0x1f16, 0x1f17); (0x1f1e, 0x1f1f); (0x1f46, 0x1f47); (0x1f4e, 0x1f4f);
   (0x1f58, 0x1f58); (0x1f5a, 0x1f5a); (0x1f5c, 0x1f5c); (0x1f5e, 0x1f5e);
   (0x1f7e, 0x1f7f); (0x1fb5, 0x1fb5); (0x1fc5, 0x1fc5); (0x1fd4, 0x1fd5);
   (0x1fdc, 0x1fdc); (0x1ff0, 0x1ff1); (0x1ff5, 0x1ff5); (0x1fff, 0x200f);
   (0x2028, 0x202f); (0x205f, 0x206f); (0x2072, 0x2073); (0x208f, 0x208f);
   (0x209d, 0x209f); (0x20c1, 0x20cf); (0x20f1, 0x20ff); (0x218c, 0x218f);
   (0x2427, 0x243f); (0x244b, 0x245f); (0x2b74, 0x2b75); (0x2b96, 0x2b96);
   (0x2cf4, 0x2cf8); (0x2d26, 0x2d26); (0x2d28, 0x2d2c); (0x2d2e, 0x2d2f);
   (0x2d68, 0x2d6e); (0x2d71, 0x2d7e); (0x2d97, 0x2d9f); (0x2da7, 0x2da7);
   (0x2daf, 0x2daf); (0x2db7, 0x2db7); (0x2dbf, 0x2dbf); (0x2dc7, 0x2dc7);
   (0x2dcf, 0x2dcf); (0x2dd7, 0x2dd7); (0x2ddf, 0x2ddf); (0x2e5e, 0x2e7f);
   (0x2e9a, 0x2e9a); (0x2ef4, 0x2eff); (0x2fd6, 0x2fef); (0x2ffc, 0x3000);
   (0x3040, 0x3040); (0x3097, 0x3098); (0x3100, 0x3104); (0x3130, 0x3130);
   (0x318f, 0x318f); (0x31e4, 0x31ef); (0x321f, 0x321f); (0xa48d, 0xa48f);
   (0xa4c7, 0xa4cf); (0xa62c, 0xa63f); (0xa6f8, 0xa6ff); (0xa7cb, 0xa7cf);
   (0xa7d2, 0xa7d2); (0xa7d4, 0xa7d4); (0xa7da, 0xa7f1); (0xa82d, 0xa82f);
   (0xa83a, 0xa83f); (0xa878, 0xa87f); (0xa8c6, 0xa8cd); (0xa8da, 0xa8df);
   (0xa954, 0xa95e); (0xa97d, 0xa97f); (0xa9ce, 0xa9ce); (0xa9da, 0xa9dd);
   (0xa9ff, 0xa9ff); (0xaa37, 0xaa3f); (0xaa4e, 0xaa4f); (0xaa5a, 0xaa5b);
   (0xaac3, 0xaada); (0xaaf7, 0xab00); (0xab07, 0xab08); (0xab0f, 0xab10);
   (0xab17, 0xab1f); (0xab27, 0xab27); (0xab2f, 0xab2f); (0xab6c, 0xab6f);
   (0xabee, 0xabef); (0xabfa, 0xabff); (0xd7a4, 0xd7af); (0xd7c7, 0xd7ca);
   (0xd7fc, 0xf8ff); (0xfa6e, 0xfa6f); (0xfada, 0xfaff); (0xfb07, 0xfb12);
   (0xfb18, 0xfb1c); (0xfb37, 0xfb37); (0xfb3d, 0xfb3d); (0xfb3f, 0xfb3f);
   (0xfb42, 0xfb42); (0xfb45, 0xfb45); (0xfbc3, 0xfbd2); (0xfd90, 0xfd91);
   (0xfdc8, 0xfdce); (0xfdd0, 0xfdef); (0xfe1a, 0xfe1f); (0xfe53, 0xfe53);
   (0xfe67, 0xfe67); (0xfe6c, 0xfe6f); (0xfe75, 0xfe75); (0xfefd, 0xff00);
   (0xffbf, 0xffc1); (0xffc8, 0xffc9); (0xffd0, 0xffd1); (0xffd8, 0xffd9);
   (0xffdd, 0xffdf); (0xffe7, 0xffe7); (0xffef, 0xfffb); (0xfffe, 0xffff);
   (0x1000c, 0x1000c); (0x10027, 0x10027); (0x1003b, 0x1003b); (0x1003e, 0x1003e);
   (0x1004e, 0x1004f); (0x1005e, 0x1007f); (0x100fb, 0x100ff); (0x10103, 0x10106);
   (0x10134, 0x10136); (0x1018f, 0x1018f); (0x1019d, 0x1019f); (0x101a1, 0x101cf);
   (0x101fe, 0x1027f); (0x1029d, 0x1029f); (0x102d1, 0x102df); (0x102fc, 0x102ff);
   (0x10324, 0x1032c); (0x1034b, 0x1034f); (0x1037b, 0x1037f); (0x1039e, 0x1039e);
   (0x103c4, 0x103c7); (0x103d6, 0x103ff); (0x1049e, 0x1049f); (0x104aa, 0x104af);
   (0x104d4, 0x104d7); (0x104fc, 0x104ff); (0x10528, 0x1052f); (0x10564, 0x1056e);
   (0x1057b, 0x1057b); (0x1058b, 0x1058b); (0x10593, 0x10593); (0x10596, 0x10596);
   (0x105a2, 0x105a2); (0x105b2, 0x105b2); (0x105ba, 0x105ba); (0x105bd, 0x105ff);
   (0x10737, 0x1073f); (0x10756, 0x1075f); (0x10768, 0x1077f); (0x10786, 0x10786);
   (0x107b1, 0x107b1); (0x107bb, 0x107ff); (0x10806, 0x10807); (0x10809, 0x10809);
   (0x10836, 0x10836); (0x10839, 0x1083b); (0x1083d, 0x1083e); (0x10856, 0x10856);
   (0x1089f, 0x108a6); (0x108b0, 0x108df); (0x108f3, 0x108f3); (0x108f6, 0x108fa);
   (0x1091c, 0x1091e); (0x1093a, 0x1093e); (0x10940, 0x1097f); (0x109b8, 0x109bb);
   (0x109d0, 0x109d1); (0x10a04, 0x10a04); (0x10a07, 0x10a0b); (0x10a14, 0x10a14);
   (0x10a18, 0x10a18); (0x10a36, 0x10a37); (0x10a3b, 0x10a3e); (0x10a49, 0x10a4f);
   (0x10a59, 0x10a5f); (0x10aa0, 0x10abf); (0x10ae7, 0x10aea); (0x10af7, 0x10aff);
   (0x10b36, 0x10b38); (0x10b56, 0x10b57); (0x10b73, 0x10b77); (0x10b92, 0x10b98);
   (0x10b9d, 0x10ba8); (0x10bb0, 0x10bff); (0x10c49, 0x10c7f); (0x10cb3, 0x10cbf);
   (0x10cf3, 0x10cf9); (0x10d28, 0x10d2f); (0x10d3a, 0x10e5f); (0x10e7f, 0x10e7f);
   (0x10eaa, 0x10eaa); (0x10eae, 0x10eaf); (0x10eb2, 0x10eff); (0x10f28, 0x10f2f);
   (0x10f5a, 0x10f6f); (0x10f8a, 0x10faf); (0x10fcc, 0x10fdf); (0x10ff7, 0x10fff);
   (0x1104e, 0x11051); (0x11076, 0x1107e); (0x110bd, 0x110bd); (0x110c3, 0x110cf);
   (0x110e9, 0x110ef); (0x110fa, 0x110ff); (0x11135, 0x11135); (0x11148, 0x1114f);
   (0x11177, 0x1117f); (0x111e0, 0x111e0); (0x111f5, 0x111ff); (0x11212, 0x11212);
   (0x1123f, 0x1127f); (0x11287, 0x11287); (0x11289, 0x11289); (0x1128e, 0x1128e);
   (0x1129e, 0x1129e); (0x112aa, 0x112af); (0x112eb, 0x112ef); (0x112fa, 0x112ff);
   (0x11304, 0x11304); (0x1130d, 0x1130e); (0x11311, 0x11312); (0x11329, 0x11329);
   (0x11331, 0x11331); (0x11334, 0x11334); (0x1133a, 0x1133a); (0x11345, 0x11346);
   (0x11349, 0x1134a); (0x1134e, 0x1134f); (0x11351, 0x11356); (0x11358, 0x1135c);
   (0x11364, 0x11365); (0x1136d, 0x1136f); (0x11375, 0x113ff); (0x1145c, 0x1145c);
   (0x11462, 0x1147f); (0x114c8, 0x114cf); (0x114da, 0x1157f); (0x115b6, 0x115b7);
   (0x115de, 0x115ff); (0x11645, 0x1164f); (0x1165a, 0x1165f); (0x1166d, 0x1167f);
   (0x116ba, 0x116bf); (0x116ca, 0x116ff); (0x1171b, 0x1171c); (0x1172c, 0x1172f);
   (0x11747, 0x117ff); (0x1183c, 0x1189f); (0x118f3, 0x118fe); (0x11907, 0x11908);
   (0x1190a, 0x1190b); (0x11914, 0x11914); (0x11917, 0x11917); (0x11936, 0x11936);
   (0x11939, 0x1193a); (0x11947, 0x1194f); (0x1195a, 0x1199f); (0x119a8, 0x119a9);
   (0x119d8, 0x119d9); (0x119e5, 0x119ff); (0x11a48, 0x11a4f); (0x11aa3, 0x11aaf);
   (0x11af9, 0x11bff); (0x11c09, 0x11c09); (0x11c37, 0x11c37); (0x11c46, 0x11c4f);
   (0x11c6d, 0x11c6f); (0x11c90, 0x11c91); (0x11ca8, 0x11ca8); (0x11cb7, 0x11cff);
   (0x11d07, 0x11d07); (0x11d0a, 0x11d0a); (0x11d37, 0x11d39); (0x11d3b, 0x11d3b);
   (0x11d3e, 0x11d3e); (0x11d48, 0x11d4f); (0x11d5a, 0x11d5f); (0x11d66, 0x11d66);
   (0x11d69, 0x11d69); (0x11d8f, 0x11d8f); (0x11d92, 0x11d92); (0x11d99, 0x11d9f);
   (0x11daa, 0x11edf); (0x11ef9, 0x11faf); (0x11fb1, 0x11fbf); (0x11ff2, 0x11ffe);
   (0x1239a, 0x123ff); (0x1246f, 0x1246f); (0x12475, 0x1247f); (0x12544, 0x12f8f);
   (0x12ff3, 0x12fff); (0x1342f, 0x143ff); (0x14647, 0x167ff); (0x16a39, 0x16a3f);
   (0x16a5f, 0x16a5f); (0x16a6a, 0x16a6d); (0x16abf, 0x16abf); (0x16aca, 0x16acf);
   (0x16aee, 0x16aef); (0x16af6, 0x16aff); (0x16b46, 0x16b4f); (0x16b5a, 0x16b5a);
   (0x16b62, 0x16b62); (0x16b78, 0x16b7c); (0x16b90, 0x16e3f); (0x16e9b, 0x16eff);
   (0x16f4b, 0x16f4e); (0x16f88, 0x16f8e); (0x16fa0, 0x16fdf); (0x16fe5, 0x16fef);
   (0x16ff2, 0x16fff); (0x187f8, 0x187ff); (0x18cd6, 0x18cff); (0x18d09, 0x1afef);
   (0x1aff4, 0x1aff4); (0x1affc, 0x1affc); (0x1afff, 0x1afff); (0x1b123, 0x1b14f);
   (0x1b153, 0x1b163); (0x1b168, 0x1b16f); (0x1b2fc, 0x1bbff); (0x1bc6b, 0x1bc6f);
   (0x1bc7d, 0x1bc7f); (0x1bc89, 0x1bc8f); (0x1bc9a, 0x1bc9b); (0x1bca0, 0x1ceff);
   (0x1cf2e, 0x1cf2f); (0x1cf47, 0x1cf4f); (0x1cfc4, 0x1cfff); (0x1d0f6, 0x1d0ff);
   (0x1d127, 0x1d128); (0x1d173, 0x1d17a); (0x1d1eb, 0x1d1ff); (0x1d246, 0x1d2df);
   (0x1d2f4, 0x1d2ff); (0x1d357, 0x1d35f); (0x1d379, 0x1d3ff); (0x1d455, 0x1d455);
   (0x1d49d, 0x1d49d); (0x1d4a0, 0x1d4a1); (0x1d4a3, 0x1d4a4); (0x1d4a7, 0x1d4a8);
   (0x1d4ad, 0x1d4ad); (0x1d4ba, 0x1d4ba); (0x1d4bc, 0x1d4bc); (0x1d4c4, 0x1d4c4);
   (0x1d506, 0x1d506); (0x1d50b, 0x1d50c); (0x1d515, 0x1d515); (0x1d51d, 0x1d51d);
   (0x1d53a, 0x1d53a); (0x1d53f, 0x1d53f); (0x1d545, 0x1d545); (0x1d547, 0x1d549);
   (0x1d551, 0x1d551); (0x1d6a6, 0x1d6a7); (0x1d7cc, 0x1d7cd); (0x1da8c, 0x1da9a);
   (0x1daa0, 0x1daa0); (0x1dab0, 0x1deff); (0x1df1f, 0x1dfff); (0x1e007, 0x1e007);
   (0x1e019, 0x1e01a); (0x1e022, 0x1e022); (0x1e025, 0x1e025); (0x1e02b, 0x1e0ff);
   (0x1e12d, 0x1e12f); (0x1e13e, 0x1e13f); (0x1e14a, 0x1e14d); (0x1e150, 0x1e28f);
   (0x1e2af, 0x1e2bf); (0x1e2fa, 0x1e2fe); (0x1e300, 0x1e7df); (0x1e7e7, 0x1e7e7);
   (0x1e7ec, 0x1e7ec); (0x1e7ef, 0x1e7ef); (0x1e7ff, 0x1e7ff); (0x1e8c5, 0x1e8c6);
   (0x1e8d7, 0x1e8ff); (0x1e94c, 0x1e94f); (0x1e95a, 0x1e95d); (0x1e960, 0x1ec70);
   (0x1ecb5, 0x1ed00); (0x1ed3e, 0x1edff); (0x1ee04, 0x1ee04); (0x1ee20, 0x1ee20);
   (0x1ee23, 0x1ee23); (0x1ee25, 0x1ee26); (0x1ee28, 0x1ee28); (0x1ee33, 0x1ee33);
   (0x1ee38, 0x1ee38); (0x1ee3a, 0x1ee3a); (0x1ee3c, 0x1ee41); (0x1ee43, 0x1ee46);
   (0x1ee48, 0x1ee48); (0x1ee4a, 0x1ee4a); (0x1ee4c, 0x1ee4c); (0x1ee50, 0x1ee50);
   (0x1ee53, 0x1ee53); (0x1ee55, 0x1ee56); (0x1ee58, 0x1ee58); (0x1ee5a, 0x1ee5a);
   (0x1ee5c, 0x1ee5c); (0x1ee5e, 0x1ee5e); (0x1ee60, 0x1ee60); (0x1ee63, 0x1ee63);
   (0x1ee65, 0x1ee66); (0x1ee6b, 0x1ee6b); (0x1ee73, 0x1ee73); (0x1ee78, 0x1ee78);
   (0x1ee7d, 0x1ee7d); (0x1ee7f, 0x1ee7f); (0x1ee8a, 0x1ee8a); (0x1ee9c, 0x1eea0);
   (0x1eea4, 0x1eea4); (0x1eeaa, 0x1eeaa); (0x1eebc, 0x1eeef); (0x1eef2, 0x1efff);
   (0x1f02c, 0x1f02f); (0x1f094, 0x1f09f); (0x1f0af, 0x1f0b0); (0x1f0c0, 0x1f0c0);
   (0x1f0d0, 0x1f0d0); (0x1f0f6, 0x1f0ff); (0x1f1ae, 0x1f1e5); (0x1f203, 0x1f20f);
   (0x1f23c, 0x1f23f); (0x1f249, 0x1f24f); (0x1f252, 0x1f25f); (0x1f266, 0x1f2ff);
   (0x1f6d8, 0x1f6dc); (0x1f6ed, 0x1f6ef); (0x1f6fd, 0x1f6ff); (0x1f774, 0x1f77f);
   (0x1f7d9, 0x1f7df); (0x1f7ec, 0x1f7ef); (0x1f7f1, 0x1f7ff); (0x1f80c, 0x1f80f);
   (0x1f848, 0x1f84f); (0x1f85a, 0x1f85f); (0x1f888, 0x1f88f); (0x1f8ae, 0x1f8af);
   (0x1f8b2, 0x1f8ff); (0x1fa54, 0x1fa5f); (0x1fa6e, 0x1fa6f); (0x1fa75, 0x1fa77);
   (0x1fa7d, 0x1fa7f); (0x1fa87, 0x1fa8f); (0x1faad, 0x1faaf); (0x1fabb, 0x1fabf);
   (0x1fac6, 0x1facf); (0x1fada, 0x1fadf); (0x1fae8, 0x1faef); (0x1faf7, 0x1faff);
   (0x1fb93, 0x1fb93); (0x1fbcb, 0x1fbef); (0x1fbfa, 0x1ffff); (0x2a6e0, 0x2a6ff);
   (0x2b739, 0x2b73f); (0x2b81e, 0x2b81f); (0x2cea2, 0x2ceaf); (0x2ebe1, 0x2f7ff);
   (0x2fa1e, 0x2ffff); (0x3134b, 0xe00ff); (0xe01f0, 0x10ffff)]%N.

Definition non_printable (n : N) : bool :=
  existsb (fun '(a, b) => N.leb a n && N.leb n b) non_printable_ranges.

(** [n] in [k] hexadecimal digits. *)
Fixpoint hex_digits (k : nat) (n : N) : string :=
  match k with
  | O => ""
  | S k' => hex_digits k' (n / 16) ++ String (hex_digit (n mod 16)) ""
  end.

(** [repr(s)] of a string: apostrophes around it unless it holds an
    apostrophe and no double quote; the quote and the backslash are
    escaped, and so is every character that is not printable. *)
Definition repr_char (q : ascii) (p : N * string) : string :=
  let '(n, bytes) := p in
  if N.eqb n (N_of_ascii q) || N.eqb n (N_of_ascii backslash) then String backslash bytes
  else if N.eqb n 9 then String backslash "t"
  else if N.eqb n 10 then String backslash "n"
  else if N.eqb n 13 then String backslash "r"
  else if N.ltb n 32 || N.eqb n 127 then String backslash ("x" ++ hex_digits 2 n)
  else if N.ltb n 127 then bytes
  else if non_printable n then
    if N.ltb n 0x100 then String backslash ("x" ++ hex_digits 2 n)
    else if N.ltb n 0x10000 then String backslash ("u" ++ hex_digits 4 n)
    else String backslash ("U" ++ hex_digits 8 n)
  else bytes.

Definition repr_str (s : string) : string :=
  let q := if has_char apostrophe s && negb (has_char quote s) then quote else apostrophe in
  String q (String.concat "" (map (repr_char q) (code_points (list_ascii_of_string s)))
            ++ String q "").

Fixpoint repr (v : value) : string :=
  match v with
  | VNone => "None"
  | VBool true => "True"
  | VBool false => "False"
  | VInt z => str_of_Z z
  | VStr s => repr_str s
  | VList l => "[" ++ join ", " (map repr l) ++ "]"
  | VDict d => "{" ++ join ", " (map (fun '(k, x) => repr_str k ++ ": " ++ repr x) d) ++ "}"
  end.

(** [str(v)], which is also what an f-string field [{v}] inserts. *)
Definition py_str (v : value) : string :=
  match v with
  | VStr s => s
  | _ => repr v
  end.

(** [json.dumps(s, indent=2, ensure_ascii=False)] of a string [s]. *)
Definition dumps_char (c : ascii) : string :=
  let n := N_of_ascii c in
  if Ascii.eqb c quote || Ascii.eqb c backslash then String backslash (String c "")
  else if N.eqb n 8 then String backslash "b"
  else if N.eqb n 12 then String backslash "f"
  else if N.eqb n 10 then String backslash "n"
  else if N.eqb n 13 then String backslash "r"
  else if N.eqb n 9 then String backslash "t"
  else if N.ltb n 32 then String backslash ("u00" ++ hex2 c)
  else String c "".

Definition json_dumps (s : string) : string :=
  String quote (flat_map_str dumps_char s ++ String quote "").

(** [s.lower()] and [s.strip()] on ASCII text.  The two methods of
    Python's [str] follow the Unicode character database; in the program
    they are the parameters [lower] and [strip] below.  [lower_ascii] and
    [strip_ascii] are what the two methods compute on a string of ASCII
    characters, and serve to run the program on such strings. *)
Definition lower_char (c : ascii) : ascii :=
  let n := N_of_ascii c in
  if N.leb 65 n && N.leb n 90 then ascii_of_N (n + 32) else c.

Definition lower_ascii (s : string) : string :=
  string_of_list_ascii (map lower_char (list_ascii_of_string s)).

Definition is_space (c : ascii) : bool :=
  let n := N_of_ascii c in
  (N.leb 9 n && N.leb n 13) || (N.leb 28 n && N.leb n 32).

Fixpoint lstrip (l : list ascii) : list ascii :=
  match l with
  | c :: l' => if is_space c then lstrip l' else l
  | [] => []
  end.

Definition strip_ascii (s : string) : string :=
  string_of_list_ascii (rev (lstrip (rev (lstrip (list_ascii_of_string s))))).

(** ** The world outside the program *)

(** One call of [requests.post]. *)
Record request : Type := mk_request {
  url : string;
  params : list (string * string);
  headers : list (string * value);
  json : value
}.

(** What a call of [requests.post(...)] followed by [.json()] can do:
    [Fails] - the call raises [requests.RequestException];
    [Garbage] - the call returns and [.json()] raises
    [requests.JSONDecodeError], a [RequestException] too;
    [Body] - [.json()] returns the decoded document. *)
Inductive response : Type :=
| Fails (msg : string)
| Garbage (msg : string)
| Body (data : value).

(** A configuration value, as [ConfigObj] and [get_config_from_env] give
    them for [refresh_tokens] and [push_types]: a string or a list of
    strings. *)
Inductive cfgval : Type :=
| CStr (s : string)
| CList (l : list string).

Definition config : Type := list (string * cfgval).

(** The seven notification modules imported by [app.py]. *)
Inductive backend : Type :=
| dingtalk | serverchan | pushdeer | telegram | pushplus | smtp | feishu.

(** One call [pusher.push(config, content, content_html, title)]. *)
Record push_call : Type := mk_push_call {
  pc_backend : backend;
  pc_config : config;
  pc_content : string;
  pc_content_html : string;
  pc_title : option string
}.

(** The observable history: the requests posted and the adapters invoked,
    oldest first. *)
Record world : Type := mk_world {
  sent : list request;
  pushed : list push_call
}.

Definition world0 : world := mk_world [] [].

Definition record_sent (rq : request) (w : world) : world :=
  mk_world (sent w ++ [rq]) (pushed w).

Definition record_pushed (c : push_call) (w : world) : world :=
  mk_world (sent w) (pushed w ++ [c]).

(** Modelled from the spec: the [push] function of each module under
    [modules/] (dingtalk, serverchan, pushdeer, telegram, pushplus, smtp,
    feishu).  An adapter is an external collaborator that handles its own
    errors and does not raise past the dispatcher; what the dispatcher
    observes of it is that it was invoked with the envelope. *)
Definition pusher_push (b : backend) (cfg : config) (content content_html : string)
    (title : option string) (w : world) : world :=
  record_pushed (mk_push_call b cfg content content_html title) w.

(** The value of [self.error]: [None], a caught
    [requests.RequestException] (kept by its message, which is what
    [str] gives), or a value. *)
Inductive error_obj : Type :=
| ENone
| EExc (msg : string)
| EVal (v : value).

(** [str(self.error)]. *)
Definition str_error (e : error_obj) : string :=
  match e with
  | ENone => "None"
  | EExc msg => msg
  | EVal v => py_str v
  end.

Definition nl : string := String newline "".

(** The dictionary returned by [SignIn.run]. *)
Module Outcome.
Record t : Type := mk {
  success : bool;
  user : value;
  refresh_token : value;
  count : value;
  reward : value;
  text : string;
  text_html : string
}.
End Outcome.

(** ** class SignIn *)

Module SignIn.

Record t : Type := mk {
  config_ : config;
  refresh_token : string;
  hide_refresh_token : string;
  access_token : value;
  new_refresh_token : value;
  phone : value;
  signin_count : value;
  signin_reward : value;
  error : error_obj
}.

Definition set_access_token (v : value) (s : t) : t :=
  mk (config_ s) (refresh_token s) (hide_refresh_token s) v (new_refresh_token s)
     (phone s) (signin_count s) (signin_reward s) (error s).

Definition set_new_refresh_token (v : value) (s : t) : t :=
  mk (config_ s) (refresh_token s) (hide_refresh_token s) (access_token s) v
     (phone s) (signin_count s) (signin_reward s) (error s).

Definition set_phone (v : value) (s : t) : t :=
  mk (config_ s) (refresh_token s) (hide_refresh_token s) (access_token s)
     (new_refresh_token s) v (signin_count s) (signin_reward s) (error s).

Definition set_signin_count (v : value) (s : t) : t :=
  mk (config_ s) (refresh_token s) (hide_refresh_token s) (access_token s)
     (new_refresh_token s) (phone s) v (signin_reward s) (error s).

Definition set_signin_reward (v : value) (s : t) : t :=
  mk (config_ s) (refresh_token s) (hide_refresh_token s) (access_token s)
     (new_refresh_token s) (phone s) (signin_count s) v (error s).

Definition set_error (e : error_obj) (s : t) : t :=
  mk (config_ s) (refresh_token s) (hide_refresh_token s) (access_token s)
     (new_refresh_token s) (phone s) (signin_count s) (signin_reward s) e.

(** [__hide_refresh_token]: slicing, [len], [*] and [+] on a [str] raise
    nothing, so the [except IndexError] branch of the source is never
    entered and the [try] body is the whole function. *)
Definition __hide_refresh_token (refresh_token : string) : string :=
  str_slice None (Some 4%Z) refresh_token
  ++ str_repeat "*" (String.length (str_slice (Some 4%Z) (Some (-4)%Z) refresh_token))
  ++ str_slice (Some (-4)%Z) None refresh_token.

Definition __init__ (cfg : config) (refresh_token : string) : t :=
  mk cfg refresh_token (__hide_refresh_token refresh_token)
     VNone VNone VNone (VInt 0) VNone ENone.

(** *** Methods: state and exceptions

    A method runs on the object and the world and either returns or
    raises; what it changed before raising stays changed. *)

Definition M (A : Type) : Type := t * world -> result A * (t * world).

Definition ret {A} (a : A) : M A := fun st => (Ok a, st).

Definition raise {A} (e : exn) : M A := fun st => (Raise e, st).

Definition bind {A B} (m : M A) (k : A -> M B) : M B :=
  fun st =>
    match m st with
    | (Ok a, st') => k a st'
    | (Raise e, st') => (Raise e, st')
    end.

(** Runs [m] and hands its outcome, returned or raised, to the [except]
    clauses that follow. *)
Definition try_ {A} (m : M A) : M (result A) :=
  fun st => let (r, st') := m st in (Ok r, st').

Definition lift {A} (r : result A) : M A := fun st => (r, st).

Definition self_ : M t := fun st => (Ok (fst st), st).

Definition assign (f : t -> t) : M unit := fun st => (Ok tt, (f (fst st), snd st)).

Declare Scope method_scope.
Delimit Scope method_scope with method.
Notation "x <-- m ; k" := (bind m (fun x => k))
  (at level 61, m at next level, right associativity) : method_scope.
Notation "m ;; k" := (bind m (fun _ => k))
  (at level 61, right associativity) : method_scope.

Definition code_invalid : list string :=
  ["RefreshTokenExpired"; "InvalidParameter.RefreshToken"].

Definition token_request (self : t) : request :=
  mk_request "https://auth.aliyundrive.com/v2/account/token" [] []
    (VDict [("grant_type", VStr "refresh_token");
            ("refresh_token", VStr (refresh_token self))]).

Definition signin_request (self : t) : request :=
  mk_request "https://member.aliyundrive.com/v1/activity/sign_in_list"
    [("_rx-s", "mobile")]
    [("Authorization", VStr ("Bearer " ++ py_str (access_token self)))]
    (VDict [("isReward", VBool true)]).

(** [for i, day in enumerate(data['result']['signInLogs'])]: the entry
    before the first one whose status is ['miss'], [None] when the loop
    ends without a [break]. *)
Fixpoint find_current_day (data : value) (i : Z) (days : list value) : result value :=
  match days with
  | [] => Ok VNone
  | day :: rest =>
      (status <- getitem day "status" ;;
       if eq_str status "miss"
       then (r <- getitem data "result" ;;
             logs <- getitem r "signInLogs" ;;
             getitem_int logs (i - 1))
       else find_current_day data (i + 1) rest)%result
  end.

Definition reward_text (current_day : value) : result string :=
  (is_reward <- getitem current_day "isReward" ;;
   if negb (truthy is_reward) then Ok "无奖励"
   else (r <- getitem current_day "reward" ;;
         name <- getitem r "name" ;;
         r' <- getitem current_day "reward" ;;
         description <- getitem r' "description" ;;
         Ok ("获得 " ++ py_str name ++ " " ++ py_str description)))%result.

(** [__generate_result] *)
Definition __generate_result (self : t) : Outcome.t :=
  let user := py_or (phone self) (VStr (hide_refresh_token self)) in
  let text :=
    if truthy (signin_count self)
    then "[" ++ py_str user ++ "] 签到成功, 本月累计签到 " ++ py_str (signin_count self)
         ++ " 天." ++ nl ++ "本次签到" ++ py_str (signin_reward self)
    else "[" ++ py_str user ++ "] 签到失败" ++ nl ++ json_dumps (str_error (error self)) in
  let text_html :=
    if truthy (signin_count self)
    then "<code>" ++ py_str user ++ "</code> 签到成功, 本月累计签到 "
         ++ py_str (signin_count self) ++ " 天." ++ nl ++ "本次签到"
         ++ py_str (signin_reward self)
    else "<code>" ++ py_str user ++ "</code> 签到失败" ++ nl
         ++ "<code>" ++ json_dumps (str_error (error self)) ++ "</code>" in
  Outcome.mk
    (if truthy (signin_count self) then true else false)
    (py_or (phone self) (VStr (hide_refresh_token self)))
    (py_or (new_refresh_token self) (VStr (refresh_token self)))
    (signin_count self)
    (signin_reward self)
    text
    text_html.

Section Methods.

(** The remote side: the reply to the latest call of [requests.post],
    given every call made so far (the latest is the last of the list). *)
Variable server : list request -> response.

(** [requests.post(...).json()] *)
Definition post_json (rq : request) : M value :=
  fun st =>
    let w := record_sent rq (snd st) in
    match server (sent w) with
    | Fails msg => (Raise (RequestException msg), (fst st, w))
    | Garbage msg => (Raise (RequestException msg), (fst st, w))
    | Body data => (Ok data, (fst st, w))
    end.

Open Scope method_scope.

(** Lines 83-91: [Some b] when the block returns [b], [None] when control
    goes on to the next block. *)
Definition check_code (data : value) : M (option bool) :=
  r <-- try_ (code <-- lift (getitem data "code");
              if in_strs code code_invalid
              then assign (set_error (EVal data)) ;; ret (Some false)
              else ret None);
  match r with
  | Ok b => ret b
  | Raise (KeyError _) => ret None
  | Raise e => raise e
  end.

(** Lines 93-102. *)
Definition store_tokens (data : value) : M bool :=
  r <-- try_ (a <-- lift (getitem data "access_token");
              assign (set_access_token a) ;;
              n <-- lift (getitem data "refresh_token");
              assign (set_new_refresh_token n) ;;
              p <-- lift (getitem data "user_name");
              assign (set_phone p));
  match r with
  | Ok _ => ret true
  | Raise (KeyError _) =>
      assign (set_error (EVal (VStr ("获取 access token 失败, 参数缺失: " ++ py_str data)))) ;;
      ret false
  | Raise e => raise e
  end.

(** [__get_access_token]; [again] is what the [except] clause does when
    [retry] is false: the call [self.__get_access_token(retry=True)]. *)
Definition get_access_token_with (again : option (M bool)) : M bool :=
  self <-- self_;
  r <-- try_ (post_json (token_request self));
  match r with
  | Raise (RequestException e) =>
      match again with
      | Some retry_call => retry_call
      | None => assign (set_error (EExc e)) ;; ret false
      end
  | Raise e => raise e
  | Ok data =>
      c <-- check_code data;
      match c with
      | Some b => ret b
      | None => store_tokens data
      end
  end.

Definition __get_access_token (retry : bool) : M bool :=
  if retry then get_access_token_with None
  else get_access_token_with (Some (get_access_token_with None)).

(** Lines 127-148; the method returns [None]. *)
Definition sign_in_reply (data : value) : M value :=
  has <-- lift (contains data "success");
  if negb has
  then assign (set_error (EVal data)) ;; ret VNone
  else
    days <-- lift (r <- getitem data "result" ;;
                   logs <- getitem r "signInLogs" ;;
                   py_iter logs)%result;
    current_day <-- lift (find_current_day data 0 days);
    reward <-- lift (reward_text current_day);
    count <-- lift (r <- getitem data "result" ;; getitem r "signInCount")%result;
    assign (set_signin_count count) ;;
    assign (set_signin_reward (VStr reward)) ;;
    ret VNone.

Definition sign_in_with (again : option (M value)) : M value :=
  self <-- self_;
  r <-- try_ (post_json (signin_request self));
  match r with
  | Raise (RequestException e) =>
      match again with
      | Some retry_call => retry_call
      | None => assign (set_error (EExc e)) ;; ret (VBool false)
      end
  | Raise e => raise e
  | Ok data => sign_in_reply data
  end.

Definition __sign_in (retry : bool) : M value :=
  if retry then sign_in_with None
  else sign_in_with (Some (sign_in_with None)).

Definition run : M Outcome.t :=
  result <-- __get_access_token false;
  (if result then __sign_in false ;; ret tt else ret tt) ;;
  self <-- self_;
  ret (__generate_result self).

Close Scope method_scope.

End Methods.

End SignIn.

(** ** get_config_from_env *)

(** [os.environ]: the variables of the process, by name. *)
Definition environ : Type := list (string * string).

(** [environ[k]] *)
Definition environ_get (env : environ) (k : string) : result string :=
  match lookup k env with
  | Some v => Ok v
  | None => Raise (KeyError k)
  end.

(** [a or b] for strings. *)
Definition str_or (a b : string) : string := if String.eqb a "" then b else a.

(** [s.split(sep)] for a one-character separator: the pieces between the
    occurrences of [sep], empty pieces included. *)
Fixpoint split (sep : ascii) (s : string) : list string :=
  match s with
  | EmptyString => [""]
  | String c s' =>
      if Ascii.eqb c sep then "" :: split sep s'
      else match split sep s' with
           | piece :: pieces => String c piece :: pieces
           | [] => [String c ""]
           end
  end.

Definition comma : ascii := ","%char.

(** The dictionary built by [get_config_from_env]: a value is a string, a
    list of strings or [None]. *)
Definition env_config : Type := list (string * option cfgval).

(** The body of the [try] of [get_config_from_env], lines 267-287: the
    variables are read in the order of the source, so the [KeyError]
    raised names the first one that is missing. *)
Definition env_config_of (env : environ) : result env_config :=
  (refresh_tokens <- environ_get env "REFRESH_TOKENS" ;;
   let refresh_tokens := str_or refresh_tokens "" in
   push_types <- environ_get env "PUSH_TYPES" ;;
   let push_types := str_or push_types "" in
   serverchan_send_key <- environ_get env "SERVERCHAN_SEND_KEY" ;;
   telegram_bot_token <- environ_get env "TELEGRAM_BOT_TOKEN" ;;
   telegram_chat_id <- environ_get env "TELEGRAM_CHAT_ID" ;;
   pushplus_token <- environ_get env "PUSHPLUS_TOKEN" ;;
   smtp_host <- environ_get env "SMTP_HOST" ;;
   smtp_port <- environ_get env "SMTP_PORT" ;;
   smtp_tls <- environ_get env "SMTP_TLS" ;;
   smtp_user <- environ_get env "SMTP_USER" ;;
   smtp_password <- environ_get env "SMTP_PASSWORD" ;;
   smtp_sender <- environ_get env "SMTP_SENDER" ;;
   smtp_receiver <- environ_get env "SMTP_RECEIVER" ;;
   feishu_webhook <- environ_get env "FEISHU_WEBHOOK" ;;
   Ok [("refresh_tokens", Some (CList (split comma refresh_tokens)));
       ("push_types", Some (CList (split comma push_types)));
       ("serverchan_send_key", Some (CStr serverchan_send_key));
       ("telegram_endpoint", Some (CStr "https://api.telegram.org"));
       ("telegram_bot_token", Some (CStr telegram_bot_token));
       ("telegram_chat_id", Some (CStr telegram_chat_id));
       ("telegram_proxy", None);
       ("pushplus_token", Some (CStr pushplus_token));
       ("smtp_host", Some (CStr smtp_host));
       ("smtp_port", Some (CStr smtp_port));
       ("smtp_tls", Some (CStr smtp_tls));
       ("smtp_user", Some (CStr smtp_user));
       ("smtp_password", Some (CStr smtp_password));
       ("smtp_sender", Some (CStr smtp_sender));
       ("smtp_receiver", Some (CStr smtp_receiver));
       ("feishu_webhook", Some (CStr feishu_webhook))])%result.

(** [get_config_from_env]: the dictionary, or [None] after a [KeyError]. *)
Definition get_config_from_env (env : environ) : result (option env_config) :=
  match env_config_of env with
  | Ok d => Ok (Some d)
  | Raise (KeyError _) => Ok None
  | Raise e => Raise e
  end.

(** ** Scenarios

    Concrete replies of the provider and scripted servers, used to run the
    program on explicit inputs. *)

Module Scenario.

(** A server that answers the n-th request with the n-th reply of a
    script, and fails once the script is over. *)
Definition scripted (script : list response) : list request -> response :=
  fun history => nth (List.length history - 1) script (Fails "connection refused").

Definition token_reply (access refresh user_name : value) : value :=
  VDict [("access_token", access); ("refresh_token", refresh); ("user_name", user_name)].

Definition day (n : Z) (status : string) (is_reward : bool) : value :=
  VDict [("day", VInt n); ("status", VStr status); ("isReward", VBool is_reward);
         ("reward", VDict [("name", VStr "容量"); ("description", VStr "1GB")])].

Definition signin_reply (count : Z) (logs : list value) : value :=
  VDict [("success", VBool true);
         ("result", VDict [("signInCount", VInt count); ("signInLogs", VList logs)])].

Definition already_redeemed : value :=
  VDict [("success", VBool false); ("code", VStr "30009"); ("message", VStr "used")].

Definition cfg : config :=
  [("refresh_tokens", CList ["abcdefgh12345678"; "0123456789"]);
   ("push_types", CList [" Telegram "; "unknown_channel"])].

(** A month in which every day is signed: no entry has status 'miss'. *)
Definition full_month : list request -> response :=
  scripted [Body (token_reply (VStr "at") (VStr "rt") (VStr "13800000000"));
            Body (signin_reply 2 [day 1 "normal" true; day 2 "normal" false])].

(** The first attempt of the exchange times out and the retry is answered. *)
Definition flaky_exchange : list request -> response :=
  scripted [Fails "timed out";
            Body (token_reply (VStr "at") (VStr "rt") (VStr "13800000000"));
            Body (signin_reply 5 [day 1 "normal" true; day 2 "miss" false])].

(** Both attempts of the exchange fail. *)
Definition dead_exchange : list request -> response :=
  scripted [Fails "timed out"; Fails "connection reset"].

Definition expired_reply : value :=
  VDict [("code", VStr "RefreshTokenExpired"); ("message", VStr "expired")].

Definition expired : list request -> response :=
  scripted [Body expired_reply].

(** The exchange answers without a user name; sign-in and redemption work. *)
Definition no_user_name : list request -> response :=
  scripted [Body (token_reply (VStr "at") (VStr "rt") VNone);
            Body (signin_reply 5 [day 1 "normal" true; day 2 "miss" false]);
            Body already_redeemed].

(** The redemption endpoint answers with neither [success] nor [message]. *)
Definition bare_error : list request -> response :=
  scripted [Body (VDict [("code", VStr "ServiceUnavailable")])].

Definition redeemed_before : list request -> response :=
  scripted [Body already_redeemed].

(** Two accounts: the first signs in with a streak of 5 and no reward and
    has its credential rotated; the exchange of the second is answered by a
    document without the expected fields. *)
Definition two_accounts : list request -> response :=
  scripted [Body (token_reply (VStr "at") (VStr "rotated") (VStr "13800000000"));
            Body (signin_reply 5 [day 1 "normal" false; day 2 "miss" false]);
            Body already_redeemed;
            Body (VDict [("message", VStr "oops")])].

(** The exchange is answered; the provider reports a sign-in count of 0. *)
Definition zero_count : list request -> response :=
  scripted [Body (token_reply (VStr "at") (VStr "rt") (VStr "13800000000"));
            Body (signin_reply 0 [day 1 "normal" false; day 2 "miss" false])].


End Scenario.

(** ** More cases *)

Module Case.

Definition full_env : environ :=
  [("REFRESH_TOKENS", "abcdefgh12345678,0123456789"); ("PUSH_TYPES", "telegram");
   ("SERVERCHAN_SEND_KEY", ""); ("TELEGRAM_BOT_TOKEN", "bot"); ("TELEGRAM_CHAT_ID", "1");
   ("PUSHPLUS_TOKEN", ""); ("SMTP_HOST", ""); ("SMTP_PORT", ""); ("SMTP_TLS", "");
   ("SMTP_USER", ""); ("SMTP_PASSWORD", ""); ("SMTP_SENDER", ""); ("SMTP_RECEIVER", "");
   ("FEISHU_WEBHOOK", "")].

(** An environment in which [SMTP_HOST] and [SMTP_USER] are not set. *)
Definition env_without_smtp : environ :=
  [("REFRESH_TOKENS", ""); ("PUSH_TYPES", "telegram");
   ("SERVERCHAN_SEND_KEY", ""); ("TELEGRAM_BOT_TOKEN", "bot"); ("TELEGRAM_CHAT_ID", "1");
   ("PUSHPLUS_TOKEN", ""); ("SMTP_PORT", ""); ("SMTP_TLS", "");
   ("SMTP_PASSWORD", ""); ("SMTP_SENDER", ""); ("SMTP_RECEIVER", "");
   ("FEISHU_WEBHOOK", "")].

(** The exchange is answered by a JSON list. *)
Definition list_reply : list request -> response :=
  Scenario.scripted [Body (VList [])].

(** The exchange is answered by an object that carries the access
    credential only; the redemption is answered. *)
Definition access_token_only : list request -> response :=
  Scenario.scripted [Body (VDict [("access_token", VStr "at")]);
                     Body Scenario.already_redeemed].

(** The first sign-in attempt times out and the retry is answered. *)
Definition flaky_sign_in : list request -> response :=
  Scenario.scripted
    [Fails "timed out";
     Body (Scenario.signin_reply 5 [Scenario.day 1 "normal" true;
                                    Scenario.day 2 "miss" false])].

(** A log whose first entry is already 'miss'. *)
Definition miss_first : list value :=
  [Scenario.day 1 "miss" false; Scenario.day 2 "miss" false; Scenario.day 3 "miss" true].

Definition redeemed_now : list request -> response :=
  Scenario.scripted
    [Body (VDict [("success", VBool true);
                  ("result", VDict [("message", VStr "500G")])])].

Definition garbled : list request -> response :=
  Scenario.scripted [Garbage "Expecting value: line 1 column 1 (char 0)"].

(** The redemption is answered by something that is not JSON. *)
Definition garbled_redemption : list request -> response :=
  Scenario.scripted
    [Body (Scenario.token_reply (VStr "at") (VStr "rt") (VStr "13800000000"));
     Body (Scenario.signin_reply 5 [Scenario.day 1 "normal" true;
                                    Scenario.day 2 "miss" false]);
     Garbage "Expecting value: line 1 column 1 (char 0)"].


(** A configuration whose [push_types] is one string. *)
Definition cfg_one_push_type : config :=
  [("refresh_tokens", CList []); ("push_types", CStr " SMTP ")].

(** GitHub refuses the update. *)
Definition refusing : string -> string -> option string :=
  fun _ _ => Some "403 Forbidden".

(** GitHub accepts the update. *)
Definition accepting : string -> string -> option string :=
  fun _ _ => None.

(** The environment of the next run, once GitHub has stored the two
    credentials of the two-account scenario. *)
Definition next_env : environ :=
  [("REFRESH_TOKENS", "rotated,0123456789"); ("PUSH_TYPES", "telegram");
   ("SERVERCHAN_SEND_KEY", ""); ("TELEGRAM_BOT_TOKEN", "bot"); ("TELEGRAM_CHAT_ID", "1");
   ("PUSHPLUS_TOKEN", ""); ("SMTP_HOST", ""); ("SMTP_PORT", ""); ("SMTP_TLS", "");
   ("SMTP_USER", ""); ("SMTP_PASSWORD", ""); ("SMTP_SENDER", ""); ("SMTP_RECEIVER", "");
   ("FEISHU_WEBHOOK", "")].

End Case.

(** * The program under Python's string methods *)

Section Program.

(** [str.lower] and [str.strip], as Python has them: every property below
    holds whatever these two functions are. *)
Variable lower : string -> string.
Variable strip : string -> string.

(** ** push *)

(** The dictionary literal of [push]: name and module, in the order the
    [for] loop visits them. *)
Definition pushers : list (string * backend) :=
  [("dingtalk", dingtalk); ("serverchan", serverchan); ("pushdeer", pushdeer);
   ("telegram", telegram); ("pushplus", pushplus); ("smtp", smtp);
   ("feishu", feishu)].

(** [x in l] for strings. *)
Definition str_in (x : string) (l : list string) : bool := existsb (String.eqb x) l.

Definition push (cfg : config) (content content_html : string) (title : option string)
    (w : world) : result unit * world :=
  match lookup "push_types" cfg with
  | None => (Raise (KeyError "push_types"), w)
  | Some v =>
      let configured_push_types :=
        map (fun i => strip (lower i))
            (match v with CStr s => [s] | CList l => l end) in
      (Ok tt,
       fold_left
         (fun w' '(push_type, pusher) =>
            if str_in push_type configured_push_types
            then pusher_push pusher cfg content content_html title w'
            else w')
         pushers w)
  end.

Section Main.

Variable server : list request -> response.

(** ** reward_code *)

Definition reward_request (token : value) (code : string) : request :=
  mk_request "https://member.aliyundrive.com/v1/users/rewards" []
    [("Authorization", token)] (VDict [("code", VStr code)]).

(** Lines 311-323, on the decoded document. *)
Definition reward_code_reply (data : value) : result (option string) :=
  (has <- contains data "success" ;;
   if negb has
   then (m <- getitem data "message" ;; Ok (Some ("兑换福利码发生错误: " ++ py_str m)))
   else
     (s <- getitem data "success" ;;
      if truthy s
      then (r <- getitem data "result" ;;
            m <- getitem r "message" ;;
            Ok (Some ("兑换福利码成功: " ++ py_str m)))
      else (c <- getitem data "code" ;;
            if eq_str c "30009" then Ok None
            else (m <- getitem data "message" ;;
                  Ok (Some ("兑换福利码失败: " ++ py_str m))))))%result.

Definition reward_code (token : value) (code : string) (w : world)
    : result (option string) * world :=
  let w' := record_sent (reward_request token code) w in
  match server (sent w') with
  | Fails _ => (Ok (Some "兑换福利码时发生请求错误"), w')
  | Garbage msg => (Raise (RequestException msg), w')
  | Body data => (reward_code_reply data, w')
  end.

(** ** main, from the list of users (line 371) to [new_users] (line 412)

    What comes before (arguments, logging, loading the configuration) and
    after (handing [new_users] to the configuration file or to GitHub) is
    the work of collaborators outside this file. *)

Definition footer : string :=
  nl ++ nl ++ "该功能由 阿里云盘自动签到 https://github.com/ImYrS/aliyun-auto-signin 提供." ++ nl
  ++ "用于尝试自动兑换 500G 福利码, 两周年活动结束后本功能将被移除." ++ nl
  ++ "如果这个项目帮助到了你, 欢迎给我一个 Star 来支持我持续维护和更新.".

(** One turn of the loop of lines 380-391. *)
Definition main_user (cfg : config) (user : string)
    (results : list Outcome.t) (rewards : list string) (w : world)
    : result (list Outcome.t * list string) * world :=
  let signin := SignIn.__init__ cfg user in
  match SignIn.run server (signin, w) with
  | (Raise e, (_, w1)) => (Raise e, w1)
  | (Ok o, (signin, w1)) =>
      let results := (results ++ [o])%list in
      if negb (truthy (SignIn.access_token signin))
      then (Ok (results, rewards), w1)
      else
        match reward_code (SignIn.access_token signin) "阿里云盘两周年" w1 with
        | (Raise e, w2) => (Raise e, w2)
        | (Ok reward, w2) =>
            let reward :=
              match reward with
              | None => "已经兑换过这个福利码了."
              | Some r => r
              end in
            let reward := "[" ++ py_str (SignIn.phone signin) ++ "] " ++ reward in
            (Ok (results, (rewards ++ [reward])%list), w2)
        end
  end.

Fixpoint main_loop (cfg : config) (users : list string)
    (results : list Outcome.t) (rewards : list string) (w : world)
    : result (list Outcome.t * list string) * world :=
  match users with
  | [] => (Ok (results, rewards), w)
  | user :: rest =>
      match main_user cfg user results rewards w with
      | (Raise e, w') => (Raise e, w')
      | (Ok (results', rewards'), w') => main_loop cfg rest results' rewards' w'
      end
  end.

Definition main (cfg : config) (w : world) : result (list value) * world :=
  match lookup "refresh_tokens" cfg with
  | None => (Raise (KeyError "refresh_tokens"), w)
  | Some v =>
      let users := match v with CStr s => [s] | CList l => l end in
      match main_loop cfg users [] [] w with
      | (Raise e, w1) => (Raise e, w1)
      | (Ok (results, rewards), w1) =>
          let text := join (nl ++ nl) (map Outcome.text results) in
          let text_html := join (nl ++ nl) (map Outcome.text_html results) in
          match push cfg text text_html (Some "阿里云盘签到") w1 with
          | (Raise e, w2) => (Raise e, w2)
          | (Ok _, w2) =>
              let pushed_rewards :=
                match rewards with
                | [] => (Ok tt, w2)
                | _ =>
                    let text := join (nl ++ nl) rewards ++ footer in
                    let text_html := text in
                    push cfg text text_html (Some "阿里云盘两周年") w2
                end in
              match pushed_rewards with
              | (Raise e, w3) => (Raise e, w3)
              | (Ok _, w3) => (Ok (map Outcome.refresh_token results), w3)
              end
          end
      end
  end.

End Main.

(** ** main, from the configuration check (line 366) to the end

    [by_action] and the configuration are what lines 346-364 compute from
    the command line, the environment and [config.ini]. *)

(** [type(v).__name__] *)
Definition type_name (v : value) : string :=
  match v with
  | VNone => "NoneType"
  | VBool _ => "bool"
  | VInt _ => "int"
  | VStr _ => "str"
  | VList _ => "list"
  | VDict _ => "dict"
  end.

(** The items of [sep.join(l)] when all are strings; otherwise the message
    of the [TypeError] raised at the first item that is not, [i] being the
    position of the head of [l]. *)
Fixpoint join_items (i : nat) (l : list value) : list string + string :=
  match l with
  | [] => inl []
  | VStr s :: l' =>
      match join_items (S i) l' with
      | inl items => inl (s :: items)
      | inr msg => inr msg
      end
  | v :: _ =>
      inr ("sequence item " ++ str_of_Z (Z.of_nat i) ++ ": expected str instance, "
           ++ type_name v ++ " found")
  end.

(** [d[k] = v] on a dict: the value of an existing key is replaced where it
    stands, a new key goes to the end. *)
Fixpoint dict_set {A} (k : string) (v : A) (d : list (string * A)) : list (string * A) :=
  match d with
  | [] => [(k, v)]
  | (k', v') :: d' =>
      if String.eqb k k' then (k, v) :: d' else (k', v') :: dict_set k v d'
  end.

(** What the end of [main] leaves: the configuration object and the calls
    made to [github.update_secret]. *)
Record persisted : Type := mk_persisted {
  final_config : config;
  secret_calls : list (string * string)
}.

Section Persist.

Variable server : list request -> response.

(** [github.update_secret(name, value)], a module outside this file: it
    returns ([None]) or raises an exception of which [str] gives the
    message. *)
Variable update_secret : string -> string -> option string.

(** Lines 414-422. *)
Definition update_refresh_tokens (by_action : bool) (cfg : config)
    (new_users : list value) (w : world) : result persisted * world :=
  if negb by_action
  then
    match join_items 0 new_users with
    | inr _ => (Raise TypeError, w)
    | inl items =>
        (Ok (mk_persisted (dict_set "refresh_tokens" (CStr (join "," items)) cfg) []), w)
    end
  else
    let '(raised, calls) :=
      match join_items 0 new_users with
      | inr msg => (Some msg, [])
      | inl items =>
          (update_secret "REFRESH_TOKENS" (join "," items),
           [("REFRESH_TOKENS", join "," items)])
      end in
    match raised with
    | None => (Ok (mk_persisted cfg calls), w)
    | Some e =>
        let err := "Action 更新 Github Secrets 失败: " ++ e in
        match push cfg err err (Some "阿里云盘签到") w with
        | (Raise x, w') => (Raise x, w')
        | (Ok _, w') => (Ok (mk_persisted cfg calls), w')
        end
    end.


End Persist.

(** ** Vocabulary of the properties *)

(** The reply is a failure of the transport, with message [msg]: the code
    handles both kinds in the same [except requests.RequestException]. *)
Definition transport_failure (r : response) (msg : string) : Prop :=
  r = Fails msg \/ r = Garbage msg.

(** Entry [k] of the log is the first whose status is 'miss'; every entry
    before it carries another status. *)
Definition first_miss (logs : list value) (k : nat) : Prop :=
  (exists d status, nth_error logs k = Some d /\ getitem d "status" = Ok status /\
                    eq_str status "miss" = true) /\
  (forall i, i < k ->
     exists d status, nth_error logs i = Some d /\ getitem d "status" = Ok status /\
                      eq_str status "miss" = false).

(** The names a configuration value enables, before normalisation. *)
Definition configured (v : cfgval) : list string :=
  match v with
  | CStr s => [s]
  | CList l => l
  end.

(** The registered adapters, in registration order, and their names. *)
Definition backends : list backend :=
  [dingtalk; serverchan; pushdeer; telegram; pushplus; smtp; feishu].

Definition name_of (b : backend) : string :=
  match b with
  | dingtalk => "dingtalk"
  | serverchan => "serverchan"
  | pushdeer => "pushdeer"
  | telegram => "telegram"
  | pushplus => "pushplus"
  | smtp => "smtp"
  | feishu => "feishu"
  end.

Definition backend_eqb (a b : backend) : bool := String.eqb (name_of a) (name_of b).

(** Adapter [b] is enabled by the configured names: its name is one of
    them once they are lowercased and trimmed. *)
Definition enabled (names : list string) (b : backend) : bool :=
  str_in (name_of b) (map (fun i => strip (lower i)) names).

(** The calls a dispatch of one envelope makes, given the configured names. *)
Definition dispatched (cfg : config) (names : list string)
    (content content_html : string) (title : option string) : list push_call :=
  map (fun b => mk_push_call b cfg content content_html title)
      (filter (enabled names) backends).

(** The reward message [reward] is labelled with the identifier [user]. *)
Definition keyed_by (user : value) (reward : string) : bool :=
  is_prefix ("[" ++ py_str user ++ "] ") reward.

Definition redeem_code : string := "阿里云盘两周年".

Definition already_redeemed_text : string := "已经兑换过这个福利码了.".

(** The fields of a session that identify the account. *)
Definition same_account (s s' : SignIn.t) : Prop :=
  SignIn.config_ s' = SignIn.config_ s /\
  SignIn.refresh_token s' = SignIn.refresh_token s /\
  SignIn.hide_refresh_token s' = SignIn.hide_refresh_token s.

(** Between [s] and [s'] the rotated credential either stayed what it was
    or was taken from the [refresh_token] field of a reply of the server
    to the exchange request of the account. *)
Definition rotation (server : list request -> response) (s s' : SignIn.t) : Prop :=
  SignIn.new_refresh_token s' = SignIn.new_refresh_token s \/
  exists history data,
    server (history ++ [SignIn.token_request s])%list = Body data /\
    getitem data "refresh_token" = Ok (SignIn.new_refresh_token s').

(** [s] is the session of its account as a run under [cfg] leaves it. *)
Definition session_of (server : list request -> response) (cfg : config)
    (s : SignIn.t) : Prop :=
  exists w1 w2,
    SignIn.run server (SignIn.__init__ cfg (SignIn.refresh_token s), w1)
      = (Ok (SignIn.__generate_result s), (s, w2)).

(** What a session contributes to [new_users]. *)
Definition contribution (s : SignIn.t) : value :=
  py_or (SignIn.new_refresh_token s) (VStr (SignIn.refresh_token s)).

(** The variables [get_config_from_env] reads, in the order it reads them. *)
Definition required_variables : list string :=
  ["REFRESH_TOKENS"; "PUSH_TYPES"; "SERVERCHAN_SEND_KEY"; "TELEGRAM_BOT_TOKEN";
   "TELEGRAM_CHAT_ID"; "PUSHPLUS_TOKEN"; "SMTP_HOST"; "SMTP_PORT"; "SMTP_TLS";
   "SMTP_USER"; "SMTP_PASSWORD"; "SMTP_SENDER"; "SMTP_RECEIVER"; "FEISHU_WEBHOOK"].

Definition missing (env : environ) (k : string) : bool :=
  match lookup k env with
  | Some _ => false
  | None => true
  end.

(** The first required variable that the environment lacks. *)
Definition first_missing (env : environ) : option string :=
  find (missing env) required_variables.

(** A configured name as [push] compares it. *)
Definition normalised (name : string) : string := strip (lower name).

(** The texts [texts] laid out one after the other, each two line feeds
    (character 10) after the one before: the combined report. *)
Fixpoint blank_line_separated (texts : list string) : string :=
  match texts with
  | [] => ""
  | [t] => t
  | t :: rest => t ++ String "010" (String "010" (blank_line_separated rest))
  end.

(** The adapters invoked by the calls [calls], in the order of the calls. *)
Definition invoked (calls : list push_call) : list backend := map pc_backend calls.

(** * Properties *)

(** ** Strings *)

(** [repr] of a string escapes what [str.isprintable] rejects and keeps
    the rest: the ideographic space U+3000, the control U+0085, DEL and the
    tag U+E0001 are escaped; the ideograph U+4E2D and the inverted
    exclamation mark U+00A1 stay as they are. *)
Example repr_str_escapes :
  repr_str (string_of_list_ascii
              (map ascii_of_nat [227; 128; 128; 194; 133; 127; 243; 160; 128; 129]))
    = "'\u3000\x85\x7f\U000e0001'" /\
  repr_str (string_of_list_ascii (map ascii_of_nat [228; 184; 173; 194; 161; 39]))
    = String quote (string_of_list_ascii (map ascii_of_nat [228; 184; 173; 194; 161; 39])
                    ++ String quote "").
Proof.
  split; vm_compute; reflexivity.
Qed.

Lemma string_of_list_ascii_app (a b : list ascii) :
  string_of_list_ascii (a ++ b) = string_of_list_ascii a ++ string_of_list_ascii b.
Proof.
  induction a as [|c a IH]; simpl; [reflexivity | now rewrite IH].
Qed.

Lemma length_string_of_list_ascii (l : list ascii) :
  String.length (string_of_list_ascii l) = List.length l.
Proof.
  induction l as [|c l IH]; simpl; [reflexivity | now rewrite IH].
Qed.

Lemma length_list_ascii_of_string (s : string) :
  List.length (list_ascii_of_string s) = String.length s.
Proof.
  induction s as [|c s IH]; simpl; [reflexivity | now rewrite IH].
Qed.

(** ** The masked credential *)

(** What [__hide_refresh_token] computes, for every credential: the first
    (at most) four characters and the last (at most) four, with one mask
    symbol for each character strictly between them. *)
Lemma hide_refresh_token_eq (s : string) :
  let l := list_ascii_of_string s in
  let n := List.length l in
  SignIn.__hide_refresh_token s =
  string_of_list_ascii (firstn 4 l ++ repeat "*"%char (n - 8) ++ skipn (n - 4) l).
Proof.
  intros l n. unfold SignIn.__hide_refresh_token, str_slice, str_repeat, slice.
  fold l. rewrite length_string_of_list_ascii. fold n.
  rewrite !string_of_list_ascii_app. unfold clamp.
  change (4 <? 0)%Z with false. change (-4 <? 0)%Z with true. cbv iota.
  f_equal; [|f_equal]; f_equal.
  - replace (Z.to_nat (Z.min 4 (Z.of_nat n) - 0)) with (Nat.min 4 n) by lia.
    change (Z.to_nat 0) with 0. simpl skipn.
    destruct (Nat.le_gt_cases 4 n) as [H|H].
    + now rewrite Nat.min_l by lia.
    + rewrite Nat.min_r by lia. rewrite !firstn_all2; [reflexivity | lia | lia].
  - f_equal. rewrite length_firstn, length_skipn. fold n. lia.
  - replace (Z.to_nat (Z.max (-4 + Z.of_nat n) 0)) with (n - 4) by lia.
    apply firstn_all2. rewrite length_skipn. fold n. lia.
Qed.

(** For a credential of at least eight characters the masked form has the
    length of the credential, starts and ends with its first and last four
    characters, and holds only mask symbols in between. *)
Lemma hide_refresh_token_long (s : string) :
  8 <= String.length s ->
  exists first interior last,
    list_ascii_of_string s = (first ++ interior ++ last)%list /\
    List.length first = 4 /\ List.length last = 4 /\
    SignIn.__hide_refresh_token s =
      string_of_list_ascii (first ++ repeat "*"%char (List.length interior) ++ last) /\
    String.length (SignIn.__hide_refresh_token s) = String.length s.
Proof.
  intros H. rewrite <- length_list_ascii_of_string in H.
  set (l := list_ascii_of_string s) in *.
  exists (firstn 4 l), (firstn (List.length l - 8) (skipn 4 l)), (skipn (List.length l - 4) l).
  assert (Hl : l = (firstn 4 l ++ firstn (List.length l - 8) (skipn 4 l)
                   ++ skipn (List.length l - 4) l)%list).
  { rewrite <- (firstn_skipn 4 l) at 1. f_equal.
    rewrite <- (firstn_skipn (List.length l - 8) (skipn 4 l)) at 1. f_equal.
    rewrite skipn_skipn. f_equal. lia. }
  assert (Hi : List.length (firstn (List.length l - 8) (skipn 4 l)) = List.length l - 8).
  { rewrite length_firstn, length_skipn. lia. }
  split; [exact Hl|]. split; [rewrite length_firstn; lia|].
  split; [rewrite length_skipn; lia|].
  rewrite Hi. pose proof (hide_refresh_token_eq s) as E. cbv zeta in E. fold l in E.
  split; [exact E|].
  rewrite E, length_string_of_list_ascii, !length_app, repeat_length,
    length_firstn, length_skipn.
  unfold l at 4. rewrite length_list_ascii_of_string.
  subst l. rewrite length_list_ascii_of_string in *. lia.
Qed.

(** For a credential of one to seven characters the masked form is longer
    than the credential. *)
Lemma hide_refresh_token_short (s : string) :
  1 <= String.length s < 8 ->
  String.length s < String.length (SignIn.__hide_refresh_token s).
Proof.
  intros H. pose proof (hide_refresh_token_eq s) as E. cbv zeta in E. rewrite E.
  rewrite length_string_of_list_ascii, !length_app, repeat_length, length_firstn,
    length_skipn, length_list_ascii_of_string. lia.
Qed.

(** C2. The masking function on a credential shorter than eight
    characters: on the five-character credential [abcde] it returns the
    eight characters [abcdbcde], not the credential. *)
Theorem C2_hide_refresh_token_short_input :
  SignIn.__hide_refresh_token "abcde" = "abcdbcde" /\
  SignIn.__hide_refresh_token "abcde" <> "abcde".
Proof.
  split; [reflexivity | discriminate].
Qed.

(** ** The account session *)

(** *** The credential exchange *)

Ltac unfold_methods :=
  unfold SignIn.__get_access_token, SignIn.get_access_token_with,
    SignIn.__sign_in, SignIn.sign_in_with, SignIn.check_code, SignIn.store_tokens,
    SignIn.post_json, SignIn.bind, SignIn.try_, SignIn.self_, SignIn.assign,
    SignIn.ret, SignIn.raise, SignIn.lift;
  cbn [fst snd sent pushed record_sent].

(** C5. A reply of the exchange whose [code] is [RefreshTokenExpired] or
    [InvalidParameter.RefreshToken] makes the exchange return [False] at
    once: after the call [self.error] is the reply, every other field of
    the session is what it was, and the request that got the reply is the
    only one made, whether the call is the first attempt or the retry.
    The session of a fresh object then ends with a failed outcome whose
    text carries the reply. *)
Theorem C5_invalid_credential_fails_without_retry
    (server : list request -> response) (retry : bool) (self : SignIn.t) (w : world)
    (data code : value) :
  server (sent w ++ [SignIn.token_request self])%list = Body data ->
  getitem data "code" = Ok code ->
  code = VStr "RefreshTokenExpired" \/ code = VStr "InvalidParameter.RefreshToken" ->
  exists self' w',
    SignIn.__get_access_token server retry (self, w) = (Ok false, (self', w')) /\
    SignIn.error self' = EVal data /\
    SignIn.access_token self' = SignIn.access_token self /\
    SignIn.new_refresh_token self' = SignIn.new_refresh_token self /\
    SignIn.phone self' = SignIn.phone self /\
    SignIn.signin_count self' = SignIn.signin_count self /\
    SignIn.refresh_token self' = SignIn.refresh_token self /\
    sent w' = (sent w ++ [SignIn.token_request self])%list /\
    pushed w' = pushed w /\
    (SignIn.signin_count self = VInt 0 ->
     exists o,
       SignIn.run server (self, w) = (Ok o, (self', w')) /\
       Outcome.success o = false /\
       Outcome.count o = VInt 0 /\
       Outcome.text o = "[" ++ py_str (Outcome.user o) ++ "] 签到失败" ++ nl
                        ++ json_dumps (py_str data)).
Proof.
  intros Hreply Hcode Hinvalid.
  assert (Hin : in_strs code SignIn.code_invalid = true)
    by (destruct Hinvalid; subst code; reflexivity).
  assert (Hget : SignIn.__get_access_token server retry (self, w) =
                 (Ok false, (SignIn.set_error (EVal data) self,
                             record_sent (SignIn.token_request self) w)))
    by (destruct retry; unfold_methods; rewrite Hreply, Hcode, Hin; reflexivity).
  exists (SignIn.set_error (EVal data) self), (record_sent (SignIn.token_request self) w).
  split; [exact Hget|]. repeat (split; [reflexivity|]).
  intros Hcount. eexists. unfold SignIn.run. unfold SignIn.bind at 1.
  destruct retry.
  - assert (Hfirst : SignIn.__get_access_token server false (self, w) =
                     (Ok false, (SignIn.set_error (EVal data) self,
                                 record_sent (SignIn.token_request self) w)))
      by (unfold_methods; rewrite Hreply, Hcode, Hin; reflexivity).
    rewrite Hfirst. unfold SignIn.bind, SignIn.ret, SignIn.self_. cbn [fst snd].
    split; [reflexivity|]. unfold SignIn.__generate_result.
    cbn [Outcome.success Outcome.count Outcome.text Outcome.user SignIn.signin_count
         SignIn.set_error SignIn.error SignIn.phone SignIn.hide_refresh_token].
    rewrite Hcount. repeat split.
  - rewrite Hget. unfold SignIn.bind, SignIn.ret, SignIn.self_. cbn [fst snd].
    split; [reflexivity|]. unfold SignIn.__generate_result.
    cbn [Outcome.success Outcome.count Outcome.text Outcome.user SignIn.signin_count
         SignIn.set_error SignIn.error SignIn.phone SignIn.hide_refresh_token].
    rewrite Hcount. repeat split.
Qed.



(** *** The sign-in *)

Lemma skipn_nth_error {A} (l : list A) (j : nat) (x : A) :
  nth_error l j = Some x -> skipn j l = x :: skipn (S j) l.
Proof.
  revert l. induction j as [|j IH]; intros [|y l] H; try discriminate.
  - now inversion H.
  - simpl in H. simpl skipn at 1. now rewrite (IH l H).
Qed.

(** The loop of [__sign_in], started at entry [j] at or before the first
    'miss', stops at that entry and takes the one before it. *)
Lemma find_current_day_first_miss (data r : value) (logs : list value) (k : nat)
    (today : value) :
  getitem data "result" = Ok r ->
  getitem r "signInLogs" = Ok (VList logs) ->
  1 <= k ->
  first_miss logs k ->
  nth_error logs (k - 1) = Some today ->
  forall n j, k = j + n ->
    SignIn.find_current_day data (Z.of_nat j) (skipn j logs) = Ok today.
Proof.
  intros Hr Hlogs Hk [[d [status [Hd [Hstatus Hmiss]]]] Hbefore] Htoday.
  induction n as [|n IH]; intros j Hj.
  - rewrite Nat.add_0_r in Hj. subst j.
    rewrite (skipn_nth_error _ _ _ Hd). cbn [SignIn.find_current_day rbind].
    rewrite Hstatus. cbn [rbind]. rewrite Hmiss, Hr. cbn [rbind]. rewrite Hlogs.
    cbn [rbind getitem_int]. unfold index.
    replace (Z.of_nat k - 1 <? 0)%Z with false by lia.
    replace (Z.of_nat k - 1 <? 0)%Z with false by lia.
    replace (Z.to_nat (Z.of_nat k - 1)) with (k - 1) by lia.
    now rewrite Htoday.
  - destruct (Hbefore j) as [dj [sj [Hdj [Hsj Hnot]]]]; [lia|].
    rewrite (skipn_nth_error _ _ _ Hdj). cbn [SignIn.find_current_day rbind].
    rewrite Hsj. cbn [rbind]. rewrite Hnot.
    replace (Z.of_nat j + 1)%Z with (Z.of_nat (S j)) by lia.
    apply IH. lia.
Qed.

(** C3. When entry [k >= 1] of the log is the first with status 'miss',
    the sign-in takes entry [k-1] as today's entry: the reward text is
    'no reward' when that entry's [isReward] flag is false and is built
    from that entry's reward name and description otherwise, and the
    streak count recorded and reported is the reply's [signInCount]. *)
Theorem C3_today_is_the_entry_before_the_first_miss
    (server : list request -> response) (self : SignIn.t) (w : world)
    (data r count today flag : value) (logs : list value) (k : nat) :
  server (sent w ++ [SignIn.signin_request self])%list = Body data ->
  contains data "success" = Ok true ->
  getitem data "result" = Ok r ->
  getitem r "signInLogs" = Ok (VList logs) ->
  getitem r "signInCount" = Ok count ->
  1 <= k ->
  first_miss logs k ->
  nth_error logs (k - 1) = Some today ->
  getitem today "isReward" = Ok flag ->
  (truthy flag = true ->
   exists rw name description,
     getitem today "reward" = Ok rw /\ getitem rw "name" = Ok name /\
     getitem rw "description" = Ok description) ->
  exists reward self',
    SignIn.__sign_in server false (self, w) =
      (Ok VNone, (self', record_sent (SignIn.signin_request self) w)) /\
    self' = SignIn.set_signin_reward (VStr reward) (SignIn.set_signin_count count self) /\
    SignIn.find_current_day data 0 logs = Ok today /\
    SignIn.reward_text today = Ok reward /\
    (truthy flag = false -> reward = "无奖励") /\
    (forall rw name description,
        truthy flag = true ->
        getitem today "reward" = Ok rw -> getitem rw "name" = Ok name ->
        getitem rw "description" = Ok description ->
        reward = "获得 " ++ py_str name ++ " " ++ py_str description) /\
    Outcome.count (SignIn.__generate_result self') = count /\
    Outcome.reward (SignIn.__generate_result self') = VStr reward.
Proof.
  intros Hreply Hsuccess Hr Hlogs Hcount Hk Hmiss Htoday Hflag Hreward.
  assert (Hfind : SignIn.find_current_day data 0 logs = Ok today).
  { apply (find_current_day_first_miss data r logs k today Hr Hlogs Hk Hmiss Htoday k 0).
    reflexivity. }
  assert (Htext : exists reward, SignIn.reward_text today = Ok reward /\
            (truthy flag = false -> reward = "无奖励") /\
            (forall rw name description,
                truthy flag = true ->
                getitem today "reward" = Ok rw -> getitem rw "name" = Ok name ->
                getitem rw "description" = Ok description ->
                reward = "获得 " ++ py_str name ++ " " ++ py_str description)).
  { unfold SignIn.reward_text. rewrite Hflag. cbn [rbind].
    destruct (truthy flag) eqn:Et; cbn [negb].
    - destruct (Hreward eq_refl) as [rw [name [description [H1 [H2 H3]]]]].
      rewrite H1. cbn [rbind]. rewrite H2, H3. cbn [rbind].
      eexists. split; [reflexivity|]. split; [discriminate|].
      intros rw' name' description' _ H1' H2' H3'. congruence.
    - eexists. split; [reflexivity|]. split; [reflexivity|]. discriminate. }
  destruct Htext as [reward [Htext [Hno Hyes]]].
  exists reward, (SignIn.set_signin_reward (VStr reward) (SignIn.set_signin_count count self)).
  split; [|repeat split; assumption].
  unfold_methods. rewrite Hreply. unfold SignIn.sign_in_reply.
  unfold_methods. rewrite Hsuccess. cbn [negb]. rewrite Hr. cbn [rbind].
  rewrite Hlogs. cbn [rbind py_iter]. rewrite Hfind, Htext, Hcount. reflexivity.
Qed.




(** ** The dispatcher *)

Lemma push_fold (cfg : config) (names : list string) (content content_html : string)
    (title : option string) (ps : list (string * backend)) (w : world) :
  fold_left
    (fun w' '(push_type, pusher) =>
       if str_in push_type names
       then pusher_push pusher cfg content content_html title w'
       else w')
    ps w =
  mk_world (sent w)
    (pushed w ++ map (fun p => mk_push_call (snd p) cfg content content_html title)
                     (filter (fun p => str_in (fst p) names) ps)).
Proof.
  revert w. induction ps as [|[push_type pusher] ps IH]; intros w.
  - simpl. rewrite app_nil_r. now destruct w.
  - cbn [fold_left filter fst]. rewrite IH. destruct (str_in push_type names).
    + cbn [pusher_push record_pushed sent pushed map snd]. now rewrite <- app_assoc.
    + reflexivity.
Qed.

Lemma push_dispatched (cfg : config) (v : cfgval) (content content_html : string)
    (title : option string) (w : world) :
  lookup "push_types" cfg = Some v ->
  push cfg content content_html title w =
    (Ok tt, mk_world (sent w)
              (pushed w ++ dispatched cfg (configured v) content content_html title)).
Proof.
  intros H. unfold push. rewrite H. fold (configured v). rewrite push_fold.
  unfold dispatched, enabled, backends, pushers.
  cbn [filter fst snd map name_of].
  set (L := map (fun i => strip (lower i)) (configured v)).
  destruct (str_in "dingtalk" L), (str_in "serverchan" L), (str_in "pushdeer" L),
    (str_in "telegram" L), (str_in "pushplus" L), (str_in "smtp" L),
    (str_in "feishu" L); reflexivity.
Qed.

(** C6. With [push_types] configured, the dispatcher returns normally
    and invokes exactly the registered adapters whose name is among the
    configured names once these are lowercased and trimmed: in registration
    order, each once, all with the same configuration, plain text, marked-up
    text and title; it posts no request; a configured name that is no
    adapter's name changes nothing. *)
Theorem C6_push_invokes_the_enabled_adapters
    (cfg : config) (v : cfgval) (content content_html : string)
    (title : option string) (w : world) :
  lookup "push_types" cfg = Some v ->
  exists w',
    push cfg content content_html title w = (Ok tt, w') /\
    sent w' = sent w /\
    pushed w' =
      (pushed w ++ map (fun b => mk_push_call b cfg content content_html title)
                       (filter (enabled (configured v)) backends))%list /\
    (forall b,
        List.length (filter (fun c => backend_eqb (pc_backend c) b)
                       (dispatched cfg (configured v) content content_html title)) =
        if enabled (configured v) b then 1 else 0) /\
    (forall names1 names2 unknown,
        (forall b, strip (lower unknown) <> name_of b) ->
        forall b, enabled (names1 ++ unknown :: names2)%list b
                  = enabled (names1 ++ names2)%list b).
Proof.
  intros H. eexists. split; [apply (push_dispatched cfg v); exact H|].
  cbn [sent pushed]. split; [reflexivity|]. split; [reflexivity|]. split.
  - intros b. unfold dispatched, backends. cbn [filter].
    destruct (enabled (configured v) dingtalk) eqn:E1,
      (enabled (configured v) serverchan) eqn:E2,
      (enabled (configured v) pushdeer) eqn:E3,
      (enabled (configured v) telegram) eqn:E4,
      (enabled (configured v) pushplus) eqn:E5,
      (enabled (configured v) smtp) eqn:E6,
      (enabled (configured v) feishu) eqn:E7;
      destruct b; rewrite ?E1, ?E2, ?E3, ?E4, ?E5, ?E6, ?E7; reflexivity.
  - intros names1 names2 unknown Hunknown b. unfold enabled, str_in.
    rewrite !map_app, !existsb_app. cbn [map existsb].
    destruct (String.eqb_spec (name_of b) (strip (lower unknown))) as [E|E].
    + exfalso. apply (Hunknown b). now symmetry.
    + reflexivity.
Qed.

(** ** The reward redeemer *)

(** The redeemer posts one request, whatever the reply, and invokes no
    adapter. *)
Lemma reward_code_posts_once
    (server : list request -> response) (token : value) (code : string) (w : world) :
  snd (reward_code server token code w) = record_sent (reward_request token code) w.
Proof.
  unfold reward_code. now destruct (server _).
Qed.

(** C9. On a reply that is a dict without [success] the redeemer sets out
    to return the 'error occurred' message (lines 313-314), and when the
    reply has no [message] either it raises [KeyError] instead: no message
    is returned. *)
Lemma C9_reward_code_raises_without_message :
  fst (reward_code Scenario.bare_error (VStr "at") redeem_code world0)
    = Raise (KeyError "message") /\
  forall m, fst (reward_code Scenario.bare_error (VStr "at") redeem_code world0) <> Ok m.
Proof.
  split; [reflexivity | discriminate].
Qed.

(** The redeemer posts exactly one request.  It returns
    [None] exactly when the reply is a dict whose [success] is false for
    Python and whose [code] is '30009'.  When the request fails it returns
    the request-error message, without another request.  On a dict
    without [success] that carries a [message] it returns the
    'error occurred' message built from it, which differs from [None], from
    every 'redemption failed' and 'redemption succeeded' message and from
    the request-error message. *)
Theorem reward_code_results
    (server : list request -> response) (token : value) (code : string) (w : world) :
  let rq := reward_request token code in
  snd (reward_code server token code w) = record_sent rq w /\
  (fst (reward_code server token code w) = Ok None <->
   exists d s, server (sent w ++ [rq])%list = Body (VDict d) /\
               lookup "success" d = Some s /\ truthy s = false /\
               lookup "code" d = Some (VStr "30009")) /\
  (forall msg, server (sent w ++ [rq])%list = Fails msg ->
               fst (reward_code server token code w) = Ok (Some "兑换福利码时发生请求错误")) /\
  (forall d m, server (sent w ++ [rq])%list = Body (VDict d) ->
               lookup "success" d = None ->
               lookup "message" d = Some m ->
               fst (reward_code server token code w)
                 = Ok (Some ("兑换福利码发生错误: " ++ py_str m))) /\
  (forall x y, "兑换福利码发生错误: " ++ x <> "兑换福利码失败: " ++ y /\
               "兑换福利码发生错误: " ++ x <> "兑换福利码成功: " ++ y /\
               "兑换福利码发生错误: " ++ x <> "兑换福利码时发生请求错误").
Proof.
  intros rq. unfold reward_code. fold rq. cbn [sent record_sent].
  split; [destruct (server _); reflexivity|]. split; [|split; [|split]].
  - split.
    + destruct (server (sent w ++ [rq])%list) as [msg|msg|data] eqn:E;
        cbn [fst]; try discriminate.
      destruct data as [ |b|z|t|l|d]; unfold reward_code_reply;
        cbn [contains getitem rbind]; try discriminate;
        try (match goal with |- context [negb ?c] => destruct c end; discriminate).
      destruct (lookup "success" d) as [s|] eqn:Es; cbn [negb rbind].
      * destruct (truthy s) eqn:Et.
        { destruct (lookup "result" d) as [[ |b|z|t|l|r]|]; try discriminate.
          cbn [rbind getitem]. destruct (lookup "message" r); discriminate. }
        { destruct (lookup "code" d) as [c|] eqn:Ec; [|discriminate]. cbn [rbind].
          destruct c as [ |b|z|c|l|d']; cbn [eq_str];
            try (destruct (lookup "message" d); discriminate).
          destruct (String.eqb_spec c "30009") as [->|Hne].
          - intros _. exists d, s. auto.
          - destruct (lookup "message" d); discriminate. }
      * destruct (lookup "message" d); discriminate.
    + intros [d [s [E [Es [Et Ec]]]]]. rewrite E. cbn [fst].
      unfold reward_code_reply. cbn [contains getitem rbind].
      rewrite Es. cbn [negb rbind]. rewrite Et, Ec. reflexivity.
  - intros msg E. rewrite E. reflexivity.
  - intros d m E Es Em. rewrite E. cbn [fst].
    unfold reward_code_reply. cbn [contains getitem rbind].
    rewrite Es. cbn [negb rbind]. rewrite Em. reflexivity.
  - intros x y. repeat split; intros H; cbn in H; discriminate H.
Qed.

(** ** Frame properties of the session *)

Ltac break_inner :=
  match goal with
  | |- context [match ?x with _ => _ end] =>
      lazymatch x with
      | context [match _ with _ => _ end] => fail
      | _ => destruct x eqn:?
      end
  end.

(** The exchange keeps the account and the streak, invokes no adapter,
    rotates the credential only from a reply of the server, and leaves
    [self.error] alone when it returns [True]. *)
Lemma get_access_token_frame (server : list request -> response) (retry : bool)
    (st : SignIn.t * world) :
  let r := SignIn.__get_access_token server retry st in
  same_account (fst st) (fst (snd r)) /\
  pushed (snd (snd r)) = pushed (snd st) /\
  rotation server (fst st) (fst (snd r)) /\
  SignIn.signin_count (fst (snd r)) = SignIn.signin_count (fst st) /\
  SignIn.signin_reward (fst (snd r)) = SignIn.signin_reward (fst st) /\
  (fst r = Ok true -> SignIn.error (fst (snd r)) = SignIn.error (fst st)) /\
  (forall b, fst r = Ok b -> b = false -> SignIn.error (fst (snd r)) <> ENone).
Proof.
  destruct st as [s w]. destruct retry; unfold_methods; unfold same_account, rotation;
    repeat (break_inner; cbn); repeat split; auto; try (intros; congruence);
    try (right; eauto; fail).
Qed.

(** The sign-in keeps the account and the credentials and invokes no
    adapter. *)
Lemma sign_in_frame (server : list request -> response) (retry : bool)
    (st : SignIn.t * world) :
  let r := SignIn.__sign_in server retry st in
  same_account (fst st) (fst (snd r)) /\
  pushed (snd (snd r)) = pushed (snd st) /\
  SignIn.new_refresh_token (fst (snd r)) = SignIn.new_refresh_token (fst st) /\
  SignIn.access_token (fst (snd r)) = SignIn.access_token (fst st) /\
  SignIn.phone (fst (snd r)) = SignIn.phone (fst st).
Proof.
  destruct st as [s w]. destruct retry; unfold_methods; unfold SignIn.sign_in_reply;
    unfold_methods; unfold same_account;
    repeat (break_inner; cbn); repeat split; auto.
Qed.

Lemma rotation_trans (server : list request -> response) (s s1 s2 : SignIn.t) :
  same_account s s1 -> rotation server s s1 -> rotation server s1 s2 ->
  rotation server s s2.
Proof.
  intros [_ [Htok _]] H1 [H2|[h [data [Hh Hd]]]].
  - destruct H1 as [H1|[h [data [Hh Hd]]]].
    + left. congruence.
    + right. exists h, data. split; [exact Hh | congruence].
  - right. exists h, data. split; [|exact Hd].
    unfold SignIn.token_request in *. now rewrite <- Htok.
Qed.

(** What [run] returns is [__generate_result] of the session as the run
    leaves it; the run keeps the account, invokes no adapter, and rotates
    the credential only from a reply of the server. *)
Lemma run_frame (server : list request -> response) (st : SignIn.t * world)
    (o : Outcome.t) (s : SignIn.t) (w' : world) :
  SignIn.run server st = (Ok o, (s, w')) ->
  o = SignIn.__generate_result s /\
  same_account (fst st) s /\
  pushed w' = pushed (snd st) /\
  rotation server (fst st) s.
Proof.
  unfold SignIn.run. unfold SignIn.bind at 1.
  pose proof (get_access_token_frame server false st) as Hget. cbv zeta in Hget.
  destruct (SignIn.__get_access_token server false st) as [[b|e] st1]; [|discriminate].
  cbn [fst snd] in Hget. destruct Hget as [Hacc [Hpushed [Hrot _]]].
  destruct st1 as [s1 w1]. cbn [fst snd] in *. destruct b.
  - unfold SignIn.bind, SignIn.ret, SignIn.self_.
    pose proof (sign_in_frame server false (s1, w1)) as Hsign. cbv zeta in Hsign.
    destruct (SignIn.__sign_in server false (s1, w1)) as [[v|e] [s2 w2]]; [|discriminate].
    cbn [fst snd] in *. destruct Hsign as [Hacc2 [Hpushed2 [Hnew _]]].
    intros H. inversion H. subst s2 w2.
    split; [reflexivity|]. split; [|split].
    + destruct Hacc as [? [? ?]], Hacc2 as [? [? ?]]. unfold same_account.
      repeat split; congruence.
    + congruence.
    + apply (rotation_trans server (fst st) s1 s Hacc Hrot). now left.
  - unfold SignIn.bind, SignIn.ret, SignIn.self_. cbn [fst snd].
    intros H. inversion H. subst s1 w1. repeat split; try apply Hacc; assumption.
Qed.

(** ** The aggregator *)

(** C8. When the exchange answers without a user name, the redemption
    message is labelled with [signin.phone], that is [None] (line 390),
    while the account identifier, for which the outcome falls back on the
    masked credential (lines 156 and 174), is [abcd********5678]: the
    message is not keyed by the account identifier. *)
Lemma C8_reward_message_not_keyed_by_identifier :
  exists o w,
    main_user Scenario.no_user_name Scenario.cfg "abcdefgh12345678" [] [] world0
      = (Ok ([o], ["[None] 已经兑换过这个福利码了."]), w) /\
    Outcome.user o = VStr "abcd********5678" /\
    keyed_by (Outcome.user o) "[None] 已经兑换过这个福利码了." = false.
Proof.
  eexists _, _. split; [vm_compute; reflexivity|]. split; reflexivity.
Qed.

(** After the session of an account has returned, the
    redemption request is posted exactly when the session's access
    credential is true for Python (neither absent nor empty), whatever
    the outcome of the sign-in; when it is not, the loop goes on with the
    reward list unchanged; when it is and the redeemer returns, the loop
    appends the redeemer's message (the fixed text for [None]) labelled
    with the session's [phone], which is the account identifier of the
    outcome whenever the phone is known. *)
Theorem reward_attempted_iff_access_token
    (server : list request -> response) (cfg : config) (user : string)
    (results : list Outcome.t) (rewards : list string) (w : world)
    (o : Outcome.t) (s : SignIn.t) (w1 : world) :
  SignIn.run server (SignIn.__init__ cfg user, w) = (Ok o, (s, w1)) ->
  let rq := reward_request (SignIn.access_token s) redeem_code in
  sent (snd (main_user server cfg user results rewards w)) =
    (sent w1 ++ (if truthy (SignIn.access_token s) then [rq] else []))%list /\
  (truthy (SignIn.access_token s) = false ->
   main_user server cfg user results rewards w = (Ok ((results ++ [o])%list, rewards), w1)) /\
  (truthy (SignIn.access_token s) = true ->
   forall m w2,
     reward_code server (SignIn.access_token s) redeem_code w1 = (Ok m, w2) ->
     let message := match m with Some r => r | None => already_redeemed_text end in
     main_user server cfg user results rewards w =
       (Ok ((results ++ [o])%list,
            (rewards ++ [("[" ++ py_str (SignIn.phone s) ++ "] " ++ message)%string])%list),
        w2) /\
     (truthy (SignIn.phone s) = true -> Outcome.user o = SignIn.phone s)).
Proof.
  intros Hrun rq. unfold main_user. rewrite Hrun.
  pose proof (reward_code_posts_once server (SignIn.access_token s) redeem_code w1) as Hsent.
  fold redeem_code. destruct (truthy (SignIn.access_token s)) eqn:Et; cbn [negb].
  - split; [|split; [discriminate|]].
    + destruct (reward_code server (SignIn.access_token s) redeem_code w1) as [[m|e] w2];
        cbn [fst snd] in *; subst w2; reflexivity.
    + intros _ m w2 Hm. rewrite Hm. split.
      * reflexivity.
      * intros Hphone. destruct (run_frame server _ o s w1 Hrun) as [Ho _].
        subst o. unfold SignIn.__generate_result, py_or. cbn [Outcome.user].
        now rewrite Hphone.
  - split; [cbn [snd]; now rewrite app_nil_r|]. split; [reflexivity | discriminate].
Qed.

(** C7. With two accounts of which the first gets a sign-in log without a
    'miss', [main] raises in the session of the first account: no report
    is produced, no list of refresh credentials is returned and the second
    account is never processed, whatever the string methods are. *)
Theorem C7_main_raises_without_report :
  fst (main Scenario.full_month Scenario.cfg world0) = Raise TypeError /\
  pushed (snd (main Scenario.full_month Scenario.cfg world0)) = [] /\
  lookup "refresh_tokens" Scenario.cfg = Some (CList ["abcdefgh12345678"; "0123456789"]) /\
  sent (snd (main Scenario.full_month Scenario.cfg world0)) =
    [SignIn.token_request (SignIn.__init__ Scenario.cfg "abcdefgh12345678");
     SignIn.signin_request
       (SignIn.set_access_token (VStr "at")
          (SignIn.__init__ Scenario.cfg "abcdefgh12345678"))].
Proof.
  repeat split; reflexivity.
Qed.

(** [', '.join]-style joining with two line feeds is the layout
    [blank_line_separated]. *)
Lemma join_blank_line (texts : list string) :
  join (nl ++ nl) texts = blank_line_separated texts.
Proof.
  unfold join. induction texts as [|t [|t' rest] IH]; [reflexivity | reflexivity |].
  change (String.concat (nl ++ nl) (t :: t' :: rest))
    with (t ++ (nl ++ nl) ++ String.concat (nl ++ nl) (t' :: rest)).
  rewrite IH. reflexivity.
Qed.

(** The loop of [main] runs one session per account, in order, and
    invokes no adapter. *)
Lemma main_loop_sessions (server : list request -> response) (cfg : config)
    (users : list string) :
  forall results rewards w results' rewards' w',
    main_loop server cfg users results rewards w = (Ok (results', rewards'), w') ->
    exists sessions,
      map SignIn.refresh_token sessions = users /\
      results' = (results ++ map SignIn.__generate_result sessions)%list /\
      pushed w' = pushed w /\
      Forall (session_of server cfg) sessions /\
      Forall (fun s => rotation server (SignIn.__init__ cfg (SignIn.refresh_token s)) s)
             sessions.
Proof.
  induction users as [|user users IH]; intros results rewards w results' rewards' w' H.
  - cbn in H. inversion H; subst. exists []. rewrite app_nil_r. repeat split; constructor.
  - cbn [main_loop] in H. unfold main_user in H.
    destruct (SignIn.run server (SignIn.__init__ cfg user, w)) as [[o|e] [s w1]] eqn:Hrun;
      [|discriminate].
    destruct (run_frame server _ o s w1 Hrun) as [Ho [[_ [Htok _]] [Hpushed Hrot]]].
    cbn [fst snd SignIn.refresh_token SignIn.__init__] in Htok, Hpushed, Hrot.
    assert (Hnext : exists rewards1 w2,
               pushed w2 = pushed w1 /\
               main_loop server cfg users (results ++ [o])%list rewards1 w2
                 = (Ok (results', rewards'), w')).
    { destruct (negb (truthy (SignIn.access_token s))).
      - exists rewards, w1. split; [reflexivity | exact H].
      - pose proof (reward_code_posts_once server (SignIn.access_token s)
                      "阿里云盘两周年" w1) as Hsent.
        destruct (reward_code server (SignIn.access_token s) "阿里云盘两周年" w1)
          as [[m|e] w2]; [|discriminate].
        cbn [snd] in Hsent. eexists _, w2. split; [now subst w2 | exact H]. }
    destruct Hnext as [rewards1 [w2 [Hpushed2 Hloop]]].
    destruct (IH _ _ _ _ _ _ Hloop) as [sessions [Hmap [Hres [Hp [Hall Hrots]]]]].
    exists (s :: sessions). cbn [map]. repeat split.
    + now rewrite Htok, Hmap.
    + rewrite Hres, <- app_assoc. now subst o.
    + congruence.
    + constructor; [|exact Hall]. exists w, w1. rewrite Htok, <- Ho. exact Hrun.
    + constructor; [|exact Hrots]. rewrite Htok. exact Hrot.
Qed.

(** When [main] gets through the accounts, there is one session per
    configured account, in the order of the accounts; the first envelope
    dispatched carries the plain renderings of the sessions, each two
    line feeds after the one before, and, separately, their marked-up
    renderings laid out the same way, in that order; the list of refresh credentials has one entry
    per account, in that order: the rotated credential of the session when
    the exchange stored one that is true for Python, the credential of the
    account otherwise; and a rotated credential is the [refresh_token]
    field of a reply of the server to the exchange request of the
    account. *)
Theorem main_report_and_refresh_list
    (server : list request -> response) (cfg : config) (v : cfgval) (w : world)
    (new_users : list value) (w' : world) :
  lookup "refresh_tokens" cfg = Some v ->
  main server cfg w = (Ok new_users, w') ->
  exists sessions names later,
    map SignIn.refresh_token sessions = configured v /\
    Forall (session_of server cfg) sessions /\
    lookup "push_types" cfg = Some names /\
    pushed w' =
      (pushed w
       ++ dispatched cfg (configured names)
            (blank_line_separated
               (map (fun s => Outcome.text (SignIn.__generate_result s)) sessions))
            (blank_line_separated
               (map (fun s => Outcome.text_html (SignIn.__generate_result s)) sessions))
            (Some "阿里云盘签到")
       ++ later)%list /\
    List.length new_users = List.length (configured v) /\
    new_users = map contribution sessions /\
    Forall (fun s =>
              (SignIn.new_refresh_token s = VNone ->
               contribution s = VStr (SignIn.refresh_token s)) /\
              (truthy (SignIn.new_refresh_token s) = true ->
               contribution s = SignIn.new_refresh_token s) /\
              (SignIn.new_refresh_token s = VNone \/
               exists history data,
                 server (history ++ [SignIn.token_request s])%list = Body data /\
                 getitem data "refresh_token" = Ok (SignIn.new_refresh_token s)))
           sessions.
Proof.
  intros Hcfg Hmain. unfold main in Hmain. rewrite Hcfg in Hmain.
  fold (configured v) in Hmain.
  destruct (main_loop server cfg (configured v) [] [] w) as [[[results rewards]|e] w1]
    eqn:Hloop; [|discriminate].
  destruct (main_loop_sessions server cfg _ _ _ _ _ _ _ Hloop)
    as [sessions [Hmap [Hres [Hpushed [Hall Hrot]]]]].
  cbn [app] in Hres. subst results.
  destruct (lookup "push_types" cfg) as [names|] eqn:Hnames.
  2:{ unfold push in Hmain. rewrite Hnames in Hmain. discriminate. }
  rewrite (push_dispatched cfg names _ _ _ w1 Hnames) in Hmain.
  rewrite !map_map, !join_blank_line in Hmain.
  set (first := dispatched cfg (configured names) _ _ _) in Hmain.
  assert (Hlater : exists later,
             new_users = map contribution sessions /\
             pushed w' = (pushed w ++ first ++ later)%list).
  { destruct rewards as [|reward rewards].
    - inversion Hmain; subst. exists []. cbn [pushed]. rewrite app_nil_r, Hpushed.
      split; reflexivity.
    - rewrite (push_dispatched cfg names _ _ _ _ Hnames) in Hmain.
      inversion Hmain; subst. eexists. cbn [pushed sent].
      rewrite Hpushed, <- app_assoc. split; reflexivity. }
  destruct Hlater as [later [Hnew Hlater]].
  exists sessions, names, later. split; [exact Hmap|]. split; [exact Hall|].
  split; [reflexivity|]. split; [exact Hlater|]. split; [|split; [exact Hnew|]].
  - rewrite Hnew, length_map, <- Hmap, length_map. reflexivity.
  - apply Forall_forall. intros s Hs. rewrite Forall_forall in Hrot.
    specialize (Hrot s Hs). unfold contribution, py_or. split; [|split].
    + intros E. now rewrite E.
    + intros E. now rewrite E.
    + destruct Hrot as [E|E]; [left; exact E | right; exact E].
Qed.

(** ** The outcome *)

Ltac break_hyp H :=
  match type of H with
  | context [match ?x with _ => _ end] =>
      lazymatch x with
      | context [match _ with _ => _ end] => fail
      | _ => destruct x eqn:?
      end
  end.

(** A sign-in that gets a reply carrying [success] and returns has
    recorded the reply's [signInCount] and left [self.error], the phone
    and the masked credential as they were. *)
Lemma sign_in_completed (server : list request -> response) (s1 : SignIn.t) (w1 : world)
    (data r count v : value) (s2 : SignIn.t) (w2 : world) :
  server (sent w1 ++ [SignIn.signin_request s1])%list = Body data ->
  contains data "success" = Ok true ->
  getitem data "result" = Ok r ->
  getitem r "signInCount" = Ok count ->
  SignIn.__sign_in server false (s1, w1) = (Ok v, (s2, w2)) ->
  SignIn.signin_count s2 = count /\
  SignIn.error s2 = SignIn.error s1 /\
  SignIn.phone s2 = SignIn.phone s1 /\
  SignIn.hide_refresh_token s2 = SignIn.hide_refresh_token s1.
Proof.
  intros Hreply Hsuccess Hr Hcount Hsign.
  unfold SignIn.__sign_in, SignIn.sign_in_with in Hsign.
  unfold SignIn.bind at 1 2, SignIn.try_, SignIn.self_, SignIn.post_json in Hsign.
  cbn [fst snd sent record_sent] in Hsign. rewrite Hreply in Hsign.
  unfold SignIn.sign_in_reply, SignIn.bind, SignIn.lift, SignIn.assign, SignIn.ret in Hsign.
  rewrite Hsuccess, Hr in Hsign. cbn [negb rbind fst snd] in Hsign.
  rewrite Hcount in Hsign.
  repeat (break_hyp Hsign; try discriminate).
  inversion Hsign; subst. repeat split.
Qed.

(** C10. The success flag of an outcome is the truth value Python gives
    to the recorded streak count, so for an integer count it is true
    exactly when the count is not 0.  A run whose exchange succeeds and
    whose sign-in gets a reply with [success] and a [signInCount] of 0, and
    returns, yields an outcome with [success] false and count 0, rendered
    with the failure text around the serialised absent error, in both
    renderings. *)
Theorem C10_success_iff_streak_nonzero :
  (forall self,
      Outcome.success (SignIn.__generate_result self) = truthy (SignIn.signin_count self) /\
      Outcome.count (SignIn.__generate_result self) = SignIn.signin_count self) /\
  (forall self n,
      SignIn.signin_count self = VInt n ->
      (Outcome.success (SignIn.__generate_result self) = true <-> n <> 0%Z)) /\
  (forall server cfg tok w s1 w1 data r v s2 w2,
      SignIn.__get_access_token server false (SignIn.__init__ cfg tok, w)
        = (Ok true, (s1, w1)) ->
      server (sent w1 ++ [SignIn.signin_request s1])%list = Body data ->
      contains data "success" = Ok true ->
      getitem data "result" = Ok r ->
      getitem r "signInCount" = Ok (VInt 0) ->
      SignIn.__sign_in server false (s1, w1) = (Ok v, (s2, w2)) ->
      exists o,
        SignIn.run server (SignIn.__init__ cfg tok, w) = (Ok o, (s2, w2)) /\
        Outcome.success o = false /\
        Outcome.count o = VInt 0 /\
        Outcome.text o =
          "[" ++ py_str (Outcome.user o) ++ "] 签到失败" ++ nl
          ++ String quote ("None" ++ String quote "") /\
        Outcome.text_html o =
          "<code>" ++ py_str (Outcome.user o) ++ "</code> 签到失败" ++ nl
          ++ "<code>" ++ String quote ("None" ++ String quote "") ++ "</code>").
Proof.
  split; [|split].
  - intros self. unfold SignIn.__generate_result. cbn [Outcome.success Outcome.count].
    now destruct (truthy (SignIn.signin_count self)).
  - intros self n Hn. unfold SignIn.__generate_result. cbn [Outcome.success].
    rewrite Hn. cbn [truthy]. destruct (Z.eqb_spec n 0); cbn [negb]; split; congruence.
  - intros server cfg tok w s1 w1 data r v s2 w2 Hget Hreply Hsuccess Hr Hcount Hsign.
    pose proof (get_access_token_frame server false (SignIn.__init__ cfg tok, w)) as F.
    cbv zeta in F. rewrite Hget in F. cbn [fst snd] in F.
    destruct F as [_ [_ [_ [_ [_ [Herr _]]]]]]. specialize (Herr eq_refl).
    destruct (sign_in_completed server s1 w1 data r (VInt 0) v s2 w2
                Hreply Hsuccess Hr Hcount Hsign) as [Hc [He _]].
    eexists. unfold SignIn.run. unfold SignIn.bind at 1. rewrite Hget.
    unfold SignIn.bind, SignIn.ret, SignIn.self_. rewrite Hsign. cbn [fst snd].
    split; [reflexivity|]. unfold SignIn.__generate_result.
    cbn [Outcome.success Outcome.count Outcome.text Outcome.text_html Outcome.user].
    rewrite Hc, He, Herr. cbn [truthy Z.eqb negb SignIn.error SignIn.__init__].
    repeat split.
Qed.

(** ** What the session does on its failure paths *)

(** When the exchange returns [False] the session returns an outcome with
    [success] false and the streak of a fresh session, and [self.error]
    is set. *)
Lemma run_exchange_failed (server : list request -> response) (cfg : config)
    (tok : string) (w : world) (s1 : SignIn.t) (w1 : world) :
  SignIn.__get_access_token server false (SignIn.__init__ cfg tok, w)
    = (Ok false, (s1, w1)) ->
  SignIn.run server (SignIn.__init__ cfg tok, w)
    = (Ok (SignIn.__generate_result s1), (s1, w1)) /\
  Outcome.success (SignIn.__generate_result s1) = false /\
  Outcome.count (SignIn.__generate_result s1) = VInt 0 /\
  SignIn.error s1 <> ENone.
Proof.
  intros Hget.
  pose proof (get_access_token_frame server false (SignIn.__init__ cfg tok, w)) as F.
  cbv zeta in F. rewrite Hget in F. cbn [fst snd] in F.
  destruct F as [_ [_ [_ [Hcount [_ [_ Herr]]]]]].
  split; [|split; [|split]].
  - unfold SignIn.run. unfold SignIn.bind at 1. rewrite Hget. reflexivity.
  - unfold SignIn.__generate_result. cbn [Outcome.success]. now rewrite Hcount.
  - unfold SignIn.__generate_result. cbn [Outcome.count]. exact Hcount.
  - exact (Herr false eq_refl eq_refl).
Qed.

(** When the exchange returns [True] and the sign-in either gets a reply
    without [success] or fails twice at the transport, the session returns
    an outcome with [success] false and streak 0, and [self.error] holds
    the reply, respectively the message of the second failure. *)
Lemma run_sign_in_failed (server : list request -> response) (cfg : config)
    (tok : string) (w : world) (s1 : SignIn.t) (w1 : world) :
  SignIn.__get_access_token server false (SignIn.__init__ cfg tok, w)
    = (Ok true, (s1, w1)) ->
  let rq := SignIn.signin_request s1 in
  (forall data,
      server (sent w1 ++ [rq])%list = Body data ->
      contains data "success" = Ok false ->
      let s2 := SignIn.set_error (EVal data) s1 in
      SignIn.run server (SignIn.__init__ cfg tok, w)
        = (Ok (SignIn.__generate_result s2), (s2, record_sent rq w1)) /\
      Outcome.success (SignIn.__generate_result s2) = false /\
      Outcome.count (SignIn.__generate_result s2) = VInt 0) /\
  (forall e1 e2,
      transport_failure (server (sent w1 ++ [rq])%list) e1 ->
      transport_failure (server (sent w1 ++ [rq; rq])%list) e2 ->
      let s2 := SignIn.set_error (EExc e2) s1 in
      SignIn.run server (SignIn.__init__ cfg tok, w)
        = (Ok (SignIn.__generate_result s2), (s2, record_sent rq (record_sent rq w1))) /\
      Outcome.success (SignIn.__generate_result s2) = false /\
      Outcome.count (SignIn.__generate_result s2) = VInt 0).
Proof.
  intros Hget rq. subst rq.
  pose proof (get_access_token_frame server false (SignIn.__init__ cfg tok, w)) as F.
  cbv zeta in F. rewrite Hget in F. cbn [fst snd] in F.
  destruct F as [_ [_ [_ [Hcount _]]]]. cbn [SignIn.signin_count SignIn.__init__] in Hcount.
  assert (Hout : forall e, Outcome.success (SignIn.__generate_result (SignIn.set_error e s1))
                           = false /\
                           Outcome.count (SignIn.__generate_result (SignIn.set_error e s1))
                           = VInt 0).
  { intros e. unfold SignIn.__generate_result.
    cbn [Outcome.success Outcome.count SignIn.signin_count SignIn.set_error].
    now rewrite Hcount. }
  split.
  - intros data Hreply Hsuccess s2. split; [|apply Hout].
    unfold SignIn.run. unfold SignIn.bind at 1. rewrite Hget.
    unfold_methods. rewrite Hreply. unfold SignIn.sign_in_reply.
    unfold_methods. rewrite Hsuccess. reflexivity.
  - intros e1 e2 H1 H2 s2. split; [|apply Hout].
    unfold SignIn.run. unfold SignIn.bind at 1. rewrite Hget.
    unfold_methods.
    destruct H1 as [H1|H1], H2 as [H2|H2]; rewrite H1;
      cbn [fst snd sent record_sent]; rewrite <- app_assoc; cbn [app];
      rewrite H2; reflexivity.
Qed.

(** The loop of [__sign_in] over a log without 'miss' ends without a
    [break], leaving [current_day] at [None]. *)
Lemma find_current_day_no_miss (data : value) (days : list value) :
  Forall (fun d => exists status, getitem d "status" = Ok status /\
                                  eq_str status "miss" = false) days ->
  forall i, SignIn.find_current_day data i days = Ok VNone.
Proof.
  induction 1 as [|d days [status [Hs Hm]] _ IH]; intros i; [reflexivity|].
  cbn [SignIn.find_current_day]. rewrite Hs. cbn [rbind]. rewrite Hm. apply IH.
Qed.

(** On every reply that carries [success] and a log without 'miss', the
    sign-in raises [TypeError]; nothing of the session is changed. *)
Lemma sign_in_without_miss_raises (server : list request -> response) (retry : bool)
    (self : SignIn.t) (w : world) (data r : value) (logs : list value) :
  server (sent w ++ [SignIn.signin_request self])%list = Body data ->
  contains data "success" = Ok true ->
  getitem data "result" = Ok r ->
  getitem r "signInLogs" = Ok (VList logs) ->
  Forall (fun d => exists status, getitem d "status" = Ok status /\
                                  eq_str status "miss" = false) logs ->
  SignIn.__sign_in server retry (self, w) =
    (Raise TypeError, (self, record_sent (SignIn.signin_request self) w)).
Proof.
  intros Hreply Hsuccess Hr Hlogs Hall.
  destruct retry; unfold_methods; rewrite Hreply; unfold SignIn.sign_in_reply;
    unfold_methods; rewrite Hsuccess; cbn [negb]; rewrite Hr; cbn [rbind];
    rewrite Hlogs; cbn [rbind py_iter];
    rewrite (find_current_day_no_miss data logs Hall 0%Z); reflexivity.
Qed.

(** C1. On a sign-in log without any entry of status 'miss' the session
    does not return an outcome: [run] raises [TypeError], after a
    successful exchange and a sign-in reply that carries [success]. *)
Theorem C1_run_raises_without_miss :
  fst (SignIn.run Scenario.full_month
         (SignIn.__init__ Scenario.cfg "abcdefgh12345678", world0)) = Raise TypeError.
Proof.
  vm_compute. reflexivity.
Qed.

(** * Further properties of the code *)

(** ** The masked credential, continued *)

(** Nothing is masked in a credential shorter than eight characters: the
    result is its first four characters (all of them when there are fewer)
    followed by its last four (all of them when there are fewer), so a
    credential of at most four characters is shown twice, in full. *)
Theorem hide_refresh_token_below_eight (s : string) :
  String.length s < 8 ->
  let l := list_ascii_of_string s in
  SignIn.__hide_refresh_token s
    = string_of_list_ascii (firstn 4 l ++ skipn (List.length l - 4) l) /\
  (String.length s <= 4 -> SignIn.__hide_refresh_token s = s ++ s).
Proof.
  intros H l. pose proof (hide_refresh_token_eq s) as E. cbv zeta in E. fold l in E.
  assert (Hl : List.length l = String.length s) by apply length_list_ascii_of_string.
  assert (E' : SignIn.__hide_refresh_token s
               = string_of_list_ascii (firstn 4 l ++ skipn (List.length l - 4) l)).
  { rewrite E. replace (List.length l - 8) with 0 by lia. reflexivity. }
  split; [exact E'|].
  intros H4. rewrite E'. replace (List.length l - 4) with 0 by lia.
  rewrite firstn_all2 by lia. cbn [skipn].
  rewrite string_of_list_ascii_app. unfold l.
  now rewrite string_of_list_ascii_of_string.
Qed.

(** ** split and join *)

Lemma split_not_nil (sep : ascii) (s : string) : split sep s <> [].
Proof.
  destruct s as [|c s]; cbn; [discriminate|].
  destruct (Ascii.eqb c sep); [discriminate|].
  destruct (split sep s); discriminate.
Qed.

Lemma concat_cons_char (sep : string) (c : ascii) (x : string) (xs : list string) :
  String.concat sep (String c x :: xs) = String c (String.concat sep (x :: xs)).
Proof.
  destruct xs; reflexivity.
Qed.

(** Joining the pieces of a split with the separator gives the string
    back. *)
Lemma join_split (sep : ascii) (s : string) :
  join (String sep "") (split sep s) = s.
Proof.
  unfold join. induction s as [|c s IH]; [reflexivity|].
  cbn [split]. destruct (Ascii.eqb_spec c sep) as [->|Hc].
  - pose proof (split_not_nil sep s) as Hn.
    destruct (split sep s) as [|x xs] eqn:E; [contradiction|].
    cbn [String.concat]. cbn. now rewrite <- IH.
  - pose proof (split_not_nil sep s) as Hn.
    destruct (split sep s) as [|x xs] eqn:E; [contradiction|].
    rewrite concat_cons_char. now rewrite IH.
Qed.

Lemma split_no_separator (sep : ascii) (x : string) :
  has_char sep x = false -> split sep x = [x].
Proof.
  unfold has_char. induction x as [|c x IH]; [reflexivity|].
  cbn [list_ascii_of_string existsb split]. intros H.
  apply orb_false_iff in H. destruct H as [Hc Hx].
  rewrite Ascii.eqb_sym, Hc. now rewrite (IH Hx).
Qed.

Lemma split_app_separator (sep : ascii) (x t : string) :
  has_char sep x = false ->
  split sep (x ++ String sep t) = x :: split sep t.
Proof.
  unfold has_char. induction x as [|c x IH]; intros H.
  - cbn. now rewrite Ascii.eqb_refl.
  - cbn [list_ascii_of_string existsb] in H. apply orb_false_iff in H.
    destruct H as [Hc Hx]. cbn [append split].
    rewrite Ascii.eqb_sym, Hc. now rewrite (IH Hx).
Qed.

(** Splitting the join of a non-empty list of pieces gives the pieces
    back, provided no piece holds the separator. *)
Lemma split_join (sep : ascii) (l : list string) :
  l <> [] ->
  Forall (fun x => has_char sep x = false) l ->
  split sep (join (String sep "") l) = l.
Proof.
  unfold join. intros Hn Hall. induction Hall as [|x l Hx Hall IH]; [contradiction|].
  destruct l as [|y l].
  - cbn. now apply split_no_separator.
  - cbn [String.concat]. cbn [append]. rewrite (split_app_separator sep x _ Hx).
    f_equal. apply IH. discriminate.
Qed.

(** ** The configuration from the environment *)

(** [get_config_from_env] never raises.  Its [try] raises [KeyError]
    for the first required variable, in the order of the source, that the
    environment lacks, and then the function returns [None]; it returns a
    dictionary exactly when the fourteen variables are all set. *)
Theorem get_config_from_env_missing_variable (env : environ) :
  (match first_missing env with
   | Some k => env_config_of env = Raise (KeyError k) /\
               get_config_from_env env = Ok None
   | None => exists d, get_config_from_env env = Ok (Some d)
   end) /\
  (get_config_from_env env = Ok None <->
   exists k, In k required_variables /\ lookup k env = None).
Proof.
  assert (Hfirst : match first_missing env with
                   | Some k => env_config_of env = Raise (KeyError k) /\
                               get_config_from_env env = Ok None
                   | None => exists d, get_config_from_env env = Ok (Some d)
                   end).
  { unfold get_config_from_env, env_config_of, first_missing, required_variables,
      environ_get, missing. cbn [find rbind].
    repeat (match goal with
            | |- context [lookup ?k env] =>
                destruct (lookup k env) eqn:?; cbn [rbind];
                [|split; reflexivity]
            end).
    eexists. reflexivity. }
  split; [exact Hfirst|]. split.
  - intros Hnone. destruct (first_missing env) as [k|] eqn:E.
    + unfold first_missing in E. apply find_some in E. destruct E as [Hin Hm].
      exists k. split; [exact Hin|]. unfold missing in Hm.
      now destruct (lookup k env).
    + destruct Hfirst as [d Hd]. congruence.
  - intros [k [Hin Hk]]. destruct (first_missing env) as [k'|] eqn:E.
    + apply Hfirst.
    + exfalso. unfold first_missing in E.
      pose proof (find_none _ _ E k Hin) as Hm. unfold missing in Hm.
      rewrite Hk in Hm. discriminate.
Qed.

(** The two lists of the dictionary built from the environment. *)
Lemma env_config_lists (env : environ) (d : env_config) :
  get_config_from_env env = Ok (Some d) ->
  exists tokens types,
    lookup "REFRESH_TOKENS" env = Some tokens /\
    lookup "PUSH_TYPES" env = Some types /\
    lookup "refresh_tokens" d = Some (Some (CList (split comma tokens))) /\
    lookup "push_types" d = Some (Some (CList (split comma types))) /\
    split comma tokens <> [] /\
    split comma types <> [] /\
    join "," (split comma tokens) = tokens /\
    join "," (split comma types) = types /\
    (tokens = "" -> split comma tokens = [""]) /\
    lookup "telegram_proxy" d = Some None.
Proof.
  unfold get_config_from_env, env_config_of, environ_get.
  destruct (lookup "REFRESH_TOKENS" env) as [tokens|]; cbn [rbind]; [|discriminate].
  destruct (lookup "PUSH_TYPES" env) as [types|]; cbn [rbind]; [|discriminate].
  repeat (match goal with
          | |- context [lookup ?k env] =>
              destruct (lookup k env); cbn [rbind]; [|discriminate]
          end).
  intros H. inversion H; subst d. clear H.
  assert (Hor : forall x, str_or x "" = x).
  { intros x. unfold str_or. destruct (String.eqb_spec x ""); congruence. }
  rewrite !Hor. exists tokens, types. repeat split;
    try apply split_not_nil; try apply (join_split comma).
  intros ->. reflexivity.
Qed.

(** When [get_config_from_env] returns a dictionary, its [refresh_tokens]
    and [push_types] are the lists of the pieces of the two variables
    between commas: never empty lists, even for an empty variable, and
    joining them with commas gives the variables back; [telegram_proxy]
    is [None]. *)
Theorem get_config_from_env_lists (env : environ) (d : env_config) :
  get_config_from_env env = Ok (Some d) ->
  exists tokens types,
    lookup "REFRESH_TOKENS" env = Some tokens /\
    lookup "PUSH_TYPES" env = Some types /\
    lookup "refresh_tokens" d = Some (Some (CList (split comma tokens))) /\
    lookup "push_types" d = Some (Some (CList (split comma types))) /\
    split comma tokens <> [] /\
    split comma types <> [] /\
    join "," (split comma tokens) = tokens /\
    join "," (split comma types) = types /\
    (tokens = "" -> split comma tokens = [""]) /\
    lookup "telegram_proxy" d = Some None.
Proof.
  exact (env_config_lists env d).
Qed.

(** ** The exchange, continued *)

(** A reply to the exchange that is not a JSON object makes the exchange
    raise [TypeError] after that one request, whichever attempt it is,
    with the session untouched; the session then raises too, without a
    sign-in request. *)
Theorem get_access_token_reply_not_object
    (server : list request -> response) (retry : bool) (self : SignIn.t) (w : world)
    (data : value) :
  server (sent w ++ [SignIn.token_request self])%list = Body data ->
  (forall d, data <> VDict d) ->
  SignIn.__get_access_token server retry (self, w)
    = (Raise TypeError, (self, record_sent (SignIn.token_request self) w)) /\
  SignIn.run server (self, w)
    = (Raise TypeError, (self, record_sent (SignIn.token_request self) w)).
Proof.
  intros Hreply Hdata.
  assert (Hcode : getitem data "code" = Raise TypeError).
  { destruct data; try reflexivity. exfalso. now apply (Hdata d). }
  assert (H : forall b, SignIn.__get_access_token server b (self, w)
              = (Raise TypeError, (self, record_sent (SignIn.token_request self) w))).
  { intros b. destruct b; unfold_methods; rewrite Hreply, Hcode; reflexivity. }
  split; [apply H|]. unfold SignIn.run. unfold SignIn.bind at 1. now rewrite H.
Qed.

(** The exchange on an object that lacks one of the three fields. *)
Lemma exchange_on_incomplete_reply
    (server : list request -> response) (retry : bool) (self : SignIn.t) (w : world)
    (d : list (string * value)) :
  server (sent w ++ [SignIn.token_request self])%list = Body (VDict d) ->
  (forall c, lookup "code" d = Some c -> in_strs c SignIn.code_invalid = false) ->
  lookup "access_token" d = None \/ lookup "refresh_token" d = None
  \/ lookup "user_name" d = None ->
  let stored :=
    match lookup "access_token" d with
    | None => self
    | Some a =>
        match lookup "refresh_token" d with
        | None => SignIn.set_access_token a self
        | Some r => SignIn.set_new_refresh_token r (SignIn.set_access_token a self)
        end
    end in
  let message := VStr ("获取 access token 失败, 参数缺失: " ++ py_str (VDict d)) in
  SignIn.__get_access_token server retry (self, w)
    = (Ok false, (SignIn.set_error (EVal message) stored,
                  record_sent (SignIn.token_request self) w)).
Proof.
  intros Hreply Hcode Hmissing stored message. subst stored message.
  assert (Hc : SignIn.check_code (VDict d) (self, record_sent (SignIn.token_request self) w)
               = (Ok None, (self, record_sent (SignIn.token_request self) w))).
  { unfold_methods. unfold getitem.
    destruct (lookup "code" d) as [c|] eqn:Ec; [rewrite (Hcode c eq_refl)|]; reflexivity. }
  assert (H : forall again, SignIn.get_access_token_with server again (self, w)
              = SignIn.store_tokens (VDict d)
                  (self, record_sent (SignIn.token_request self) w)).
  { intros again. unfold SignIn.get_access_token_with.
    unfold SignIn.bind at 1 2, SignIn.try_, SignIn.self_, SignIn.post_json.
    cbn [fst snd sent record_sent]. rewrite Hreply.
    unfold SignIn.bind at 1. now rewrite Hc. }
  assert (Hs : SignIn.__get_access_token server retry (self, w)
               = SignIn.store_tokens (VDict d)
                   (self, record_sent (SignIn.token_request self) w)).
  { destruct retry; unfold SignIn.__get_access_token; apply H. }
  rewrite Hs. unfold_methods. unfold getitem.
  destruct (lookup "access_token" d) as [a|]; [|reflexivity].
  destruct (lookup "refresh_token" d) as [r|]; [|reflexivity].
  destruct (lookup "user_name" d) as [u|]; [|reflexivity].
  exfalso. destruct Hmissing as [H1|[H1|H1]]; discriminate.
Qed.


(** When the exchange of an account fails on an incomplete reply that
    carries a true access credential, the session posts no sign-in
    request and returns a failed outcome, and [main] still posts the
    redemption request with that credential; the redemption message is
    labelled with the phone of a fresh session, [None]. *)
Theorem incomplete_exchange_still_redeems
    (server : list request -> response) (cfg : config) (user : string)
    (results : list Outcome.t) (rewards : list string) (w : world)
    (d : list (string * value)) (a : value) :
  let self := SignIn.__init__ cfg user in
  server (sent w ++ [SignIn.token_request self])%list = Body (VDict d) ->
  (forall c, lookup "code" d = Some c -> in_strs c SignIn.code_invalid = false) ->
  lookup "access_token" d = Some a ->
  truthy a = true ->
  lookup "refresh_token" d = None \/ lookup "user_name" d = None ->
  exists o s,
    SignIn.run server (self, w)
      = (Ok o, (s, record_sent (SignIn.token_request self) w)) /\
    Outcome.success o = false /\
    SignIn.access_token s = a /\
    sent (snd (main_user server cfg user results rewards w))
      = (sent w ++ [SignIn.token_request self; reward_request a redeem_code])%list /\
    (forall m w2,
        reward_code server a redeem_code (record_sent (SignIn.token_request self) w)
          = (Ok m, w2) ->
        main_user server cfg user results rewards w
          = (Ok ((results ++ [o])%list,
                 (rewards ++ [("[None] " ++ match m with
                                            | Some r => r
                                            | None => already_redeemed_text
                                            end)%string])%list), w2)).
Proof.
  intros self Hreply Hcode Ha Ht Hmissing.
  pose proof (exchange_on_incomplete_reply server false self w d Hreply Hcode
                (or_intror Hmissing)) as Hget.
  cbv zeta in Hget. rewrite Ha in Hget.
  set (s := SignIn.set_error _ _) in Hget.
  assert (Hacc : SignIn.access_token s = a).
  { subst s. destruct (lookup "refresh_token" d); reflexivity. }
  assert (Hphone : SignIn.phone s = VNone).
  { subst s. destruct (lookup "refresh_token" d); reflexivity. }
  destruct (run_exchange_failed server cfg user w s _ Hget) as [Hrun [Hs _]].
  fold self in Hrun.
  exists (SignIn.__generate_result s), s. split; [exact Hrun|]. split; [exact Hs|].
  split; [exact Hacc|].
  unfold main_user. fold self. rewrite Hrun, Hacc, Ht. cbn [negb]. fold redeem_code.
  pose proof (reward_code_posts_once server a redeem_code
                (record_sent (SignIn.token_request self) w)) as Hsent.
  split.
  - destruct (reward_code server a redeem_code _) as [[m|e] w2]; cbn [fst snd] in *;
      subst w2; cbn [sent record_sent]; now rewrite <- app_assoc.
  - intros m w2 Hm. rewrite Hm, Hphone. reflexivity.
Qed.

(** ** How many requests a session posts *)

Lemma get_access_token_requests (server : list request -> response) (retry : bool)
    (st : SignIn.t * world) :
  let r := SignIn.__get_access_token server retry st in
  let t := SignIn.token_request (fst st) in
  sent (snd (snd r)) = (sent (snd st) ++ [t])%list \/
  (retry = false /\ sent (snd (snd r)) = (sent (snd st) ++ [t; t])%list).
Proof.
  destruct st as [s w]. destruct retry; unfold_methods;
    repeat (break_inner; cbn [fst snd sent record_sent]);
    rewrite <- ?app_assoc; cbn [app]; auto.
Qed.

Lemma sign_in_requests (server : list request -> response) (retry : bool)
    (st : SignIn.t * world) :
  let r := SignIn.__sign_in server retry st in
  let q := SignIn.signin_request (fst st) in
  sent (snd (snd r)) = (sent (snd st) ++ [q])%list \/
  (retry = false /\ sent (snd (snd r)) = (sent (snd st) ++ [q; q])%list).
Proof.
  destruct st as [s w]. destruct retry; unfold_methods; unfold SignIn.sign_in_reply;
    unfold_methods;
    repeat (break_inner; cbn [fst snd sent record_sent]);
    rewrite <- ?app_assoc; cbn [app]; auto.
Qed.

(** The requests of a session, counted. *)
Lemma run_requests
    (server : list request -> response) (st : SignIn.t * world) :
  let exchange := SignIn.__get_access_token server false st in
  let r := SignIn.run server st in
  exists n m,
    sent (snd (snd r))
      = (sent (snd st) ++ repeat (SignIn.token_request (fst st)) n
         ++ repeat (SignIn.signin_request (fst (snd exchange))) m)%list /\
    1 <= n <= 2 /\ m <= 2 /\
    (fst exchange = Ok true -> 1 <= m) /\
    (fst exchange <> Ok true -> m = 0) /\
    pushed (snd (snd r)) = pushed (snd st).
Proof.
  intros exchange r. subst exchange r.
  unfold SignIn.run, SignIn.bind, SignIn.ret, SignIn.self_.
  pose proof (get_access_token_requests server false st) as Ht.
  pose proof (get_access_token_frame server false st) as Hf.
  cbv zeta in Ht, Hf.
  destruct (SignIn.__get_access_token server false st) as [[b|e] st1];
    cbn [fst snd] in *; destruct Hf as [_ [Hp _]].
  - destruct b; cbv beta iota.
    + pose proof (sign_in_requests server false st1) as Hq.
      pose proof (sign_in_frame server false st1) as Hg. cbv zeta in Hq, Hg.
      destruct (SignIn.__sign_in server false st1) as [[v|e] st2];
        cbn [fst snd] in *; destruct Hg as [_ [Hp2 _]];
        (destruct Ht as [Ht|[_ Ht]]; [exists 1|exists 2]);
        (destruct Hq as [Hq|[_ Hq]]; [exists 1|exists 2]);
        rewrite Hq, Ht, <- ?app_assoc; cbn [repeat app];
        repeat split; try lia; try congruence.
    + cbn [fst snd].
      destruct Ht as [Ht|[_ Ht]]; [exists 1, 0|exists 2, 0];
        rewrite Ht; cbn [repeat app]; repeat split; try lia; try congruence.
  - destruct Ht as [Ht|[_ Ht]]; [exists 1, 0|exists 2, 0];
      rewrite Ht; cbn [repeat app]; repeat split; try lia; try congruence.
Qed.

(** Whatever the server answers and whether the session returns or
    raises, [run] posts one or two exchange requests followed by at most
    two sign-in requests, and nothing else; it posts a sign-in request
    only when the exchange has returned [True]; and it invokes no
    adapter. *)
Theorem run_posts_at_most_four_requests
    (server : list request -> response) (st : SignIn.t * world) :
  let exchange := SignIn.__get_access_token server false st in
  let r := SignIn.run server st in
  exists n m,
    sent (snd (snd r))
      = (sent (snd st) ++ repeat (SignIn.token_request (fst st)) n
         ++ repeat (SignIn.signin_request (fst (snd exchange))) m)%list /\
    1 <= n <= 2 /\ m <= 2 /\
    (fst exchange = Ok true -> 1 <= m) /\
    (fst exchange <> Ok true -> m = 0) /\
    pushed (snd (snd r)) = pushed (snd st).
Proof.
  exact (run_requests server st).
Qed.

Lemma main_user_requests (server : list request -> response) (cfg : config)
    (user : string) (results : list Outcome.t) (rewards : list string) (w : world) :
  let r := main_user server cfg user results rewards w in
  exists extra,
    sent (snd r) = (sent w ++ extra)%list /\
    1 <= List.length extra <= 5 /\
    pushed (snd r) = pushed w.
Proof.
  cbv zeta. unfold main_user.
  destruct (run_requests server (SignIn.__init__ cfg user, w))
    as [n [m [Hsent [Hn [Hm [_ [_ Hp]]]]]]].
  cbn [fst snd] in Hsent, Hp.
  destruct (SignIn.run server (SignIn.__init__ cfg user, w)) as [[o|e] [s w1]];
    cbn [fst snd] in *.
  - destruct (negb (truthy (SignIn.access_token s))).
    + eexists. split; [exact Hsent|]. rewrite length_app, !repeat_length.
      cbn [snd]. split; [lia | exact Hp].
    + pose proof (reward_code_posts_once server (SignIn.access_token s)
                    "阿里云盘两周年" w1) as Hr.
      destruct (reward_code server (SignIn.access_token s) "阿里云盘两周年" w1)
        as [[x|e] w2]; cbn [fst snd] in *; subst w2; cbn [sent pushed record_sent];
        rewrite Hsent, <- app_assoc;
        (eexists; split; [reflexivity|]);
        rewrite !length_app, !repeat_length; cbn [List.length]; split; try lia; exact Hp.
  - eexists. split; [exact Hsent|]. rewrite length_app, !repeat_length.
    split; [lia | exact Hp].
Qed.

Lemma main_loop_requests (server : list request -> response) (cfg : config)
    (users : list string) :
  forall results rewards w,
    let r := main_loop server cfg users results rewards w in
    (exists extra,
        sent (snd r) = (sent w ++ extra)%list /\
        List.length extra <= 5 * List.length users /\
        (forall x, fst r = Ok x -> List.length users <= List.length extra)) /\
    pushed (snd r) = pushed w.
Proof.
  induction users as [|user users IH]; intros results rewards w; cbv zeta.
  - cbn. split; [|reflexivity]. exists []. rewrite app_nil_r. cbn. repeat split; lia.
  - cbn [main_loop].
    destruct (main_user_requests server cfg user results rewards w)
      as [extra [Hsent [Hlen Hp]]].
    destruct (main_user server cfg user results rewards w) as [[[results' rewards']|e] w1];
      cbn [fst snd] in *.
    + destruct (IH results' rewards' w1) as [[extra' [Hsent' [Hlen' Hok]]] Hp'].
      split; [|congruence]. exists (extra ++ extra')%list.
      rewrite Hsent', Hsent, <- app_assoc. split; [reflexivity|].
      rewrite length_app. cbn [List.length]. split; [lia|].
      intros x Hx. specialize (Hok x Hx). lia.
    + split; [|exact Hp]. exists extra. split; [exact Hsent|].
      cbn [List.length]. split; [lia | discriminate].
Qed.

Lemma push_keeps_sent (cfg : config) (content content_html : string)
    (title : option string) (w : world) :
  sent (snd (push cfg content content_html title w)) = sent w.
Proof.
  unfold push. destruct (lookup "push_types" cfg); [|reflexivity].
  cbn [snd]. now rewrite push_fold.
Qed.

(** [main] only adds to the history of requests, at most five for each
    configured account (two for the exchange, two for the sign-in, one
    for the redemption), whatever the server answers and whether [main]
    returns or raises; when it returns, it has posted at least one request
    for each account. *)
Theorem main_posts_at_most_five_requests_per_account
    (server : list request -> response) (cfg : config) (v : cfgval) (w : world) :
  lookup "refresh_tokens" cfg = Some v ->
  let r := main server cfg w in
  exists extra,
    sent (snd r) = (sent w ++ extra)%list /\
    List.length extra <= 5 * List.length (configured v) /\
    (forall new_users, fst r = Ok new_users ->
                       List.length (configured v) <= List.length extra).
Proof.
  intros Hcfg. cbv zeta. unfold main. rewrite Hcfg. fold (configured v).
  destruct (main_loop_requests server cfg (configured v) [] [] w)
    as [[extra [Hsent [Hlen Hok]]] _].
  destruct (main_loop server cfg (configured v) [] [] w) as [[[results rewards]|e] w1];
    cbn [fst snd] in *.
  - exists extra.
    assert (Hfinal : sent (snd
              (match push cfg (join (nl ++ nl) (map Outcome.text results))
                       (join (nl ++ nl) (map Outcome.text_html results))
                       (Some "阿里云盘签到") w1 with
               | (Raise e, w2) => (Raise e, w2)
               | (Ok _, w2) =>
                   match
                     match rewards with
                     | [] => (Ok tt, w2)
                     | _ :: _ =>
                         push cfg (join (nl ++ nl) rewards ++ footer)
                           (join (nl ++ nl) rewards ++ footer) (Some "阿里云盘两周年") w2
                     end
                   with
                   | (Raise e, w3) => (Raise e, w3)
                   | (Ok _, w3) => (Ok (map Outcome.refresh_token results), w3)
                   end
               end : result (list value) * world)) = sent w1).
    { pose proof (push_keeps_sent cfg (join (nl ++ nl) (map Outcome.text results))
                    (join (nl ++ nl) (map Outcome.text_html results))
                    (Some "阿里云盘签到") w1) as H1.
      destruct (push cfg _ _ (Some "阿里云盘签到") w1) as [[u|e] w2]; cbn [snd] in *;
        [|exact H1].
      destruct rewards as [|reward rewards]; [exact H1|].
      pose proof (push_keeps_sent cfg (join (nl ++ nl) (reward :: rewards) ++ footer)
                    (join (nl ++ nl) (reward :: rewards) ++ footer)
                    (Some "阿里云盘两周年") w2) as H2.
      destruct (push cfg _ _ (Some "阿里云盘两周年") w2) as [[u'|e] w3]; cbn [snd] in *;
        congruence. }
    rewrite Hfinal. split; [exact Hsent|]. split; [exact Hlen|].
    intros new_users _. apply (Hok _ eq_refl).
  - exists extra. split; [exact Hsent|]. split; [exact Hlen | discriminate].
Qed.

(** ** The sign-in, continued *)

(** The sign-in retries once after a transport failure: when the retry
    is answered, the reply is handled exactly as a reply to a first
    attempt would be, after exactly two sign-in requests. *)
Theorem sign_in_retry_answered
    (server : list request -> response) (self : SignIn.t) (w : world)
    (e1 : string) (data : value) :
  let q := SignIn.signin_request self in
  transport_failure (server (sent w ++ [q])%list) e1 ->
  server (sent w ++ [q; q])%list = Body data ->
  SignIn.__sign_in server false (self, w)
    = SignIn.sign_in_reply data (self, record_sent q (record_sent q w)) /\
  sent (snd (snd (SignIn.__sign_in server false (self, w)))) = (sent w ++ [q; q])%list.
Proof.
  intros q H1 H2.
  assert (H : SignIn.__sign_in server false (self, w)
              = SignIn.sign_in_reply data (self, record_sent q (record_sent q w))).
  { unfold SignIn.__sign_in. unfold SignIn.sign_in_with at 1.
    unfold SignIn.bind at 1 2, SignIn.try_, SignIn.self_, SignIn.post_json.
    cbn [fst snd sent record_sent]. fold q.
    assert (Hretry : SignIn.sign_in_with server None (self, record_sent q w)
                     = SignIn.sign_in_reply data (self, record_sent q (record_sent q w))).
    { unfold SignIn.sign_in_with.
      unfold SignIn.bind at 1 2, SignIn.try_, SignIn.self_, SignIn.post_json.
      cbn [fst snd sent record_sent]. fold q. rewrite <- app_assoc. cbn [app].
      now rewrite H2. }
    destruct H1 as [H1|H1]; rewrite H1; exact Hretry. }
  split; [exact H|].
  pose proof (sign_in_requests server false (self, w)) as Hq. cbv zeta in Hq.
  cbn [fst snd] in Hq. fold q in Hq. destruct Hq as [Hq|[_ Hq]]; [|exact Hq].
  exfalso. rewrite H in Hq.
  assert (Hkeep : forall st, snd (snd (SignIn.sign_in_reply data st)) = snd st).
  { intros st. unfold SignIn.sign_in_reply. unfold_methods.
    repeat (break_inner; cbn [fst snd]); reflexivity. }
  rewrite Hkeep in Hq. cbn [snd sent record_sent] in Hq.
  rewrite <- app_assoc in Hq. apply app_inv_head in Hq. discriminate.
Qed.

Lemma last_cons {A} (x d : A) (l : list A) : List.last (x :: l) d = List.last l x.
Proof.
  revert x d. induction l as [|y l IH]; intros x d; [reflexivity|].
  change (List.last (x :: y :: l) d) with (List.last (y :: l) d).
  rewrite (IH y d). symmetry. apply IH.
Qed.

(** When the very first entry of the log has status 'miss', the entry
    taken as today's is the last entry of the log: the index before the
    first one counts from the end. *)
Theorem find_current_day_miss_first
    (data r first status : value) (rest : list value) :
  getitem data "result" = Ok r ->
  getitem r "signInLogs" = Ok (VList (first :: rest)) ->
  getitem first "status" = Ok status ->
  eq_str status "miss" = true ->
  SignIn.find_current_day data 0 (first :: rest) = Ok (List.last rest first).
Proof.
  intros Hr Hlogs Hstatus Hmiss. cbn [SignIn.find_current_day]. rewrite Hstatus.
  cbn [rbind]. rewrite Hmiss, Hr. cbn [rbind]. rewrite Hlogs. cbn [rbind getitem_int].
  unfold index. change (0 - 1 <? 0)%Z with true. cbv iota.
  change (List.length (first :: rest)) with (S (List.length rest)).
  replace (0 - 1 + Z.of_nat (S (List.length rest)) <? 0)%Z with false
    by (symmetry; apply Z.ltb_ge; lia).
  replace (Z.to_nat (0 - 1 + Z.of_nat (S (List.length rest))))
    with (List.length rest) by lia.
  clear. revert first. induction rest as [|x rest IH]; intros first; [reflexivity|].
  cbn [List.length nth_error]. rewrite (IH x). f_equal. symmetry. apply last_cons.
Qed.

(** ** The reward redeemer, continued *)

(** On a reply that is an object carrying [success]: a true [success]
    gives the success message built from [result.message]; a false
    [success] with a [code] other than '30009' gives the failure message
    built from [message].  A field the code reads and the reply lacks
    raises [KeyError] out of the redeemer: [result] (or its [message])
    under a true [success], [code] under a false one. *)
Theorem reward_code_object_replies
    (server : list request -> response) (token : value) (code : string) (w : world)
    (d : list (string * value)) (s : value) :
  server (sent w ++ [reward_request token code])%list = Body (VDict d) ->
  lookup "success" d = Some s ->
  (truthy s = true ->
   (forall r m, lookup "result" d = Some r -> getitem r "message" = Ok m ->
                fst (reward_code server token code w)
                  = Ok (Some ("兑换福利码成功: " ++ py_str m))) /\
   (lookup "result" d = None ->
    fst (reward_code server token code w) = Raise (KeyError "result")) /\
   (forall r e, lookup "result" d = Some r -> getitem r "message" = Raise e ->
                fst (reward_code server token code w) = Raise e)) /\
  (truthy s = false ->
   (forall c m, lookup "code" d = Some c -> eq_str c "30009" = false ->
                lookup "message" d = Some m ->
                fst (reward_code server token code w)
                  = Ok (Some ("兑换福利码失败: " ++ py_str m))) /\
   (lookup "code" d = None ->
    fst (reward_code server token code w) = Raise (KeyError "code")) /\
   (forall c, lookup "code" d = Some c -> eq_str c "30009" = false ->
              lookup "message" d = None ->
              fst (reward_code server token code w) = Raise (KeyError "message"))).
Proof.
  intros Hreply Hs. unfold reward_code. cbn [sent record_sent]. rewrite Hreply.
  cbn [fst]. unfold reward_code_reply. cbn [contains getitem rbind].
  rewrite Hs. cbn [negb rbind]. split; intros Ht; rewrite Ht.
  - repeat split.
    + intros r m Hr Hm. rewrite Hr. cbn [rbind]. now rewrite Hm.
    + intros Hr. now rewrite Hr.
    + intros r e Hr Hm. rewrite Hr. cbn [rbind]. now rewrite Hm.
  - repeat split.
    + intros c m Hc Hne Hm. rewrite Hc. cbn [rbind]. now rewrite Hne, Hm.
    + intros Hc. now rewrite Hc.
    + intros c Hc Hne Hm. rewrite Hc. cbn [rbind]. now rewrite Hne, Hm.
Qed.

(** ** One account's exception ends the run *)

Lemma main_loop_app (server : list request -> response) (cfg : config)
    (before after : list string) :
  forall results rewards w,
    main_loop server cfg (before ++ after) results rewards w =
    match main_loop server cfg before results rewards w with
    | (Ok (results', rewards'), w') => main_loop server cfg after results' rewards' w'
    | (Raise e, w') => (Raise e, w')
    end.
Proof.
  induction before as [|user before IH]; intros results rewards w; [reflexivity|].
  cbn [app main_loop].
  destruct (main_user server cfg user results rewards w) as [[[results' rewards']|e] w'];
    [apply IH | reflexivity].
Qed.

(** When the session of an account raises, or the redemption for it
    does, [main] raises the same exception: the accounts after it are not
    processed (the last request posted is one of that account), nothing is
    dispatched and no list of credentials is produced, whatever the
    accounts before it achieved. *)
Theorem exception_in_one_account_aborts_main
    (server : list request -> response) (cfg : config) (v : cfgval) (w : world)
    (before after : list string) (user : string)
    (results : list Outcome.t) (rewards : list string) (w0 w1 : world) (e : exn) :
  lookup "refresh_tokens" cfg = Some v ->
  configured v = (before ++ user :: after)%list ->
  main_loop server cfg before [] [] w = (Ok (results, rewards), w0) ->
  main_user server cfg user results rewards w0 = (Raise e, w1) ->
  main server cfg w = (Raise e, w1) /\
  pushed w1 = pushed w /\
  exists extra,
    sent w1 = (sent w0 ++ extra)%list /\ 1 <= List.length extra <= 5.
Proof.
  intros Hcfg Husers Hbefore Huser.
  pose proof (main_loop_requests server cfg before [] [] w) as Hb. cbv zeta in Hb.
  rewrite Hbefore in Hb. cbn [fst snd] in Hb. destruct Hb as [_ Hp0].
  pose proof (main_user_requests server cfg user results rewards w0) as Hu.
  cbv zeta in Hu. rewrite Huser in Hu. cbn [snd] in Hu.
  destruct Hu as [extra [Hsent [Hlen Hp1]]].
  split; [|split; [congruence|]].
  - unfold main. rewrite Hcfg. fold (configured v). rewrite Husers, main_loop_app, Hbefore.
    cbn [main_loop]. now rewrite Huser.
  - exists extra. split; assumption.
Qed.

(** A reply to the redemption that does not decode as JSON raises out of
    the redeemer and out of the turn of the loop of [main]: [.json()] is
    called outside the [try] of [reward_code]. *)
Theorem undecodable_redemption_raises
    (server : list request -> response) (cfg : config) (user : string)
    (results : list Outcome.t) (rewards : list string) (w : world)
    (o : Outcome.t) (s : SignIn.t) (w1 : world) (msg : string) :
  SignIn.run server (SignIn.__init__ cfg user, w) = (Ok o, (s, w1)) ->
  truthy (SignIn.access_token s) = true ->
  server (sent w1 ++ [reward_request (SignIn.access_token s) redeem_code])%list
    = Garbage msg ->
  main_user server cfg user results rewards w
    = (Raise (RequestException msg),
       record_sent (reward_request (SignIn.access_token s) redeem_code) w1).
Proof.
  intros Hrun Ht Hreply. unfold main_user. rewrite Hrun, Ht. cbn [negb].
  fold redeem_code. unfold reward_code. cbn [sent record_sent]. now rewrite Hreply.
Qed.

(** ** The dispatcher, continued *)

Lemma enabled_iff (names : list string) (b : backend) :
  enabled names b = true <-> In (name_of b) (map normalised names).
Proof.
  unfold enabled, str_in. fold normalised. rewrite existsb_exists. split.
  - intros [x [Hin Hx]]. apply String.eqb_eq in Hx. now subst x.
  - intros Hin. exists (name_of b). split; [exact Hin | apply String.eqb_refl].
Qed.

(** Which adapters [push] invokes depends only on the set of the
    configured names once lowercased and trimmed: their order, their
    repetitions and their spelling in capitals or with blanks around make
    no difference, and a name repeated does not repeat the invocation. *)
Theorem push_depends_on_the_set_of_names
    (cfg cfg' : config) (v v' : cfgval) (content content_html : string)
    (title : option string) (w : world) :
  lookup "push_types" cfg = Some v ->
  lookup "push_types" cfg' = Some v' ->
  (forall name, In name (map normalised (configured v))
                <-> In name (map normalised (configured v'))) ->
  exists adapters,
    NoDup adapters /\
    pushed (snd (push cfg content content_html title w))
      = (pushed w ++ map (fun b => mk_push_call b cfg content content_html title)
                         adapters)%list /\
    pushed (snd (push cfg' content content_html title w))
      = (pushed w ++ map (fun b => mk_push_call b cfg' content content_html title)
                         adapters)%list.
Proof.
  intros H H' Hsame. exists (filter (enabled (configured v)) backends).
  rewrite (push_dispatched cfg v _ _ _ w H), (push_dispatched cfg' v' _ _ _ w H').
  cbn [snd pushed]. unfold dispatched. split; [|split; [reflexivity|]].
  - apply NoDup_filter. unfold backends.
    repeat (constructor; [cbn [In]; intuition discriminate|]). constructor.
  - do 2 f_equal. apply filter_ext. intros b.
    destruct (enabled (configured v) b) eqn:E, (enabled (configured v') b) eqn:E';
      try reflexivity; exfalso.
    + apply enabled_iff, Hsame, enabled_iff in E. congruence.
    + apply enabled_iff, Hsame, enabled_iff in E'. congruence.
Qed.

(** A [push_types] given as one string names at most one adapter: it is
    compared whole, commas included, so [push] invokes at most one
    adapter, and none when the string holds a comma, lowercasing and
    trimming keeping the commas of a string, as Python's do. *)
Theorem push_string_names_at_most_one_adapter
    (cfg : config) (s : string) (content content_html : string)
    (title : option string) (w : world) :
  lookup "push_types" cfg = Some (CStr s) ->
  exists adapters,
    pushed (snd (push cfg content content_html title w))
      = (pushed w ++ map (fun b => mk_push_call b cfg content content_html title)
                         adapters)%list /\
    List.length adapters <= 1 /\
    ((forall t, has_char comma t = true -> has_char comma (strip (lower t)) = true) ->
     has_char comma s = true -> adapters = []).
Proof.
  intros H. rewrite (push_dispatched cfg (CStr s) _ _ _ w H). cbn [snd pushed].
  unfold dispatched, configured. eexists. split; [reflexivity|].
  unfold enabled, str_in, backends. cbn [map existsb filter name_of]. fold (normalised s).
  destruct (String.eqb_spec "dingtalk" (normalised s)) as [E1|E1];
    destruct (String.eqb_spec "serverchan" (normalised s)) as [E2|E2];
    destruct (String.eqb_spec "pushdeer" (normalised s)) as [E3|E3];
    destruct (String.eqb_spec "telegram" (normalised s)) as [E4|E4];
    destruct (String.eqb_spec "pushplus" (normalised s)) as [E5|E5];
    destruct (String.eqb_spec "smtp" (normalised s)) as [E6|E6];
    destruct (String.eqb_spec "feishu" (normalised s)) as [E7|E7];
    try congruence; cbn [orb List.length]; (split; [lia|]); intros Hkeep Hc;
    try reflexivity; apply Hkeep in Hc; fold (normalised s) in Hc;
    first [rewrite <- E1 in Hc | rewrite <- E2 in Hc | rewrite <- E3 in Hc
          | rewrite <- E4 in Hc | rewrite <- E5 in Hc | rewrite <- E6 in Hc
          | rewrite <- E7 in Hc]; discriminate Hc.
Qed.

(** ** main, continued *)


(** With an empty list of accounts [main] posts no request and returns
    an empty list of credentials, yet it dispatches one envelope, whose
    plain and marked-up texts are empty, to every enabled adapter. *)
Theorem main_without_accounts
    (server : list request -> response) (cfg : config) (names : cfgval) (w : world) :
  lookup "refresh_tokens" cfg = Some (CList []) ->
  lookup "push_types" cfg = Some names ->
  main server cfg w
    = (Ok [], mk_world (sent w)
                (pushed w ++ dispatched cfg (configured names) "" "" (Some "阿里云盘签到"))).
Proof.
  intros Hcfg Hpush. unfold main. rewrite Hcfg. cbn [main_loop map join String.concat].
  now rewrite (push_dispatched cfg names _ _ _ w Hpush).
Qed.

(** ** Handing the credentials over *)

Lemma join_items_strings (items : list string) (i : nat) :
  join_items i (map VStr items) = inl items.
Proof.
  revert i. induction items as [|x items IH]; intros i; [reflexivity|].
  cbn [map join_items]. now rewrite IH.
Qed.

Lemma join_items_inl (l : list value) :
  forall i items, join_items i l = inl items -> l = map VStr items.
Proof.
  induction l as [|x l IH]; intros i items H.
  - cbn in H. now inversion H.
  - destruct x; cbn [join_items] in H; try discriminate.
    destruct (join_items (S i) l) as [items'|msg] eqn:E; [|discriminate].
    inversion H; subst items. cbn [map]. f_equal. now apply (IH (S i)).
Qed.

Lemma lookup_dict_set_same {A} (k : string) (v : A) (d : list (string * A)) :
  lookup k (dict_set k v d) = Some v.
Proof.
  induction d as [|[k' v'] d IH]; cbn [dict_set lookup].
  - now rewrite String.eqb_refl.
  - destruct (String.eqb k k') eqn:E; cbn [lookup]; rewrite ?E, ?String.eqb_refl;
      [reflexivity | exact IH].
Qed.

Lemma lookup_dict_set_other {A} (k k0 : string) (v : A) (d : list (string * A)) :
  k0 <> k -> lookup k0 (dict_set k v d) = lookup k0 d.
Proof.
  intros Hne. induction d as [|[k' v'] d IH]; cbn [dict_set lookup].
  - destruct (String.eqb_spec k0 k); [contradiction | reflexivity].
  - destruct (String.eqb_spec k k') as [->|E]; cbn [lookup].
    + destruct (String.eqb_spec k0 k'); [contradiction | reflexivity].
    + now rewrite IH.
Qed.

Lemma dict_set_keys {A} (k : string) (v : A) (d : list (string * A)) (x : A) :
  lookup k d = Some x -> map fst (dict_set k v d) = map fst d.
Proof.
  induction d as [|[k' v'] d IH]; cbn [dict_set lookup map fst]; [discriminate|].
  destruct (String.eqb_spec k k') as [->|E]; cbn [map fst]; [reflexivity|].
  intros H. now rewrite (IH H).
Qed.

(** Without [--action], the end of [main] replaces the [refresh_tokens]
    of the configuration object by one string, the credentials joined by
    commas, keeps every other entry and the order of the keys, calls
    neither GitHub nor an adapter and posts nothing.  Read again as lines
    371-375 read it, that string is one user.  If a credential is not a
    string, the join raises [TypeError]. *)
Theorem update_refresh_tokens_in_the_configuration
    (update_secret : string -> string -> option string)
    (cfg : config) (new_users : list value) (w : world) :
  (forall items, new_users = map VStr items ->
     exists p,
       update_refresh_tokens update_secret false cfg new_users w = (Ok p, w) /\
       lookup "refresh_tokens" (final_config p) = Some (CStr (join "," items)) /\
       configured (CStr (join "," items)) = [join "," items] /\
       (forall k, k <> "refresh_tokens" -> lookup k (final_config p) = lookup k cfg) /\
       (forall old, lookup "refresh_tokens" cfg = Some old ->
                    map fst (final_config p) = map fst cfg) /\
       secret_calls p = []) /\
  ((forall items, new_users <> map VStr items) ->
   update_refresh_tokens update_secret false cfg new_users w = (Raise TypeError, w)).
Proof.
  unfold update_refresh_tokens. cbn [negb]. split.
  - intros items ->. rewrite join_items_strings. eexists. split; [reflexivity|].
    cbn [final_config secret_calls]. split; [apply lookup_dict_set_same|].
    split; [reflexivity|]. split; [|split; [|reflexivity]].
    + intros k Hk. now apply lookup_dict_set_other.
    + intros old Hold. now apply (dict_set_keys _ _ _ old).
  - intros Hbad. destruct (join_items 0 new_users) as [items|msg] eqn:E; [|reflexivity].
    exfalso. apply (Hbad items). now apply (join_items_inl _ 0).
Qed.

(** With [--action], the end of [main] leaves the configuration as it is
    and calls [github.update_secret] once, for [REFRESH_TOKENS], with the
    credentials joined by commas; it posts nothing.  When the call
    returns, no adapter is invoked.  When it raises, [main] does not
    raise: it dispatches one envelope whose plain and marked-up texts are
    both the failure message followed by the text of the exception.  A
    credential that is not a string is reported the same way, with the
    message of the [TypeError] of the join, and GitHub is not called. *)
Theorem update_refresh_tokens_on_github
    (update_secret : string -> string -> option string)
    (cfg : config) (names : cfgval) (new_users : list value) (w : world) :
  lookup "push_types" cfg = Some names ->
  let alert e :=
    dispatched cfg (configured names)
      ("Action 更新 Github Secrets 失败: " ++ e) ("Action 更新 Github Secrets 失败: " ++ e)
      (Some "阿里云盘签到") in
  (forall items, new_users = map VStr items ->
     exists p w',
       update_refresh_tokens update_secret true cfg new_users w = (Ok p, w') /\
       final_config p = cfg /\
       secret_calls p = [("REFRESH_TOKENS", join "," items)] /\
       sent w' = sent w /\
       (update_secret "REFRESH_TOKENS" (join "," items) = None -> w' = w) /\
       (forall e, update_secret "REFRESH_TOKENS" (join "," items) = Some e ->
                  pushed w' = (pushed w ++ alert e)%list)) /\
  (forall msg, join_items 0 new_users = inr msg ->
     exists p w',
       update_refresh_tokens update_secret true cfg new_users w = (Ok p, w') /\
       secret_calls p = [] /\
       pushed w' = (pushed w ++ alert msg)%list).
Proof.
  intros Hpush alert. subst alert. unfold update_refresh_tokens. cbn [negb]. split.
  - intros items ->. rewrite join_items_strings.
    destruct (update_secret "REFRESH_TOKENS" (join "," items)) as [e|] eqn:E.
    + rewrite (push_dispatched cfg names _ _ _ w Hpush). eexists _, _.
      split; [reflexivity|]. cbn [final_config secret_calls sent pushed].
      repeat split; try discriminate. intros e' He. now inversion He.
    + eexists _, _. split; [reflexivity|]. cbn [final_config secret_calls].
      repeat split; discriminate.
  - intros msg ->. rewrite (push_dispatched cfg names _ _ _ w Hpush). eexists _, _.
    split; [reflexivity|]. split; reflexivity.
Qed.

(** What [main] hands to GitHub comes back from the environment of the
    next run as the same list of credentials, provided the list is not
    empty and no credential holds a comma; an empty list comes back as one
    empty credential. *)
Theorem refresh_tokens_round_trip
    (update_secret : string -> string -> option string)
    (cfg : config) (items : list string) (w : world) (env : environ) (d : env_config) :
  Forall (fun x => has_char comma x = false) items ->
  lookup "REFRESH_TOKENS" env = Some (join "," items) ->
  get_config_from_env env = Ok (Some d) ->
  (forall p w',
      update_refresh_tokens update_secret true cfg (map VStr items) w = (Ok p, w') ->
      secret_calls p = [("REFRESH_TOKENS", join "," items)]) /\
  (items <> [] -> lookup "refresh_tokens" d = Some (Some (CList items))) /\
  (items = [] -> lookup "refresh_tokens" d = Some (Some (CList [""]))).
Proof.
  intros Hcomma Henv Hd.
  destruct (env_config_lists env d Hd) as [tokens [types [Ht [_ [Hl _]]]]].
  rewrite Henv in Ht. inversion Ht; subst tokens. clear Ht.
  assert (Hcall : forall p w',
             update_refresh_tokens update_secret true cfg (map VStr items) w = (Ok p, w') ->
             secret_calls p = [("REFRESH_TOKENS", join "," items)]).
  { unfold update_refresh_tokens. cbn [negb]. rewrite join_items_strings.
    intros p w'. destruct (update_secret "REFRESH_TOKENS" (join "," items)).
    - destruct (push cfg _ _ _ w) as [[u|e] w1]; intros H; inversion H; reflexivity.
    - intros H. inversion H. reflexivity. }
  split; [exact Hcall|split].
  - intros Hne. rewrite Hl. do 3 f_equal. now apply (split_join comma).
  - intros ->. exact Hl.
Qed.

(** ** main, from the configuration to the end *)



(** ** Properties of the session, collected *)

(** Whatever the server answers and whether it returns or raises, the
    exchange keeps the configuration, the credential and the masked
    credential of the session, the streak count and the reward text, and
    invokes no adapter; the rotated credential either stays or is the
    [refresh_token] field of a reply of the server to the exchange request;
    [self.error] is left alone when the exchange returns [True] and is set
    when it returns [False]. *)
Theorem exchange_invariants (server : list request -> response) (retry : bool)
    (st : SignIn.t * world) :
  let r := SignIn.__get_access_token server retry st in
  same_account (fst st) (fst (snd r)) /\
  pushed (snd (snd r)) = pushed (snd st) /\
  rotation server (fst st) (fst (snd r)) /\
  SignIn.signin_count (fst (snd r)) = SignIn.signin_count (fst st) /\
  SignIn.signin_reward (fst (snd r)) = SignIn.signin_reward (fst st) /\
  (fst r = Ok true -> SignIn.error (fst (snd r)) = SignIn.error (fst st)) /\
  (forall b, fst r = Ok b -> b = false -> SignIn.error (fst (snd r)) <> ENone).
Proof.
  exact (get_access_token_frame server retry st).
Qed.

(** Whatever the server answers and whether it returns or raises, the
    sign-in keeps the configuration, the credential and the masked
    credential of the session, the access credential, the rotated
    credential and the phone, and invokes no adapter. *)
Theorem sign_in_invariants (server : list request -> response) (retry : bool)
    (st : SignIn.t * world) :
  let r := SignIn.__sign_in server retry st in
  same_account (fst st) (fst (snd r)) /\
  pushed (snd (snd r)) = pushed (snd st) /\
  SignIn.new_refresh_token (fst (snd r)) = SignIn.new_refresh_token (fst st) /\
  SignIn.access_token (fst (snd r)) = SignIn.access_token (fst st) /\
  SignIn.phone (fst (snd r)) = SignIn.phone (fst st).
Proof.
  exact (sign_in_frame server retry st).
Qed.

(** When the exchange of a fresh session returns [False], the session
    stops there: it returns the outcome of the session as the exchange
    left it, with no request after those of the exchange; the outcome has
    [success] false and count 0, and [self.error] is set. *)
Theorem failed_exchange_gives_failed_outcome (server : list request -> response) (cfg : config)
    (tok : string) (w : world) (s1 : SignIn.t) (w1 : world) :
  SignIn.__get_access_token server false (SignIn.__init__ cfg tok, w)
    = (Ok false, (s1, w1)) ->
  SignIn.run server (SignIn.__init__ cfg tok, w)
    = (Ok (SignIn.__generate_result s1), (s1, w1)) /\
  Outcome.success (SignIn.__generate_result s1) = false /\
  Outcome.count (SignIn.__generate_result s1) = VInt 0 /\
  SignIn.error s1 <> ENone.
Proof.
  exact (run_exchange_failed server cfg tok w s1 w1).
Qed.

(** After a successful exchange: a sign-in reply in which [success] is
    not found is stored whole as the error; two transport failures of the
    sign-in store the message of the second, after exactly two sign-in
    requests.  Either way the session returns an outcome with [success]
    false and count 0. *)
Theorem failed_sign_in_gives_failed_outcome (server : list request -> response) (cfg : config)
    (tok : string) (w : world) (s1 : SignIn.t) (w1 : world) :
  SignIn.__get_access_token server false (SignIn.__init__ cfg tok, w)
    = (Ok true, (s1, w1)) ->
  let rq := SignIn.signin_request s1 in
  (forall data,
      server (sent w1 ++ [rq])%list = Body data ->
      contains data "success" = Ok false ->
      let s2 := SignIn.set_error (EVal data) s1 in
      SignIn.run server (SignIn.__init__ cfg tok, w)
        = (Ok (SignIn.__generate_result s2), (s2, record_sent rq w1)) /\
      Outcome.success (SignIn.__generate_result s2) = false /\
      Outcome.count (SignIn.__generate_result s2) = VInt 0) /\
  (forall e1 e2,
      transport_failure (server (sent w1 ++ [rq])%list) e1 ->
      transport_failure (server (sent w1 ++ [rq; rq])%list) e2 ->
      let s2 := SignIn.set_error (EExc e2) s1 in
      SignIn.run server (SignIn.__init__ cfg tok, w)
        = (Ok (SignIn.__generate_result s2), (s2, record_sent rq (record_sent rq w1))) /\
      Outcome.success (SignIn.__generate_result s2) = false /\
      Outcome.count (SignIn.__generate_result s2) = VInt 0).
Proof.
  exact (run_sign_in_failed server cfg tok w s1 w1).
Qed.

(** For every sign-in reply that carries [success] and a log in which
    no entry has status 'miss', the sign-in raises [TypeError] after its
    request, on the first attempt as on the retry, and leaves the session
    as it was: neither the streak nor an error is recorded. *)
Theorem sign_in_raises_without_miss (server : list request -> response) (retry : bool)
    (self : SignIn.t) (w : world) (data r : value) (logs : list value) :
  server (sent w ++ [SignIn.signin_request self])%list = Body data ->
  contains data "success" = Ok true ->
  getitem data "result" = Ok r ->
  getitem r "signInLogs" = Ok (VList logs) ->
  Forall (fun d => exists status, getitem d "status" = Ok status /\
                                  eq_str status "miss" = false) logs ->
  SignIn.__sign_in server retry (self, w) =
    (Raise TypeError, (self, record_sent (SignIn.signin_request self) w)).
Proof.
  exact (sign_in_without_miss_raises server retry self w data r logs).
Qed.

(** A credential of at least eight characters is masked into a string of
    the same length that starts with its first four characters, ends with
    its last four, and holds one mask symbol for each character in
    between. *)
Theorem masked_credential_of_eight_or_more (s : string) :
  8 <= String.length s ->
  exists first interior last,
    list_ascii_of_string s = (first ++ interior ++ last)%list /\
    List.length first = 4 /\ List.length last = 4 /\
    SignIn.__hide_refresh_token s =
      string_of_list_ascii (first ++ repeat "*"%char (List.length interior) ++ last) /\
    String.length (SignIn.__hide_refresh_token s) = String.length s.
Proof.
  exact (hide_refresh_token_long s).
Qed.

End Program.

(** * The program on ASCII text: instances

    The theorems above hold whatever [lower] and [strip] compute.  Below
    they are applied to concrete runs whose channel names are ASCII text,
    on which [str.lower] and [str.strip] are [lower_ascii] and
    [strip_ascii]. *)


Lemma C5_invalid_credential_fails_without_retry_witness :
  let self := SignIn.__init__ Scenario.cfg "abcdefgh12345678" in
  exists self' w',
    SignIn.__get_access_token Scenario.expired false (self, world0)
      = (Ok false, (self', w')) /\
    SignIn.error self' = EVal Scenario.expired_reply /\
    sent w' = [SignIn.token_request self] /\
    exists o,
      SignIn.run Scenario.expired (self, world0) = (Ok o, (self', w')) /\
      Outcome.success o = false /\
      Outcome.text o =
        "[abcd********5678] 签到失败" ++ nl ++ json_dumps (py_str Scenario.expired_reply).
Proof.
  intros self.
  destruct (C5_invalid_credential_fails_without_retry Scenario.expired false self world0
              Scenario.expired_reply (VStr "RefreshTokenExpired")
              eq_refl eq_refl (or_introl eq_refl))
    as [self' [w' [Hget [He [_ [_ [_ [_ [_ [Hsent [_ Hrun]]]]]]]]]]].
  destruct (Hrun eq_refl) as [o [Ho [Hs [_ Ht]]]].
  assert (Hu : Outcome.user o = VStr "abcd********5678").
  { assert (E : fst (SignIn.run Scenario.expired (self, world0)) = Ok o)
      by (now rewrite Ho).
    vm_compute in E. inversion E. reflexivity. }
  exists self', w'. split; [exact Hget|]. split; [exact He|]. split; [exact Hsent|].
  exists o. split; [exact Ho|]. split; [exact Hs|]. rewrite Ht, Hu. reflexivity.
Defined.

Lemma C3_today_is_the_entry_before_the_first_miss_witness :
  let self := SignIn.set_access_token (VStr "at")
                (SignIn.__init__ Scenario.cfg "abcdefgh12345678") in
  let server := Scenario.scripted
                  [Body (Scenario.signin_reply 5
                           [Scenario.day 1 "normal" true; Scenario.day 2 "miss" false])] in
  exists self',
    SignIn.__sign_in server false (self, world0) =
      (Ok VNone, (self', record_sent (SignIn.signin_request self) world0)) /\
    SignIn.signin_count self' = VInt 5 /\
    SignIn.signin_reward self' = VStr "获得 容量 1GB".
Proof.
  intros self server.
  destruct (C3_today_is_the_entry_before_the_first_miss server self world0
              (Scenario.signin_reply 5
                 [Scenario.day 1 "normal" true; Scenario.day 2 "miss" false])
              (VDict [("signInCount", VInt 5);
                      ("signInLogs", VList [Scenario.day 1 "normal" true;
                                            Scenario.day 2 "miss" false])])
              (VInt 5) (Scenario.day 1 "normal" true) (VBool true)
              [Scenario.day 1 "normal" true; Scenario.day 2 "miss" false] 1
              eq_refl eq_refl eq_refl eq_refl eq_refl (le_n 1))
    as [reward [self' [Hrun [Hself [_ [Htext _]]]]]].
  - split.
    + exists (Scenario.day 2 "miss" false), (VStr "miss"). repeat split.
    + intros i Hi. exists (Scenario.day 1 "normal" true), (VStr "normal").
      destruct i as [|i]; [repeat split | exfalso; lia].
  - reflexivity.
  - reflexivity.
  - intros _. exists (VDict [("name", VStr "容量"); ("description", VStr "1GB")]),
      (VStr "容量"), (VStr "1GB"). repeat split.
  - exists self'. split; [exact Hrun|].
    assert (Hr : reward = "获得 容量 1GB") by (cbv in Htext; now inversion Htext).
    subst self' reward. split; reflexivity.
Defined.

Lemma C6_push_invokes_the_enabled_adapters_witness :
  exists w',
    push lower_ascii strip_ascii Scenario.cfg "plain" "<b>marked up</b>" (Some "title") world0 = (Ok tt, w') /\
    pushed w' = [mk_push_call telegram Scenario.cfg "plain" "<b>marked up</b>" (Some "title")].
Proof.
  destruct (C6_push_invokes_the_enabled_adapters lower_ascii strip_ascii Scenario.cfg
              (CList [" Telegram "; "unknown_channel"])
              "plain" "<b>marked up</b>" (Some "title") world0 eq_refl)
    as [w' [Hpush [_ [Hpushed _]]]].
  exists w'. split; [exact Hpush | exact Hpushed].
Defined.

Lemma reward_code_results_witness :
  fst (reward_code Scenario.redeemed_before (VStr "at") redeem_code world0) = Ok None.
Proof.
  destruct (reward_code_results Scenario.redeemed_before (VStr "at") redeem_code world0)
    as [_ [[_ H] _]].
  apply H. exists [("success", VBool false); ("code", VStr "30009"); ("message", VStr "used")],
    (VBool false). repeat split.
Defined.

Lemma reward_attempted_iff_access_token_witness :
  let r := SignIn.run Scenario.two_accounts
             (SignIn.__init__ Scenario.cfg "abcdefgh12345678", world0) in
  let s := fst (snd r) in
  let w1 := snd (snd r) in
  r = (Ok (SignIn.__generate_result s), (s, w1)) /\
  truthy (SignIn.access_token s) = true /\
  sent (snd (main_user Scenario.two_accounts Scenario.cfg "abcdefgh12345678" [] [] world0))
    = (sent w1 ++ [reward_request (VStr "at") redeem_code])%list.
Proof.
  intros r s w1.
  assert (Hrun : r = (Ok (SignIn.__generate_result s), (s, w1)))
    by (vm_compute; reflexivity).
  split; [exact Hrun|]. split; [reflexivity|].
  destruct (reward_attempted_iff_access_token Scenario.two_accounts Scenario.cfg
              "abcdefgh12345678" [] [] world0 _ s w1 Hrun) as [Hsent _].
  exact Hsent.
Defined.

Lemma main_report_and_refresh_list_witness :
  let r := main lower_ascii strip_ascii Scenario.two_accounts Scenario.cfg world0 in
  r = (Ok [VStr "rotated"; VStr "0123456789"], snd r) /\
  (exists sessions later,
     map SignIn.refresh_token sessions = ["abcdefgh12345678"; "0123456789"] /\
     [VStr "rotated"; VStr "0123456789"] = map contribution sessions /\
     pushed (snd r) =
       (dispatched lower_ascii strip_ascii Scenario.cfg [" Telegram "; "unknown_channel"]
          (blank_line_separated
             (map (fun s => Outcome.text (SignIn.__generate_result s)) sessions))
          (blank_line_separated
             (map (fun s => Outcome.text_html (SignIn.__generate_result s)) sessions))
          (Some "阿里云盘签到") ++ later)%list) /\
  map pc_content (firstn 1 (pushed (snd r))) =
    ["[13800000000] 签到成功, 本月累计签到 5 天."
     ++ String "010" ("本次签到无奖励"
     ++ String "010" (String "010" ("[0123**6789] 签到失败"
     ++ String "010" (String "034"
          ("获取 access token 失败, 参数缺失: {'message': 'oops'}"
           ++ String "034" "")))))] /\
  map pc_content_html (firstn 1 (pushed (snd r))) =
    ["<code>13800000000</code> 签到成功, 本月累计签到 5 天."
     ++ String "010" ("本次签到无奖励"
     ++ String "010" (String "010" ("<code>0123**6789</code> 签到失败"
     ++ String "010" ("<code>" ++ String "034"
          ("获取 access token 失败, 参数缺失: {'message': 'oops'}"
           ++ String "034" "</code>")))))].
Proof.
  intros r.
  assert (Hmain : r = (Ok [VStr "rotated"; VStr "0123456789"], snd r))
    by (vm_compute; reflexivity).
  split; [exact Hmain|].
  destruct (main_report_and_refresh_list lower_ascii strip_ascii Scenario.two_accounts
              Scenario.cfg (CList ["abcdefgh12345678"; "0123456789"]) world0 _ _
              eq_refl Hmain)
    as [sessions [names [later [Hmap [_ [Hnames [Hpushed [_ [Hnew _]]]]]]]]].
  assert (E : names = CList [" Telegram "; "unknown_channel"])
    by (cbv in Hnames; now inversion Hnames).
  subst names. split.
  - exists sessions, later. split; [exact Hmap|]. split; [exact Hnew | exact Hpushed].
  - split; vm_compute; reflexivity.
Defined.

Lemma C10_success_iff_streak_nonzero_witness :
  exists o s w,
    SignIn.run Scenario.zero_count
      (SignIn.__init__ Scenario.cfg "abcdefgh12345678", world0) = (Ok o, (s, w)) /\
    Outcome.success o = false /\
    Outcome.count o = VInt 0 /\
    Outcome.text o =
      "[" ++ py_str (Outcome.user o) ++ "] 签到失败" ++ nl
      ++ String quote ("None" ++ String quote "").
Proof.
  destruct C10_success_iff_streak_nonzero as [_ [_ H]].
  edestruct (H Scenario.zero_count Scenario.cfg "abcdefgh12345678" world0)
    as [o [Hrun [Hs [Hc [Ht _]]]]].
  - lazy; reflexivity.
  - lazy; reflexivity.
  - reflexivity.
  - reflexivity.
  - reflexivity.
  - lazy; reflexivity.
  - exists o. eexists _, _. split; [exact Hrun|]. split; [exact Hs|].
    split; [exact Hc | exact Ht].
Defined.

Lemma hide_refresh_token_below_eight_witness :
  SignIn.__hide_refresh_token "abc" = "abcabc".
Proof.
  destruct (hide_refresh_token_below_eight "abc") as [_ H]; [cbn; lia|].
  apply H. cbn. lia.
Defined.

Lemma get_config_from_env_missing_variable_witness :
  get_config_from_env Case.env_without_smtp = Ok None.
Proof.
  apply (proj2 (get_config_from_env_missing_variable Case.env_without_smtp)).
  exists "SMTP_HOST". split; [cbn; tauto | reflexivity].
Defined.

Lemma get_config_from_env_lists_witness :
  exists d,
    get_config_from_env Case.full_env = Ok (Some d) /\
    lookup "refresh_tokens" d = Some (Some (CList ["abcdefgh12345678"; "0123456789"])).
Proof.
  eexists. split; [reflexivity|].
  destruct (get_config_from_env_lists Case.full_env _ eq_refl)
    as [tokens [types [Ht [_ [Hd _]]]]].
  inversion Ht; subst tokens. exact Hd.
Defined.

Lemma get_access_token_reply_not_object_witness :
  let self := SignIn.__init__ Scenario.cfg "abcdefgh12345678" in
  SignIn.run Case.list_reply (self, world0)
    = (Raise TypeError, (self, record_sent (SignIn.token_request self) world0)).
Proof.
  intros self.
  apply (get_access_token_reply_not_object Case.list_reply false self world0 (VList [])).
  - reflexivity.
  - discriminate.
Defined.


Lemma incomplete_exchange_still_redeems_witness :
  sent (snd (main_user Case.access_token_only Scenario.cfg "abcdefgh12345678" [] [] world0))
    = [SignIn.token_request (SignIn.__init__ Scenario.cfg "abcdefgh12345678");
       reward_request (VStr "at") redeem_code].
Proof.
  destruct (incomplete_exchange_still_redeems Case.access_token_only Scenario.cfg
              "abcdefgh12345678" [] [] world0 [("access_token", VStr "at")] (VStr "at")
              eq_refl (fun c Hc => False_ind _ (eq_ind None
                 (fun x => match x with None => True | Some _ => False end) I _ Hc))
              eq_refl eq_refl (or_introl eq_refl))
    as [o [s [_ [_ [_ [H _]]]]]].
  exact H.
Defined.

Lemma main_posts_at_most_five_requests_per_account_witness :
  exists extra,
    sent (snd (main lower_ascii strip_ascii Scenario.two_accounts Scenario.cfg world0)) = extra /\
    List.length extra <= 10.
Proof.
  destruct (main_posts_at_most_five_requests_per_account lower_ascii strip_ascii Scenario.two_accounts
              Scenario.cfg (CList ["abcdefgh12345678"; "0123456789"]) world0 eq_refl)
    as [extra [Hsent [Hlen _]]].
  exists extra. split; [exact Hsent | exact Hlen].
Defined.

Lemma sign_in_retry_answered_witness :
  let self := SignIn.set_access_token (VStr "at")
                (SignIn.__init__ Scenario.cfg "abcdefgh12345678") in
  sent (snd (snd (SignIn.__sign_in Case.flaky_sign_in false (self, world0))))
    = [SignIn.signin_request self; SignIn.signin_request self].
Proof.
  intros self.
  destruct (sign_in_retry_answered Case.flaky_sign_in self world0 "timed out"
              (Scenario.signin_reply 5 [Scenario.day 1 "normal" true;
                                        Scenario.day 2 "miss" false])
              (or_introl eq_refl) eq_refl) as [_ H].
  exact H.
Defined.

Lemma find_current_day_miss_first_witness :
  SignIn.find_current_day (Scenario.signin_reply 0 Case.miss_first) 0 Case.miss_first
    = Ok (Scenario.day 3 "miss" true).
Proof.
  apply (find_current_day_miss_first (Scenario.signin_reply 0 Case.miss_first)
           (VDict [("signInCount", VInt 0); ("signInLogs", VList Case.miss_first)])
           (Scenario.day 1 "miss" false) (VStr "miss")
           [Scenario.day 2 "miss" false; Scenario.day 3 "miss" true]);
    reflexivity.
Defined.

Lemma reward_code_object_replies_witness :
  fst (reward_code Case.redeemed_now (VStr "at") redeem_code world0)
    = Ok (Some "兑换福利码成功: 500G").
Proof.
  destruct (reward_code_object_replies Case.redeemed_now (VStr "at") redeem_code world0
              [("success", VBool true); ("result", VDict [("message", VStr "500G")])]
              (VBool true) eq_refl eq_refl) as [H _].
  destruct (H eq_refl) as [H1 _].
  apply (H1 (VDict [("message", VStr "500G")]) (VStr "500G")); reflexivity.
Defined.

Lemma exception_in_one_account_aborts_main_witness :
  fst (main lower_ascii strip_ascii Scenario.full_month Scenario.cfg world0) = Raise TypeError.
Proof.
  set (r := main_user Scenario.full_month Scenario.cfg "abcdefgh12345678" [] [] world0).
  assert (Huser : r = (Raise TypeError, snd r)) by (vm_compute; reflexivity).
  destruct (exception_in_one_account_aborts_main lower_ascii strip_ascii Scenario.full_month Scenario.cfg
              (CList ["abcdefgh12345678"; "0123456789"]) world0
              [] ["0123456789"] "abcdefgh12345678" [] [] world0 (snd r) TypeError
              eq_refl eq_refl eq_refl Huser) as [H _].
  now rewrite H.
Defined.

Lemma undecodable_redemption_raises_witness :
  fst (main_user Case.garbled_redemption Scenario.cfg "abcdefgh12345678" [] [] world0)
    = Raise (RequestException "Expecting value: line 1 column 1 (char 0)").
Proof.
  set (r := SignIn.run Case.garbled_redemption
              (SignIn.__init__ Scenario.cfg "abcdefgh12345678", world0)).
  assert (Hrun : r = (Ok (SignIn.__generate_result (fst (snd r))),
                      (fst (snd r), snd (snd r)))) by (vm_compute; reflexivity).
  rewrite (undecodable_redemption_raises Case.garbled_redemption Scenario.cfg
             "abcdefgh12345678" [] [] world0 _ _ _
             "Expecting value: line 1 column 1 (char 0)" Hrun eq_refl eq_refl).
  reflexivity.
Defined.

Lemma push_depends_on_the_set_of_names_witness :
  invoked (pushed (snd (push lower_ascii strip_ascii [("push_types", CList ["smtp"; "Telegram "; "SMTP"])]
                          "plain" "html" None world0)))
  = invoked (pushed (snd (push lower_ascii strip_ascii [("push_types", CList ["telegram"; "smtp"])]
                            "plain" "html" None world0))).
Proof.
  destruct (push_depends_on_the_set_of_names lower_ascii strip_ascii
              [("push_types", CList ["smtp"; "Telegram "; "SMTP"])]
              [("push_types", CList ["telegram"; "smtp"])]
              (CList ["smtp"; "Telegram "; "SMTP"]) (CList ["telegram"; "smtp"])
              "plain" "html" None world0 eq_refl eq_refl)
    as [adapters [_ [H1 H2]]].
  - intros name. cbn. tauto.
  - rewrite H1, H2. unfold invoked. cbn [pushed world0 app].
    rewrite !map_map. reflexivity.
Defined.

(** The ASCII case mapping and trimming keep a comma. *)
Lemma ascii_methods_keep_commas (t : string) :
  has_char comma t = true -> has_char comma (strip_ascii (lower_ascii t)) = true.
Proof.
  unfold strip_ascii, lower_ascii, has_char.
  rewrite !list_ascii_of_string_of_list_ascii. intros Hc.
  apply existsb_exists in Hc. destruct Hc as [c [Hin Hc]].
  apply Ascii.eqb_eq in Hc. subst c.
  assert (Hl : In comma (map lower_char (list_ascii_of_string t))).
  { change comma with (lower_char comma) at 1. now apply in_map. }
  assert (Hstrip : forall l, In comma l -> In comma (lstrip l)).
  { induction l as [|c l IH]; [easy|]. cbn [lstrip]. intros [->|Hin']; [now left|].
    destruct (is_space c); [now apply IH | now right]. }
  apply existsb_exists. exists comma. split; [|apply Ascii.eqb_refl].
  rewrite <- in_rev. apply Hstrip. rewrite <- in_rev. now apply Hstrip.
Qed.

Lemma push_string_names_at_most_one_adapter_witness :
  invoked (pushed (snd (push lower_ascii strip_ascii Case.cfg_one_push_type
                          "plain" "html" None world0))) = [smtp] /\
  invoked (pushed (snd (push lower_ascii strip_ascii
                          [("push_types", CStr "telegram,smtp")]
                          "plain" "html" None world0))) = [].
Proof.
  destruct (push_string_names_at_most_one_adapter lower_ascii strip_ascii
              Case.cfg_one_push_type " SMTP "
              "plain" "html" None world0 eq_refl) as [adapters [H _]].
  destruct (push_string_names_at_most_one_adapter lower_ascii strip_ascii
              [("push_types", CStr "telegram,smtp")] "telegram,smtp"
              "plain" "html" None world0 eq_refl) as [none [H' [_ Hnone]]].
  split; [reflexivity|].
  rewrite H', (Hnone ascii_methods_keep_commas eq_refl). reflexivity.
Defined.


Lemma main_without_accounts_witness :
  main lower_ascii strip_ascii Scenario.dead_exchange Case.cfg_one_push_type world0
    = (Ok [], mk_world [] [mk_push_call smtp Case.cfg_one_push_type "" ""
                             (Some "阿里云盘签到")]).
Proof.
  rewrite (main_without_accounts lower_ascii strip_ascii Scenario.dead_exchange Case.cfg_one_push_type
             (CStr " SMTP ") world0 eq_refl eq_refl).
  reflexivity.
Defined.

Lemma update_refresh_tokens_in_the_configuration_witness :
  exists p,
    update_refresh_tokens lower_ascii strip_ascii Case.accepting false Scenario.cfg
      [VStr "rotated"; VStr "0123456789"] world0 = (Ok p, world0) /\
    lookup "refresh_tokens" (final_config p) = Some (CStr "rotated,0123456789").
Proof.
  destruct (proj1 (update_refresh_tokens_in_the_configuration lower_ascii strip_ascii Case.accepting Scenario.cfg
                     [VStr "rotated"; VStr "0123456789"] world0)
              ["rotated"; "0123456789"] eq_refl) as [p [H1 [H2 _]]].
  exists p. split; [exact H1 | exact H2].
Defined.

Lemma update_refresh_tokens_on_github_witness :
  exists p w',
    update_refresh_tokens lower_ascii strip_ascii Case.refusing true Scenario.cfg
      [VStr "rotated"; VStr "0123456789"] world0 = (Ok p, w') /\
    map pc_content (pushed w') = ["Action 更新 Github Secrets 失败: 403 Forbidden"].
Proof.
  destruct (proj1 (update_refresh_tokens_on_github lower_ascii strip_ascii Case.refusing Scenario.cfg
                     (CList [" Telegram "; "unknown_channel"])
                     [VStr "rotated"; VStr "0123456789"] world0 eq_refl)
              ["rotated"; "0123456789"] eq_refl) as [p [w' [H1 [_ [_ [_ [_ H2]]]]]]].
  exists p, w'. split; [exact H1|]. rewrite (H2 "403 Forbidden" eq_refl). reflexivity.
Defined.

Lemma refresh_tokens_round_trip_witness :
  exists d,
    get_config_from_env Case.next_env = Ok (Some d) /\
    lookup "refresh_tokens" d = Some (Some (CList ["rotated"; "0123456789"])).
Proof.
  eexists. split; [reflexivity|].
  assert (Hcomma : Forall (fun x => has_char comma x = false) ["rotated"; "0123456789"])
    by (repeat constructor).
  destruct (refresh_tokens_round_trip lower_ascii strip_ascii Case.accepting Scenario.cfg
              ["rotated"; "0123456789"] world0 Case.next_env _ Hcomma
              eq_refl eq_refl) as [_ [H _]].
  apply H. discriminate.
Defined.


Lemma masked_credential_of_eight_or_more_witness :
  String.length (SignIn.__hide_refresh_token "abcdefgh12345678") = 16.
Proof.
  destruct (masked_credential_of_eight_or_more "abcdefgh12345678")
    as [a [b [c [_ [_ [_ [_ H]]]]]]].
  - cbn. lia.
  - exact H.
Defined.

Lemma run_posts_at_most_four_requests_witness :
  List.length (sent (snd (snd (SignIn.run Scenario.flaky_exchange
                 (SignIn.__init__ Scenario.cfg "abcdefgh12345678", world0))))) <= 4.
Proof.
  destruct (run_posts_at_most_four_requests Scenario.flaky_exchange
              (SignIn.__init__ Scenario.cfg "abcdefgh12345678", world0))
    as [n [m [H [Hn [Hm _]]]]].
  rewrite H, !length_app, !repeat_length. cbn [snd sent world0 List.length]. lia.
Defined.

Lemma exchange_invariants_witness :
  SignIn.error (fst (snd (SignIn.__get_access_token Scenario.dead_exchange false
                            (SignIn.__init__ Scenario.cfg "abcdefgh12345678", world0))))
  <> ENone.
Proof.
  destruct (exchange_invariants Scenario.dead_exchange false
              (SignIn.__init__ Scenario.cfg "abcdefgh12345678", world0))
    as [_ [_ [_ [_ [_ [_ H]]]]]].
  apply (H false); reflexivity.
Defined.

Lemma failed_exchange_gives_failed_outcome_witness :
  let self := SignIn.__init__ Scenario.cfg "abcdefgh12345678" in
  exists s w,
    SignIn.run Scenario.expired (self, world0) = (Ok (SignIn.__generate_result s), (s, w)) /\
    Outcome.success (SignIn.__generate_result s) = false /\
    SignIn.error s <> ENone.
Proof.
  intros self.
  destruct (failed_exchange_gives_failed_outcome Scenario.expired Scenario.cfg "abcdefgh12345678" world0
              (SignIn.set_error (EVal Scenario.expired_reply) self)
              (record_sent (SignIn.token_request self) world0) eq_refl)
    as [Hrun [Hs [_ He]]].
  eexists _, _. split; [exact Hrun|]. split; [exact Hs | exact He].
Defined.

Lemma failed_sign_in_gives_failed_outcome_witness :
  exists o s w,
    SignIn.run (Scenario.scripted
                  [Body (Scenario.token_reply (VStr "at") (VStr "rt") (VStr "13800000000"));
                   Body (VDict [("code", VStr "AccessTokenInvalid")])])
      (SignIn.__init__ Scenario.cfg "abcdefgh12345678", world0) = (Ok o, (s, w)) /\
    Outcome.success o = false /\
    SignIn.error s = EVal (VDict [("code", VStr "AccessTokenInvalid")]).
Proof.
  set (server := Scenario.scripted _).
  destruct (failed_sign_in_gives_failed_outcome server Scenario.cfg "abcdefgh12345678" world0 _ _ eq_refl)
    as [H _].
  destruct (H (VDict [("code", VStr "AccessTokenInvalid")]) eq_refl eq_refl)
    as [Hrun [Hs _]].
  eexists _, _, _. split; [exact Hrun|]. split; [exact Hs | reflexivity].
Defined.

Lemma sign_in_raises_without_miss_witness :
  let self := SignIn.set_access_token (VStr "at")
                (SignIn.__init__ Scenario.cfg "abcdefgh12345678") in
  let logs := [Scenario.day 1 "normal" true; Scenario.day 2 "normal" false] in
  fst (SignIn.__sign_in (Scenario.scripted [Body (Scenario.signin_reply 2 logs)]) false
         (self, world0)) = Raise TypeError.
Proof.
  intros self logs.
  rewrite (sign_in_raises_without_miss
             (Scenario.scripted [Body (Scenario.signin_reply 2 logs)]) false self world0
             (Scenario.signin_reply 2 logs)
             (VDict [("signInCount", VInt 2); ("signInLogs", VList logs)]) logs
             eq_refl eq_refl eq_refl eq_refl).
  - reflexivity.
  - repeat constructor; eexists; split; reflexivity.
Defined.
